(** * Top of the Rock scraper: extraction and reconciliation engine

    A shallow embedding of [src/scraper.py]: the JSON payload scanner
    [_collect_slots_from_json], the currency parser [_parse_currency], the
    rendered-text scanner [_collect_slots_from_dom], the response callback
    [on_response], the two writers [_save_json] and [_save_csv], and
    [scrape_top_of_rock], which runs them all.

    Modelling conventions.
    - A Python [str] is a list of code points ([pystr]); [u "..."] is the
      text of a literal.  White space ([str.strip], [\s]), decimal digits
      ([\d], [int]), word characters ([\b]) and printable characters ([repr])
      are those of all of Unicode, from the tables of Unicode 14 that
      CPython 3.11 carries.
    - Case mapping ([lower], [upper]) is modelled on the letters of ASCII and
      on the Kelvin sign, the one other character whose lower-case form is an
      ASCII string.  The program lower-cases keys and URLs only to compare
      them with ASCII words, and no other lower-case form can take part in
      such a comparison (that of the capital I with a dot above is an i
      followed by a combining dot, and no alias or keyword has an i at its
      end).  It upper-cases matched time tokens only, whose characters
      (decimal digits, a colon, white space, the letters of AM and PM) have
      no other upper-case forms.
    - A decoded JSON payload is the tagged union [json].  A float carries the
      text that [str] gives it, the only operation the program applies to it.
    - A [dict] is an association list in insertion order: assigning to a key
      already present keeps the position (and the key) and replaces the value.
    - The list [out] that the JSON scanner appends to is threaded explicitly.
    - A call to the browser, to the file system or to the terminal either
      returns or raises ([result]); what each call of a run does is given by
      a record [Run].  The files are a dictionary from paths to texts, passed
      through the writers. *)

From Stdlib Require Import String Ascii List Bool Arith NArith ZArith Lia.
From Stdlib Require Import DecimalString Permutation Sorted.
Import ListNotations.

Local Open Scope string_scope.
Local Open Scope list_scope.
Local Open Scope nat_scope.

(** ** Characters and strings *)

(** A Python string: its code points. *)
Definition pystr : Type := list N.

Module PyStr.

Definition in_range (lo hi c : N) : bool := ((lo <=? c) && (c <=? hi))%N.

(** [c] lies in one of the ranges of a table. *)
Definition in_ranges (table : list (N * N)) (c : N) : bool :=
  existsb (fun r => in_range (fst r) (snd r) c) table.

(** The white space of [str.isspace], [str.strip] and [\s]. *)
Definition SPACE_RANGES : list (N * N) :=
  [(9, 13); (28, 32); (133, 133); (160, 160); (5760, 5760); (8192, 8202); 
   (8232, 8233); (8239, 8239); (8287, 8287); (12288, 12288)]%N.

(** The decimal digits of [\d] and [int]: runs of the digits 0 to 9 of the
    scripts of Unicode 14, each run starting at a digit 0. *)
Definition DECIMAL_RANGES : list (N * N) :=
  [(48, 57); (1632, 1641); (1776, 1785); (1984, 1993); (2406, 2415); 
   (2534, 2543); (2662, 2671); (2790, 2799); (2918, 2927); (3046, 3055); 
   (3174, 3183); (3302, 3311); (3430, 3439); (3558, 3567); (3664, 3673); 
   (3792, 3801); (3872, 3881); (4160, 4169); (4240, 4249); (6112, 6121); 
   (6160, 6169); (6470, 6479); (6608, 6617); (6784, 6793); (6800, 6809); 
   (6992, 7001); (7088, 7097); (7232, 7241); (7248, 7257); (42528, 42537); 
   (43216, 43225); (43264, 43273); (43472, 43481); (43504, 43513); 
   (43600, 43609); (44016, 44025); (65296, 65305); (66720, 66729); 
   (68912, 68921); (69734, 69743); (69872, 69881); (69942, 69951); 
   (70096, 70105); (70384, 70393); (70736, 70745); (70864, 70873); 
   (71248, 71257); (71360, 71369); (71472, 71481); (71904, 71913); 
   (72016, 72025); (72784, 72793); (73040, 73049); (73120, 73129); 
   (92768, 92777); (92864, 92873); (93008, 93017); (120782, 120831); 
   (123200, 123209); (123632, 123641); (125264, 125273); (130032, 130041)]%N.

(** The characters of [str.isalnum] (Unicode 14): with the underscore, the
    word characters of [\w] and [\b]. *)
Definition ALNUM_RANGES : list (N * N) :=
  [(48, 57); (65, 90); (97, 122); (170, 170); (178, 179); (181, 181); 
   (185, 186); (188, 190); (192, 214); (216, 246); (248, 705); (710, 721); 
   (736, 740); (748, 748); (750, 750); (880, 884); (886, 887); (890, 893); 
   (895, 895); (902, 902); (904, 906); (908, 908); (910, 929); (931, 1013); 
   (1015, 1153); (1162, 1327); (1329, 1366); (1369, 1369); (1376, 1416); 
   (1488, 1514); (1519, 1522); (1568, 1610); (1632, 1641); (1646, 1647); 
   (1649, 1747); (1749, 1749); (1765, 1766); (1774, 1788); (1791, 1791); 
   (1808, 1808); (1810, 1839); (1869, 1957); (1969, 1969); (1984, 2026); 
   (2036, 2037); (2042, 2042); (2048, 2069); (2074, 2074); (2084, 2084); 
   (2088, 2088); (2112, 2136); (2144, 2154); (2160, 2183); (2185, 2190); 
   (2208, 2249); (2308, 2361); (2365, 2365); (2384, 2384); (2392, 2401); 
   (2406, 2415); (2417, 2432); (2437, 2444); (2447, 2448); (2451, 2472); 
   (2474, 2480); (2482, 2482); (2486, 2489); (2493, 2493); (2510, 2510); 
   (2524, 2525); (2527, 2529); (2534, 2545); (2548, 2553); (2556, 2556); 
   (2565, 2570); (2575, 2576); (2579, 2600); (2602, 2608); (2610, 2611); 
   (2613, 2614); (2616, 2617); (2649, 2652); (2654, 2654); (2662, 2671); 
   (2674, 2676); (2693, 2701); (2703, 2705); (2707, 2728); (2730, 2736); 
   (2738, 2739); (2741, 2745); (2749, 2749); (2768, 2768); (2784, 2785); 
   (2790, 2799); (2809, 2809); (2821, 2828); (2831, 2832); (2835, 2856); 
   (2858, 2864); (2866, 2867); (2869, 2873); (2877, 2877); (2908, 2909); 
   (2911, 2913); (2918, 2927); (2929, 2935); (2947, 2947); (2949, 2954); 
   (2958, 2960); (2962, 2965); (2969, 2970); (2972, 2972); (2974, 2975); 
   (2979, 2980); (2984, 2986); (2990, 3001); (3024, 3024); (3046, 3058); 
   (3077, 3084); (3086, 3088); (3090, 3112); (3114, 3129); (3133, 3133); 
   (3160, 3162); (3165, 3165); (3168, 3169); (3174, 3183); (3192, 3198); 
   (3200, 3200); (3205, 3212); (3214, 3216); (3218, 3240); (3242, 3251); 
   (3253, 3257); (3261, 3261); (3293, 3294); (3296, 3297); (3302, 3311); 
   (3313, 3314); (3332, 3340); (3342, 3344); (3346, 3386); (3389, 3389); 
   (3406, 3406); (3412, 3414); (3416, 3425); (3430, 3448); (3450, 3455); 
   (3461, 3478); (3482, 3505); (3507, 3515); (3517, 3517); (3520, 3526); 
   (3558, 3567); (3585, 3632); (3634, 3635); (3648, 3654); (3664, 3673); 
   (3713, 3714); (3716, 3716); (3718, 3722); (3724, 3747); (3749, 3749); 
   (3751, 3760); (3762, 3763); (3773, 3773); (3776, 3780); (3782, 3782); 
   (3792, 3801); (3804, 3807); (3840, 3840); (3872, 3891); (3904, 3911); 
   (3913, 3948); (3976, 3980); (4096, 4138); (4159, 4169); (4176, 4181); 
   (4186, 4189); (4193, 4193); (4197, 4198); (4206, 4208); (4213, 4225); 
   (4238, 4238); (4240, 4249); (4256, 4293); (4295, 4295); (4301, 4301); 
   (4304, 4346); (4348, 4680); (4682, 4685); (4688, 4694); (4696, 4696); 
   (4698, 4701); (4704, 4744); (4746, 4749); (4752, 4784); (4786, 4789); 
   (4792, 4798); (4800, 4800); (4802, 4805); (4808, 4822); (4824, 4880); 
   (4882, 4885); (4888, 4954); (4969, 4988); (4992, 5007); (5024, 5109); 
   (5112, 5117); (5121, 5740); (5743, 5759); (5761, 5786); (5792, 5866); 
   (5870, 5880); (5888, 5905); (5919, 5937); (5952, 5969); (5984, 5996); 
   (5998, 6000); (6016, 6067); (6103, 6103); (6108, 6108); (6112, 6121); 
   (6128, 6137); (6160, 6169); (6176, 6264); (6272, 6276); (6279, 6312); 
   (6314, 6314); (6320, 6389); (6400, 6430); (6470, 6509); (6512, 6516); 
   (6528, 6571); (6576, 6601); (6608, 6618); (6656, 6678); (6688, 6740); 
   (6784, 6793); (6800, 6809); (6823, 6823); (6917, 6963); (6981, 6988); 
   (6992, 7001); (7043, 7072); (7086, 7141); (7168, 7203); (7232, 7241); 
   (7245, 7293); (7296, 7304); (7312, 7354); (7357, 7359); (7401, 7404); 
   (7406, 7411); (7413, 7414); (7418, 7418); (7424, 7615); (7680, 7957); 
   (7960, 7965); (7968, 8005); (8008, 8013); (8016, 8023); (8025, 8025); 
   (8027, 8027); (8029, 8029); (8031, 8061); (8064, 8116); (8118, 8124); 
   (8126, 8126); (8130, 8132); (8134, 8140); (8144, 8147); (8150, 8155); 
   (8160, 8172); (8178, 8180); (8182, 8188); (8304, 8305); (8308, 8313); 
   (8319, 8329); (8336, 8348); (8450, 8450); (8455, 8455); (8458, 8467); 
   (8469, 8469); (8473, 8477); (8484, 8484); (8486, 8486); (8488, 8488); 
   (8490, 8493); (8495, 8505); (8508, 8511); (8517, 8521); (8526, 8526); 
   (8528, 8585); (9312, 9371); (9450, 9471); (10102, 10131); (11264, 11492); 
   (11499, 11502); (11506, 11507); (11517, 11517); (11520, 11557); 
   (11559, 11559); (11565, 11565); (11568, 11623); (11631, 11631); 
   (11648, 11670); (11680, 11686); (11688, 11694); (11696, 11702); 
   (11704, 11710); (11712, 11718); (11720, 11726); (11728, 11734); 
   (11736, 11742); (11823, 11823); (12293, 12295); (12321, 12329); 
   (12337, 12341); (12344, 12348); (12353, 12438); (12445, 12447); 
   (12449, 12538); (12540, 12543); (12549, 12591); (12593, 12686); 
   (12690, 12693); (12704, 12735); (12784, 12799); (12832, 12841); 
   (12872, 12879); (12881, 12895); (12928, 12937); (12977, 12991); 
   (13312, 19903); (19968, 42124); (42192, 42237); (42240, 42508); 
   (42512, 42539); (42560, 42606); (42623, 42653); (42656, 42735); 
   (42775, 42783); (42786, 42888); (42891, 42954); (42960, 42961); 
   (42963, 42963); (42965, 42969); (42994, 43009); (43011, 43013); 
   (43015, 43018); (43020, 43042); (43056, 43061); (43072, 43123); 
   (43138, 43187); (43216, 43225); (43250, 43255); (43259, 43259); 
   (43261, 43262); (43264, 43301); (43312, 43334); (43360, 43388); 
   (43396, 43442); (43471, 43481); (43488, 43492); (43494, 43518); 
   (43520, 43560); (43584, 43586); (43588, 43595); (43600, 43609); 
   (43616, 43638); (43642, 43642); (43646, 43695); (43697, 43697); 
   (43701, 43702); (43705, 43709); (43712, 43712); (43714, 43714); 
   (43739, 43741); (43744, 43754); (43762, 43764); (43777, 43782); 
   (43785, 43790); (43793, 43798); (43808, 43814); (43816, 43822); 
   (43824, 43866); (43868, 43881); (43888, 44002); (44016, 44025); 
   (44032, 55203); (55216, 55238); (55243, 55291); (63744, 64109); 
   (64112, 64217); (64256, 64262); (64275, 64279); (64285, 64285); 
   (64287, 64296); (64298, 64310); (64312, 64316); (64318, 64318); 
   (64320, 64321); (64323, 64324); (64326, 64433); (64467, 64829); 
   (64848, 64911); (64914, 64967); (65008, 65019); (65136, 65140); 
   (65142, 65276); (65296, 65305); (65313, 65338); (65345, 65370); 
   (65382, 65470); (65474, 65479); (65482, 65487); (65490, 65495); 
   (65498, 65500); (65536, 65547); (65549, 65574); (65576, 65594); 
   (65596, 65597); (65599, 65613); (65616, 65629); (65664, 65786); 
   (65799, 65843); (65856, 65912); (65930, 65931); (66176, 66204); 
   (66208, 66256); (66273, 66299); (66304, 66339); (66349, 66378); 
   (66384, 66421); (66432, 66461); (66464, 66499); (66504, 66511); 
   (66513, 66517); (66560, 66717); (66720, 66729); (66736, 66771); 
   (66776, 66811); (66816, 66855); (66864, 66915); (66928, 66938); 
   (66940, 66954); (66956, 66962); (66964, 66965); (66967, 66977); 
   (66979, 66993); (66995, 67001); (67003, 67004); (67072, 67382); 
   (67392, 67413); (67424, 67431); (67456, 67461); (67463, 67504); 
   (67506, 67514); (67584, 67589); (67592, 67592); (67594, 67637); 
   (67639, 67640); (67644, 67644); (67647, 67669); (67672, 67702); 
   (67705, 67742); (67751, 67759); (67808, 67826); (67828, 67829); 
   (67835, 67867); (67872, 67897); (67968, 68023); (68028, 68047); 
   (68050, 68096); (68112, 68115); (68117, 68119); (68121, 68149); 
   (68160, 68168); (68192, 68222); (68224, 68255); (68288, 68295); 
   (68297, 68324); (68331, 68335); (68352, 68405); (68416, 68437); 
   (68440, 68466); (68472, 68497); (68521, 68527); (68608, 68680); 
   (68736, 68786); (68800, 68850); (68858, 68899); (68912, 68921); 
   (69216, 69246); (69248, 69289); (69296, 69297); (69376, 69415); 
   (69424, 69445); (69457, 69460); (69488, 69505); (69552, 69579); 
   (69600, 69622); (69635, 69687); (69714, 69743); (69745, 69746); 
   (69749, 69749); (69763, 69807); (69840, 69864); (69872, 69881); 
   (69891, 69926); (69942, 69951); (69956, 69956); (69959, 69959); 
   (69968, 70002); (70006, 70006); (70019, 70066); (70081, 70084); 
   (70096, 70106); (70108, 70108); (70113, 70132); (70144, 70161); 
   (70163, 70187); (70272, 70278); (70280, 70280); (70282, 70285); 
   (70287, 70301); (70303, 70312); (70320, 70366); (70384, 70393); 
   (70405, 70412); (70415, 70416); (70419, 70440); (70442, 70448); 
   (70450, 70451); (70453, 70457); (70461, 70461); (70480, 70480); 
   (70493, 70497); (70656, 70708); (70727, 70730); (70736, 70745); 
   (70751, 70753); (70784, 70831); (70852, 70853); (70855, 70855); 
   (70864, 70873); (71040, 71086); (71128, 71131); (71168, 71215); 
   (71236, 71236); (71248, 71257); (71296, 71338); (71352, 71352); 
   (71360, 71369); (71424, 71450); (71472, 71483); (71488, 71494); 
   (71680, 71723); (71840, 71922); (71935, 71942); (71945, 71945); 
   (71948, 71955); (71957, 71958); (71960, 71983); (71999, 71999); 
   (72001, 72001); (72016, 72025); (72096, 72103); (72106, 72144); 
   (72161, 72161); (72163, 72163); (72192, 72192); (72203, 72242); 
   (72250, 72250); (72272, 72272); (72284, 72329); (72349, 72349); 
   (72368, 72440); (72704, 72712); (72714, 72750); (72768, 72768); 
   (72784, 72812); (72818, 72847); (72960, 72966); (72968, 72969); 
   (72971, 73008); (73030, 73030); (73040, 73049); (73056, 73061); 
   (73063, 73064); (73066, 73097); (73112, 73112); (73120, 73129); 
   (73440, 73458); (73648, 73648); (73664, 73684); (73728, 74649); 
   (74752, 74862); (74880, 75075); (77712, 77808); (77824, 78894); 
   (82944, 83526); (92160, 92728); (92736, 92766); (92768, 92777); 
   (92784, 92862); (92864, 92873); (92880, 92909); (92928, 92975); 
   (92992, 92995); (93008, 93017); (93019, 93025); (93027, 93047); 
   (93053, 93071); (93760, 93846); (93952, 94026); (94032, 94032); 
   (94099, 94111); (94176, 94177); (94179, 94179); (94208, 100343); 
   (100352, 101589); (101632, 101640); (110576, 110579); (110581, 110587); 
   (110589, 110590); (110592, 110882); (110928, 110930); (110948, 110951); 
   (110960, 111355); (113664, 113770); (113776, 113788); (113792, 113800); 
   (113808, 113817); (119520, 119539); (119648, 119672); (119808, 119892); 
   (119894, 119964); (119966, 119967); (119970, 119970); (119973, 119974); 
   (119977, 119980); (119982, 119993); (119995, 119995); (119997, 120003); 
   (120005, 120069); (120071, 120074); (120077, 120084); (120086, 120092); 
   (120094, 120121); (120123, 120126); (120128, 120132); (120134, 120134); 
   (120138, 120144); (120146, 120485); (120488, 120512); (120514, 120538); 
   (120540, 120570); (120572, 120596); (120598, 120628); (120630, 120654); 
   (120656, 120686); (120688, 120712); (120714, 120744); (120746, 120770); 
   (120772, 120779); (120782, 120831); (122624, 122654); (123136, 123180); 
   (123191, 123197); (123200, 123209); (123214, 123214); (123536, 123565); 
   (123584, 123627); (123632, 123641); (124896, 124902); (124904, 124907); 
   (124909, 124910); (124912, 124926); (124928, 125124); (125127, 125135); 
   (125184, 125251); (125259, 125259); (125264, 125273); (126065, 126123); 
   (126125, 126127); (126129, 126132); (126209, 126253); (126255, 126269); 
   (126464, 126467); (126469, 126495); (126497, 126498); (126500, 126500); 
   (126503, 126503); (126505, 126514); (126516, 126519); (126521, 126521); 
   (126523, 126523); (126530, 126530); (126535, 126535); (126537, 126537); 
   (126539, 126539); (126541, 126543); (126545, 126546); (126548, 126548); 
   (126551, 126551); (126553, 126553); (126555, 126555); (126557, 126557); 
   (126559, 126559); (126561, 126562); (126564, 126564); (126567, 126570); 
   (126572, 126578); (126580, 126583); (126585, 126588); (126590, 126590); 
   (126592, 126601); (126603, 126619); (126625, 126627); (126629, 126633); 
   (126635, 126651); (127232, 127244); (130032, 130041); (131072, 173791); 
   (173824, 177976); (177984, 178205); (178208, 183969); (183984, 191456); 
   (194560, 195101); (196608, 201546)]%N.

(** The characters of [str.isprintable] (Unicode 14), which [repr] leaves as
    they are. *)
Definition PRINTABLE_RANGES : list (N * N) :=
  [(32, 126); (161, 172); (174, 887); (890, 895); (900, 906); (908, 908); 
   (910, 929); (931, 1327); (1329, 1366); (1369, 1418); (1421, 1423); 
   (1425, 1479); (1488, 1514); (1519, 1524); (1542, 1563); (1565, 1756); 
   (1758, 1805); (1808, 1866); (1869, 1969); (1984, 2042); (2045, 2093); 
   (2096, 2110); (2112, 2139); (2142, 2142); (2144, 2154); (2160, 2190); 
   (2200, 2273); (2275, 2435); (2437, 2444); (2447, 2448); (2451, 2472); 
   (2474, 2480); (2482, 2482); (2486, 2489); (2492, 2500); (2503, 2504); 
   (2507, 2510); (2519, 2519); (2524, 2525); (2527, 2531); (2534, 2558); 
   (2561, 2563); (2565, 2570); (2575, 2576); (2579, 2600); (2602, 2608); 
   (2610, 2611); (2613, 2614); (2616, 2617); (2620, 2620); (2622, 2626); 
   (2631, 2632); (2635, 2637); (2641, 2641); (2649, 2652); (2654, 2654); 
   (2662, 2678); (2689, 2691); (2693, 2701); (2703, 2705); (2707, 2728); 
   (2730, 2736); (2738, 2739); (2741, 2745); (2748, 2757); (2759, 2761); 
   (2763, 2765); (2768, 2768); (2784, 2787); (2790, 2801); (2809, 2815); 
   (2817, 2819); (2821, 2828); (2831, 2832); (2835, 2856); (2858, 2864); 
   (2866, 2867); (2869, 2873); (2876, 2884); (2887, 2888); (2891, 2893); 
   (2901, 2903); (2908, 2909); (2911, 2915); (2918, 2935); (2946, 2947); 
   (2949, 2954); (2958, 2960); (2962, 2965); (2969, 2970); (2972, 2972); 
   (2974, 2975); (2979, 2980); (2984, 2986); (2990, 3001); (3006, 3010); 
   (3014, 3016); (3018, 3021); (3024, 3024); (3031, 3031); (3046, 3066); 
   (3072, 3084); (3086, 3088); (3090, 3112); (3114, 3129); (3132, 3140); 
   (3142, 3144); (3146, 3149); (3157, 3158); (3160, 3162); (3165, 3165); 
   (3168, 3171); (3174, 3183); (3191, 3212); (3214, 3216); (3218, 3240); 
   (3242, 3251); (3253, 3257); (3260, 3268); (3270, 3272); (3274, 3277); 
   (3285, 3286); (3293, 3294); (3296, 3299); (3302, 3311); (3313, 3314); 
   (3328, 3340); (3342, 3344); (3346, 3396); (3398, 3400); (3402, 3407); 
   (3412, 3427); (3430, 3455); (3457, 3459); (3461, 3478); (3482, 3505); 
   (3507, 3515); (3517, 3517); (3520, 3526); (3530, 3530); (3535, 3540); 
   (3542, 3542); (3544, 3551); (3558, 3567); (3570, 3572); (3585, 3642); 
   (3647, 3675); (3713, 3714); (3716, 3716); (3718, 3722); (3724, 3747); 
   (3749, 3749); (3751, 3773); (3776, 3780); (3782, 3782); (3784, 3789); 
   (3792, 3801); (3804, 3807); (3840, 3911); (3913, 3948); (3953, 3991); 
   (3993, 4028); (4030, 4044); (4046, 4058); (4096, 4293); (4295, 4295); 
   (4301, 4301); (4304, 4680); (4682, 4685); (4688, 4694); (4696, 4696); 
   (4698, 4701); (4704, 4744); (4746, 4749); (4752, 4784); (4786, 4789); 
   (4792, 4798); (4800, 4800); (4802, 4805); (4808, 4822); (4824, 4880); 
   (4882, 4885); (4888, 4954); (4957, 4988); (4992, 5017); (5024, 5109); 
   (5112, 5117); (5120, 5759); (5761, 5788); (5792, 5880); (5888, 5909); 
   (5919, 5942); (5952, 5971); (5984, 5996); (5998, 6000); (6002, 6003); 
   (6016, 6109); (6112, 6121); (6128, 6137); (6144, 6157); (6159, 6169); 
   (6176, 6264); (6272, 6314); (6320, 6389); (6400, 6430); (6432, 6443); 
   (6448, 6459); (6464, 6464); (6468, 6509); (6512, 6516); (6528, 6571); 
   (6576, 6601); (6608, 6618); (6622, 6683); (6686, 6750); (6752, 6780); 
   (6783, 6793); (6800, 6809); (6816, 6829); (6832, 6862); (6912, 6988); 
   (6992, 7038); (7040, 7155); (7164, 7223); (7227, 7241); (7245, 7304); 
   (7312, 7354); (7357, 7367); (7376, 7418); (7424, 7957); (7960, 7965); 
   (7968, 8005); (8008, 8013); (8016, 8023); (8025, 8025); (8027, 8027); 
   (8029, 8029); (8031, 8061); (8064, 8116); (8118, 8132); (8134, 8147); 
   (8150, 8155); (8157, 8175); (8178, 8180); (8182, 8190); (8208, 8231); 
   (8240, 8286); (8304, 8305); (8308, 8334); (8336, 8348); (8352, 8384); 
   (8400, 8432); (8448, 8587); (8592, 9254); (9280, 9290); (9312, 11123); 
   (11126, 11157); (11159, 11507); (11513, 11557); (11559, 11559); 
   (11565, 11565); (11568, 11623); (11631, 11632); (11647, 11670); 
   (11680, 11686); (11688, 11694); (11696, 11702); (11704, 11710); 
   (11712, 11718); (11720, 11726); (11728, 11734); (11736, 11742); 
   (11744, 11869); (11904, 11929); (11931, 12019); (12032, 12245); 
   (12272, 12283); (12289, 12351); (12353, 12438); (12441, 12543); 
   (12549, 12591); (12593, 12686); (12688, 12771); (12784, 12830); 
   (12832, 42124); (42128, 42182); (42192, 42539); (42560, 42743); 
   (42752, 42954); (42960, 42961); (42963, 42963); (42965, 42969); 
   (42994, 43052); (43056, 43065); (43072, 43127); (43136, 43205); 
   (43214, 43225); (43232, 43347); (43359, 43388); (43392, 43469); 
   (43471, 43481); (43486, 43518); (43520, 43574); (43584, 43597); 
   (43600, 43609); (43612, 43714); (43739, 43766); (43777, 43782); 
   (43785, 43790); (43793, 43798); (43808, 43814); (43816, 43822); 
   (43824, 43883); (43888, 44013); (44016, 44025); (44032, 55203); 
   (55216, 55238); (55243, 55291); (63744, 64109); (64112, 64217); 
   (64256, 64262); (64275, 64279); (64285, 64310); (64312, 64316); 
   (64318, 64318); (64320, 64321); (64323, 64324); (64326, 64450); 
   (64467, 64911); (64914, 64967); (64975, 64975); (65008, 65049); 
   (65056, 65106); (65108, 65126); (65128, 65131); (65136, 65140); 
   (65142, 65276); (65281, 65470); (65474, 65479); (65482, 65487); 
   (65490, 65495); (65498, 65500); (65504, 65510); (65512, 65518); 
   (65532, 65533); (65536, 65547); (65549, 65574); (65576, 65594); 
   (65596, 65597); (65599, 65613); (65616, 65629); (65664, 65786); 
   (65792, 65794); (65799, 65843); (65847, 65934); (65936, 65948); 
   (65952, 65952); (66000, 66045); (66176, 66204); (66208, 66256); 
   (66272, 66299); (66304, 66339); (66349, 66378); (66384, 66426); 
   (66432, 66461); (66463, 66499); (66504, 66517); (66560, 66717); 
   (66720, 66729); (66736, 66771); (66776, 66811); (66816, 66855); 
   (66864, 66915); (66927, 66938); (66940, 66954); (66956, 66962); 
   (66964, 66965); (66967, 66977); (66979, 66993); (66995, 67001); 
   (67003, 67004); (67072, 67382); (67392, 67413); (67424, 67431); 
   (67456, 67461); (67463, 67504); (67506, 67514); (67584, 67589); 
   (67592, 67592); (67594, 67637); (67639, 67640); (67644, 67644); 
   (67647, 67669); (67671, 67742); (67751, 67759); (67808, 67826); 
   (67828, 67829); (67835, 67867); (67871, 67897); (67903, 67903); 
   (67968, 68023); (68028, 68047); (68050, 68099); (68101, 68102); 
   (68108, 68115); (68117, 68119); (68121, 68149); (68152, 68154); 
   (68159, 68168); (68176, 68184); (68192, 68255); (68288, 68326); 
   (68331, 68342); (68352, 68405); (68409, 68437); (68440, 68466); 
   (68472, 68497); (68505, 68508); (68521, 68527); (68608, 68680); 
   (68736, 68786); (68800, 68850); (68858, 68903); (68912, 68921); 
   (69216, 69246); (69248, 69289); (69291, 69293); (69296, 69297); 
   (69376, 69415); (69424, 69465); (69488, 69513); (69552, 69579); 
   (69600, 69622); (69632, 69709); (69714, 69749); (69759, 69820); 
   (69822, 69826); (69840, 69864); (69872, 69881); (69888, 69940); 
   (69942, 69959); (69968, 70006); (70016, 70111); (70113, 70132); 
   (70144, 70161); (70163, 70206); (70272, 70278); (70280, 70280); 
   (70282, 70285); (70287, 70301); (70303, 70313); (70320, 70378); 
   (70384, 70393); (70400, 70403); (70405, 70412); (70415, 70416); 
   (70419, 70440); (70442, 70448); (70450, 70451); (70453, 70457); 
   (70459, 70468); (70471, 70472); (70475, 70477); (70480, 70480); 
   (70487, 70487); (70493, 70499); (70502, 70508); (70512, 70516); 
   (70656, 70747); (70749, 70753); (70784, 70855); (70864, 70873); 
   (71040, 71093); (71096, 71133); (71168, 71236); (71248, 71257); 
   (71264, 71276); (71296, 71353); (71360, 71369); (71424, 71450); 
   (71453, 71467); (71472, 71494); (71680, 71739); (71840, 71922); 
   (71935, 71942); (71945, 71945); (71948, 71955); (71957, 71958); 
   (71960, 71989); (71991, 71992); (71995, 72006); (72016, 72025); 
   (72096, 72103); (72106, 72151); (72154, 72164); (72192, 72263); 
   (72272, 72354); (72368, 72440); (72704, 72712); (72714, 72758); 
   (72760, 72773); (72784, 72812); (72816, 72847); (72850, 72871); 
   (72873, 72886); (72960, 72966); (72968, 72969); (72971, 73014); 
   (73018, 73018); (73020, 73021); (73023, 73031); (73040, 73049); 
   (73056, 73061); (73063, 73064); (73066, 73102); (73104, 73105); 
   (73107, 73112); (73120, 73129); (73440, 73464); (73648, 73648); 
   (73664, 73713); (73727, 74649); (74752, 74862); (74864, 74868); 
   (74880, 75075); (77712, 77810); (77824, 78894); (82944, 83526); 
   (92160, 92728); (92736, 92766); (92768, 92777); (92782, 92862); 
   (92864, 92873); (92880, 92909); (92912, 92917); (92928, 92997); 
   (93008, 93017); (93019, 93025); (93027, 93047); (93053, 93071); 
   (93760, 93850); (93952, 94026); (94031, 94087); (94095, 94111); 
   (94176, 94180); (94192, 94193); (94208, 100343); (100352, 101589); 
   (101632, 101640); (110576, 110579); (110581, 110587); (110589, 110590); 
   (110592, 110882); (110928, 110930); (110948, 110951); (110960, 111355); 
   (113664, 113770); (113776, 113788); (113792, 113800); (113808, 113817); 
   (113820, 113823); (118528, 118573); (118576, 118598); (118608, 118723); 
   (118784, 119029); (119040, 119078); (119081, 119154); (119163, 119274); 
   (119296, 119365); (119520, 119539); (119552, 119638); (119648, 119672); 
   (119808, 119892); (119894, 119964); (119966, 119967); (119970, 119970); 
   (119973, 119974); (119977, 119980); (119982, 119993); (119995, 119995); 
   (119997, 120003); (120005, 120069); (120071, 120074); (120077, 120084); 
   (120086, 120092); (120094, 120121); (120123, 120126); (120128, 120132); 
   (120134, 120134); (120138, 120144); (120146, 120485); (120488, 120779); 
   (120782, 121483); (121499, 121503); (121505, 121519); (122624, 122654); 
   (122880, 122886); (122888, 122904); (122907, 122913); (122915, 122916); 
   (122918, 122922); (123136, 123180); (123184, 123197); (123200, 123209); 
   (123214, 123215); (123536, 123566); (123584, 123641); (123647, 123647); 
   (124896, 124902); (124904, 124907); (124909, 124910); (124912, 124926); 
   (124928, 125124); (125127, 125142); (125184, 125259); (125264, 125273); 
   (125278, 125279); (126065, 126132); (126209, 126269); (126464, 126467); 
   (126469, 126495); (126497, 126498); (126500, 126500); (126503, 126503); 
   (126505, 126514); (126516, 126519); (126521, 126521); (126523, 126523); 
   (126530, 126530); (126535, 126535); (126537, 126537); (126539, 126539); 
   (126541, 126543); (126545, 126546); (126548, 126548); (126551, 126551); 
   (126553, 126553); (126555, 126555); (126557, 126557); (126559, 126559); 
   (126561, 126562); (126564, 126564); (126567, 126570); (126572, 126578); 
   (126580, 126583); (126585, 126588); (126590, 126590); (126592, 126601); 
   (126603, 126619); (126625, 126627); (126629, 126633); (126635, 126651); 
   (126704, 126705); (126976, 127019); (127024, 127123); (127136, 127150); 
   (127153, 127167); (127169, 127183); (127185, 127221); (127232, 127405); 
   (127462, 127490); (127504, 127547); (127552, 127560); (127568, 127569); 
   (127584, 127589); (127744, 128727); (128733, 128748); (128752, 128764); 
   (128768, 128883); (128896, 128984); (128992, 129003); (129008, 129008); 
   (129024, 129035); (129040, 129095); (129104, 129113); (129120, 129159); 
   (129168, 129197); (129200, 129201); (129280, 129619); (129632, 129645); 
   (129648, 129652); (129656, 129660); (129664, 129670); (129680, 129708); 
   (129712, 129722); (129728, 129733); (129744, 129753); (129760, 129767); 
   (129776, 129782); (129792, 129938); (129940, 129994); (130032, 130041); 
   (131072, 173791); (173824, 177976); (177984, 178205); (178208, 183969); 
   (183984, 191456); (194560, 195101); (196608, 201546); (917760, 917999)]%N.

(** [c.isspace()], [\s] *)
Definition is_space (c : N) : bool := in_ranges SPACE_RANGES c.

(** [\d]: a decimal digit of any script. *)
Definition is_digit (c : N) : bool := in_ranges DECIMAL_RANGES c.

(** The value of a decimal digit: its offset in its run of digits. *)
Definition digit_value (c : N) : N :=
  match find (fun r => in_range (fst r) (snd r) c) DECIMAL_RANGES with
  | Some (lo, _) => ((c - lo) mod 10)%N
  | None => 0%N
  end.

(** [\w]: an alphanumeric character or the underscore. *)
Definition is_word (c : N) : bool := in_ranges ALNUM_RANGES c || (c =? 95)%N.

(** [c.isprintable()] *)
Definition is_printable (c : N) : bool := in_ranges PRINTABLE_RANGES c.

Definition is_upper (c : N) : bool := in_range 65 90 c.
Definition is_lower (c : N) : bool := in_range 97 122 c.

(** The Kelvin sign, whose lower-case form is the letter k. *)
Definition KELVIN : N := 8490%N.

Definition lower_char (c : N) : N :=
  if is_upper c then (c + 32)%N
  else if (c =? KELVIN)%N then 107%N
  else c.

Definition upper_char (c : N) : N :=
  if is_lower c then (c - 32)%N else c.

(** [s.lower()] and [s.upper()] *)
Definition lower (s : pystr) : pystr := map lower_char s.
Definition upper (s : pystr) : pystr := map upper_char s.

Fixpoint lstrip (s : pystr) : pystr :=
  match s with
  | [] => []
  | c :: r => if is_space c then lstrip r else s
  end.

Fixpoint rstrip (s : pystr) : pystr :=
  match s with
  | [] => []
  | c :: r =>
      match rstrip r with
      | [] => if is_space c then [] else [c]
      | r' => c :: r'
      end
  end.

(** [s.strip()] *)
Definition strip (s : pystr) : pystr := rstrip (lstrip s).

(** [s.replace(" ", "")] *)
Fixpoint remove_spaces (s : pystr) : pystr :=
  match s with
  | [] => []
  | c :: r => if (c =? 32)%N then remove_spaces r else c :: remove_spaces r
  end.

(** [s.replace("  ", " ")]: occurrences are found left to right and do not
    overlap. *)
Fixpoint collapse_double_spaces (s : pystr) : pystr :=
  match s with
  | [] => []
  | c :: r =>
      match r with
      | c' :: r' =>
          if (c =? 32)%N && (c' =? 32)%N
          then 32%N :: collapse_double_spaces r'
          else c :: collapse_double_spaces r
      | [] => [c]
      end
  end.

(** [s.split(sep)] for a one-character separator. *)
Fixpoint split (sep : N) (s : pystr) : list pystr :=
  match s with
  | [] => [[]]
  | c :: r =>
      if (c =? sep)%N then [] :: split sep r
      else match split sep r with
           | [] => [[c]]
           | w :: ws => (c :: w) :: ws
           end
  end.

(** [s[:n]] *)
Definition take (n : nat) (s : pystr) : pystr := firstn n s.

(** [int(s)] on a string of decimal digits; [None] stands for the
    [ValueError] Python raises on anything else the program could pass. *)
Fixpoint int_acc (acc : Z) (s : pystr) : option Z :=
  match s with
  | [] => Some acc
  | c :: r =>
      if is_digit c
      then int_acc (10 * acc + Z.of_N (digit_value c)) r
      else None
  end.

Definition int (s : pystr) : option Z :=
  match s with
  | [] => None
  | _ => int_acc 0 s
  end.

(** [c in s] for a character [c]. *)
Fixpoint contains_char (c : N) (s : pystr) : bool :=
  match s with
  | [] => false
  | c' :: r => (c =? c')%N || contains_char c r
  end.

(** Truthiness of a string: [if s:]. *)
Definition truthy (s : pystr) : bool :=
  match s with [] => false | _ => true end.

(** [a == b] *)
Fixpoint eqb (a b : pystr) : bool :=
  match a, b with
  | [], [] => true
  | x :: a', y :: b' => (x =? y)%N && eqb a' b'
  | _, _ => false
  end.

(** Comparison of strings: lexicographic, by code points. *)
Fixpoint compare (a b : pystr) : comparison :=
  match a, b with
  | [], [] => Eq
  | [], _ :: _ => Lt
  | _ :: _, [] => Gt
  | x :: a', y :: b' =>
      match (x ?= y)%N with
      | Eq => compare a' b'
      | ne => ne
      end
  end.

Definition ltb (a b : pystr) : bool :=
  match compare a b with Lt => true | _ => false end.

Definition leb (a b : pystr) : bool :=
  match compare a b with Gt => false | _ => true end.

(** [sep.join(parts)] *)
Fixpoint join (sep : pystr) (parts : list pystr) : pystr :=
  match parts with
  | [] => []
  | [x] => x
  | x :: xs => x ++ sep ++ join sep xs
  end.

(** [t] occurs in [s] as a contiguous substring. *)
Definition substring_of (t s : pystr) : Prop :=
  exists pre post, s = pre ++ t ++ post.

(** The code points of a text given in UTF-8. *)
Fixpoint utf8_decode (bytes : list N) : pystr :=
  match bytes with
  | [] => []
  | b0 :: r0 =>
      let one := b0 :: utf8_decode r0 in
      if (b0 <? 192)%N then one
      else
        match r0 with
        | b1 :: r1 =>
            if (b0 <? 224)%N
            then ((b0 - 192) * 64 + (b1 - 128))%N :: utf8_decode r1
            else
              match r1 with
              | b2 :: r2 =>
                  if (b0 <? 240)%N
                  then ((b0 - 224) * 4096 + (b1 - 128) * 64 + (b2 - 128))%N
                         :: utf8_decode r2
                  else
                    match r2 with
                    | b3 :: r3 =>
                        ((b0 - 240) * 262144 + (b1 - 128) * 4096
                         + (b2 - 128) * 64 + (b3 - 128))%N :: utf8_decode r3
                    | [] => one
                    end
              | [] => one
              end
        | [] => one
        end
  end.

End PyStr.

(** The text of a literal. *)
Definition u (s : string) : pystr :=
  PyStr.utf8_decode (map N_of_ascii (list_ascii_of_string s)).

(** ** The three regular expressions of the program

    Each pattern is written out as the matcher Python's backtracking engine
    runs for it: [re.search] tries the start positions left to right and, at
    one position, the alternatives in the engine's order (greedy first). *)

Module Re.
Import PyStr.

(** [re.search]: [at_ prev s] matches the pattern at the head of [s], [prev]
    being the character before it; the result carries the text before the
    match, [s[:m.start()]]. *)
Fixpoint search {M : Type} (at_ : option N -> pystr -> option M)
    (prev : option N) (s : pystr) : option (pystr * M) :=
  match at_ prev s with
  | Some m => Some ([], m)
  | None =>
      match s with
      | [] => None
      | c :: r =>
          match search at_ (Some c) r with
          | Some (pre, m) => Some (c :: pre, m)
          | None => None
          end
      end
  end.

(** The longest prefix of characters in a class, and the rest. *)
Fixpoint span (p : N -> bool) (s : pystr) : pystr * pystr :=
  match s with
  | c :: r => if p c then let (a, b) := span p r in (c :: a, b) else ([], s)
  | [] => ([], [])
  end.

(** [:(\d{2})] at the head of [s]: the two digits and the rest. *)
Definition colon_minutes (s : pystr) : option (pystr * pystr) :=
  match s with
  | c :: m1 :: m2 :: rest =>
      if (c =? 58)%N && is_digit m1 && is_digit m2
      then Some ([m1; m2], rest)
      else None
  | _ => None
  end.

(** [\d{1,2}:\d{2}] at the head of [s]: two hour digits are tried before
    one.  Returns the hour, the minutes and the rest. *)
Definition hour_minutes (s : pystr) : option (pystr * pystr * pystr) :=
  match s with
  | h1 :: r1 =>
      if is_digit h1 then
        let two :=
          match r1 with
          | h2 :: r2 =>
              if is_digit h2 then
                match colon_minutes r2 with
                | Some (mm, rest) => Some ([h1; h2], mm, rest)
                | None => None
                end
              else None
          | [] => None
          end in
        match two with
        | Some r => Some r
        | None =>
            match colon_minutes r1 with
            | Some (mm, rest) => Some ([h1], mm, rest)
            | None => None
            end
        end
      else None
  | [] => None
  end.

(** A match of [(\d{1,2}):(\d{2})]: [group(1)] and [group(2)]. *)
Record minute_match := { group1 : pystr; group2 : pystr }.

Definition minute_group0 (m : minute_match) : pystr :=
  group1 m ++ [58%N] ++ group2 m.

Definition minute_at (_ : option N) (s : pystr) : option minute_match :=
  match hour_minutes s with
  | Some (hh, mm, _) => Some {| group1 := hh; group2 := mm |}
  | None => None
  end.

(** [re.search(r"(\d{1,2}):(\d{2})", s)] *)
Definition search_minute (s : pystr) : option (pystr * minute_match) :=
  search minute_at None s.

(** [\b] between two neighbouring characters ([None]: no character there). *)
Definition is_word_opt (c : option N) : bool :=
  match c with Some c => is_word c | None => false end.

Definition word_boundary (prev next : option N) : bool :=
  xorb (is_word_opt prev) (is_word_opt next).

Definition head (s : pystr) : option N :=
  match s with c :: _ => Some c | [] => None end.

Fixpoint last_char (d : N) (s : pystr) : N :=
  match s with c :: r => last_char c r | [] => d end.

(** [[AP]] and [M] under [re.IGNORECASE]: the letters A, P and M of either
    case, which no other character folds to. *)
Definition is_ap (c : N) : bool :=
  (upper_char c =? 65)%N || (upper_char c =? 80)%N.
Definition is_m (c : N) : bool := (upper_char c =? 77)%N.

(** [(?:\s?[AP]M)?\b] after the minutes, whose last digit is [m2]: the
    meridiem with a whitespace character, then without one, then no meridiem
    at all; each alternative has to end at a word boundary.  Returns the text
    the group matched. *)
Definition meridiem_tail (m2 : N) (s : pystr) : option pystr :=
  let with_space :=
    match s with
    | w :: a :: m :: rest =>
        if is_space w && is_ap a && is_m m && word_boundary (Some m) (head rest)
        then Some [w; a; m]
        else None
    | _ => None
    end in
  let without_space :=
    match s with
    | a :: m :: rest =>
        if is_ap a && is_m m && word_boundary (Some m) (head rest)
        then Some [a; m]
        else None
    | _ => None
    end in
  match with_space with
  | Some t => Some t
  | None =>
      match without_space with
      | Some t => Some t
      | None => if word_boundary (Some m2) (head s) then Some [] else None
      end
  end.

(** One hour width of [\b\d{1,2}:\d{2}(?:\s?[AP]M)?\b], [\b] already checked. *)
Definition dom_time_with (hh : pystr) (after_hour : pystr) : option pystr :=
  match colon_minutes after_hour with
  | Some (mm, rest) =>
      match meridiem_tail (last_char 48%N mm) rest with
      | Some tail => Some (hh ++ [58%N] ++ mm ++ tail)
      | None => None
      end
  | None => None
  end.

(** [\b\d{1,2}:\d{2}(?:\s?[AP]M)?\b] (IGNORECASE) at the head of [s];
    returns [group(0)]. *)
Definition dom_time_at (prev : option N) (s : pystr) : option pystr :=
  if word_boundary prev (head s) then
    match s with
    | h1 :: r1 =>
        if is_digit h1 then
          let two :=
            match r1 with
            | h2 :: r2 => if is_digit h2 then dom_time_with [h1; h2] r2 else None
            | [] => None
            end in
          match two with
          | Some g => Some g
          | None => dom_time_with [h1] r1
          end
        else None
    | [] => None
    end
  else None.

(** [re.search(r"\b\d{1,2}:\d{2}(?:\s?[AP]M)?\b", s, re.IGNORECASE)] *)
Definition search_dom_time (s : pystr) : option (pystr * pystr) :=
  search dom_time_at None s.

(** [(?:\.\d{2})?] at the head of [s]: the text the group matched. *)
Definition fraction (s : pystr) : pystr :=
  match s with
  | c :: d1 :: d2 :: _ =>
      if (c =? 46)%N && is_digit d1 && is_digit d2 then [46%N; d1; d2] else []
  | _ => []
  end.

(** [\$\s*\d+(?:\.\d{2})?] at the head of [s]; returns [group(0)].  The
    classes [\s] and [\d] are disjoint and the fraction is tried after all
    the digits, so no alternative beyond the greedy one can match. *)
Definition currency_at (_ : option N) (s : pystr) : option pystr :=
  match s with
  | c :: r =>
      if (c =? 36)%N then
        let (ws, r1) := span is_space r in
        let (ds, r2) := span is_digit r1 in
        match ds with
        | [] => None
        | _ => Some (36%N :: ws ++ ds ++ fraction r2)
        end
      else None
  | [] => None
  end.

(** [re.search(r"\$\s*\d+(?:\.\d{2})?", s)] *)
Definition search_currency (s : pystr) : option (pystr * pystr) :=
  search currency_at None s.

End Re.

(** ** Data model *)

(** [@dataclass class TicketSlot] *)
Record TicketSlot := {
  date : pystr;
  time : pystr;
  price : pystr;
  source : pystr
}.

(** A decoded JSON payload (the result of [response.json()]). *)
#[warnings="-register-all"]
Inductive json : Type :=
| JNull
| JBool (b : bool)
| JInt (n : Z)
| JFloat (text : pystr)
| JStr (s : pystr)
| JList (items : list json)
| JDict (entries : list (pystr * json)).

(** ** Python dictionaries as insertion-ordered association lists *)

Section Dict.
Context {K V : Type} (eqb : K -> K -> bool).

(** [d[k] = v] *)
Fixpoint dict_set (d : list (K * V)) (k : K) (v : V) : list (K * V) :=
  match d with
  | [] => [(k, v)]
  | (k', v') :: r =>
      if eqb k' k then (k', v) :: r else (k', v') :: dict_set r k v
  end.

(** [d.get(k)] *)
Fixpoint dict_get (d : list (K * V)) (k : K) : option V :=
  match d with
  | [] => None
  | (k', v') :: r => if eqb k' k then Some v' else dict_get r k
  end.

(** [d.get(k, default)] *)
Definition dict_get_default (d : list (K * V)) (k : K) (default : V) : V :=
  match dict_get d k with Some v => v | None => default end.

(** [list(d.keys())], [list(d.values())] *)
Definition dict_keys (d : list (K * V)) : list K := map fst d.
Definition dict_values (d : list (K * V)) : list V := map snd d.
End Dict.

(** ** [str(value)] on a decoded JSON value *)

Module PyRepr.
Import PyStr.

Definition dquote : N := 34%N.
Definition squote : N := 39%N.
Definition backslash : N := 92%N.

Definition hex_digit (n : N) : N :=
  if (n <? 10)%N then (48 + n)%N else (87 + n)%N.

(** The last [width] hexadecimal digits of [n], in lower case. *)
Fixpoint hex (width : nat) (n : N) : pystr :=
  match width with
  | O => []
  | S w => hex w (n / 16)%N ++ [hex_digit (n mod 16)%N]
  end.

(** One character of [repr(s)], [q] being the quote chosen. *)
Definition repr_char (q c : N) : pystr :=
  if (c =? q)%N || (c =? backslash)%N then [backslash; c]
  else if (c =? 9)%N then [backslash; 116%N]
  else if (c =? 10)%N then [backslash; 110%N]
  else if (c =? 13)%N then [backslash; 114%N]
  else if (c <? 32)%N || (c =? 127)%N then backslash :: 120%N :: hex 2 c
  else if (c <? 127)%N then [c]
  else if is_printable c then [c]
  else if (c <? 256)%N then backslash :: 120%N :: hex 2 c
  else if (c <? 65536)%N then backslash :: 117%N :: hex 4 c
  else backslash :: 85%N :: hex 8 c.

Definition repr_chars (q : N) (s : pystr) : pystr := flat_map (repr_char q) s.

(** [repr(s)] for a string: single quotes, unless the string holds a single
    quote and no double quote. *)
Definition repr_str (s : pystr) : pystr :=
  let q := if contains_char squote s && negb (contains_char dquote s)
           then dquote else squote in
  q :: repr_chars q s ++ [q].

(** [str(n)] for an integer. *)
Definition str_int (n : Z) : pystr := u (NilZero.string_of_int (Z.to_int n)).

(** [repr(v)] *)
Fixpoint repr (v : json) : pystr :=
  match v with
  | JNull => u "None"
  | JBool true => u "True"
  | JBool false => u "False"
  | JInt n => str_int n
  | JFloat text => text
  | JStr s => repr_str s
  | JList items => u "[" ++ join (u ", ") (map repr items) ++ u "]"
  | JDict entries =>
      u "{" ++ join (u ", ")
                 (map (fun kv : pystr * json =>
                         let (k, x) := kv in
                         repr_str k ++ u ": " ++ repr x) entries)
            ++ u "}"
  end.

(** [str(v)]: a string is itself, anything else is its [repr]. *)
Definition str (v : json) : pystr :=
  match v with
  | JStr s => s
  | _ => repr v
  end.

End PyRepr.

(** ** JSON payload scanner *)

Definition TIME_ALIASES : list pystr :=
  [u "time"; u "starttime"; u "start_time"; u "slot_time"].

Definition PRICE_ALIASES : list pystr :=
  [u "price"; u "adultprice"; u "adult_price"; u "displayprice";
   u "formattedprice"].

(** [keys = {k.lower(): k for k in payload.keys()}] *)
Definition lowered_keys (payload : list (pystr * json)) : list (pystr * pystr) :=
  fold_left (fun keys k => dict_set PyStr.eqb keys (PyStr.lower k) k)
            (dict_keys payload) [].

(** [next((keys[k] for k in aliases if k in keys), None)] *)
Fixpoint first_alias (keys : list (pystr * pystr)) (aliases : list pystr)
  : option pystr :=
  match aliases with
  | [] => None
  | a :: rest =>
      match dict_get PyStr.eqb keys a with
      | Some k => Some k
      | None => first_alias keys rest
      end
  end.

(** Truthiness of [next(..., None)]: [None] and the empty string are false. *)
Definition truthy_key (k : option pystr) : bool :=
  match k with Some k => PyStr.truthy k | None => false end.

(** The body of the [dict] case before the recursion: the slot appended to
    [out] for this mapping, if any. *)
Definition slot_of_mapping (payload : list (pystr * json))
    (requested_date : pystr) : list TicketSlot :=
  let keys := lowered_keys payload in
  let time_key := first_alias keys TIME_ALIASES in
  let price_key := first_alias keys PRICE_ALIASES in
  match time_key, price_key with
  | Some tk, Some pk =>
      if truthy_key time_key && truthy_key price_key then
        let raw_time :=
          PyStr.strip (PyRepr.str (dict_get_default PyStr.eqb payload tk (JStr []))) in
        let raw_price :=
          PyStr.strip (PyRepr.str (dict_get_default PyStr.eqb payload pk (JStr []))) in
        match Re.search_minute raw_time with
        | Some (_, minute_match) =>
            match PyStr.int (Re.group2 minute_match) with
            | Some minutes =>
                if (minutes mod 10 =? 0)%Z && PyStr.truthy raw_price
                then [{| date := requested_date; time := raw_time;
                         price := raw_price; source := u "network-json" |}]
                else []
            | None => []
            end
        | None => []
        end
      else []
  | _, _ => []
  end.

(** [_collect_slots_from_json(payload, out, requested_date)]; the result is
    the list [out] after the call. *)
Fixpoint _collect_slots_from_json (payload : json) (out : list TicketSlot)
    (requested_date : pystr) {struct payload} : list TicketSlot :=
  match payload with
  | JList items =>
      fold_left (fun out item => _collect_slots_from_json item out requested_date)
                items out
  | JDict entries =>
      (* [for value in payload.values()], read off the entries *)
      fold_left (fun out entry =>
                   _collect_slots_from_json (snd entry) out requested_date)
                entries
                (out ++ slot_of_mapping entries requested_date)
  | _ => out
  end.

(** ** Currency parser *)

(** [_parse_currency(text)] *)
Definition _parse_currency (text : pystr) : pystr :=
  match Re.search_currency text with
  | Some (_, group0) => PyStr.remove_spaces group0
  | None => []
  end.

(** ** Rendered-text scanner *)

(** Exceptions the statements of the program can raise. *)
Inductive exn : Type :=
| PlaywrightError (message : string)
| ValueError
| IndexError
| UnicodeEncodeError
| OSError (message : string).

Inductive result (A : Type) : Type :=
| Ok (a : A)
| Raise (e : exn).
Arguments Ok {A} a.
Arguments Raise {A} e.

Definition bind {A B : Type} (r : result A) (k : A -> result B) : result B :=
  match r with
  | Ok a => k a
  | Raise e => Raise e
  end.

Notation "x <- r ;; k" := (bind r (fun x => k))
  (at level 61, r at next level, right associativity).

(** One element [candidates.nth(i)]: what [inner_text(timeout=1000)] gives
    on the element and on its parent ([locator("xpath=..")]). *)
Record Locator := {
  inner_text : result pystr;
  parent_inner_text : result pystr
}.

(** The locator [page.locator("button, li, div, span")]: what [count()]
    gives, and the element at each index. *)
Record Page := {
  count : result nat;
  nth : nat -> Locator
}.

(** The body of the [for] loop for one element: [Ok None] where the source
    says [continue], [Ok (Some slot)] where it appends. *)
Definition scan_candidate (el : Locator) (requested_date : pystr)
  : result (option TicketSlot) :=
  raw <- inner_text el ;;
  let text := PyStr.strip raw in
  if negb (PyStr.truthy text) || (200 <? List.length text) then Ok None
  else
    match Re.search_dom_time text with
    | None => Ok None
    | Some (_, tm) =>
        (* [int(tm.group(0).split(":")[1][:2])] *)
        match nth_error (PyStr.split 58%N tm) 1 with
        | None => Raise IndexError
        | Some after_colon =>
            match PyStr.int (PyStr.take 2 after_colon) with
            | None => Raise ValueError
            | Some minutes =>
                if negb (minutes mod 10 =? 0)%Z then Ok None
                else
                  price <-
                    (let price := _parse_currency text in
                     if negb (PyStr.truthy price) then
                       parent_text <- parent_inner_text el ;;
                       Ok (_parse_currency parent_text)
                     else Ok price) ;;
                  if negb (PyStr.truthy price) then Ok None
                  else
                    Ok (Some {| date := requested_date;
                                time := PyStr.collapse_double_spaces (PyStr.upper tm);
                                price := price;
                                source := u "dom" |})
            end
        end
    end.

(** [for i in range(count)]: the indices still to visit and the list
    [slots] built so far. *)
Fixpoint dom_loop (candidates : Page) (indices : list nat)
    (slots : list TicketSlot) (requested_date : pystr)
  : result (list TicketSlot) :=
  match indices with
  | [] => Ok slots
  | i :: rest =>
      found <- scan_candidate (nth candidates i) requested_date ;;
      dom_loop candidates rest
               (match found with Some s => slots ++ [s] | None => slots end)
               requested_date
  end.

(** The identity of a slot when duplicates are removed. *)
Definition slot_key (s : TicketSlot) : pystr * pystr := (time s, price s).

Definition key_eqb (a b : pystr * pystr) : bool :=
  PyStr.eqb (fst a) (fst b) && PyStr.eqb (snd a) (snd b).

(** [d = {}; for s in slots: d[(s.time, s.price)] = s] *)
Definition dedup_dict (slots : list TicketSlot)
  : list ((pystr * pystr) * TicketSlot) :=
  fold_left (fun d s => dict_set key_eqb d (slot_key s) s) slots [].

(** [_collect_slots_from_dom(page, requested_date)] *)
Definition _collect_slots_from_dom (page : Page) (requested_date : pystr)
  : result (list TicketSlot) :=
  let candidates := page in
  n <- count candidates ;;
  let count := Nat.min n 4000 in
  slots <- dom_loop candidates (seq 0 count) [] requested_date ;;
  Ok (dict_values (dedup_dict slots)).

(** ** Reconciliation *)

(** Comparison of the sort keys [(s.time, s.price)]: tuples compare
    lexicographically, strings by code points. *)
Definition key_leb (a b : pystr * pystr) : bool :=
  match PyStr.compare (fst a) (fst b) with
  | Lt => true
  | Eq => PyStr.leb (snd a) (snd b)
  | Gt => false
  end.

(** [sorted(xs, key=lambda s: (s.time, s.price))].  Python's sort is stable,
    which fixes its result: the stable insertion sort below returns it. *)
Fixpoint insert_slot (x : TicketSlot) (l : list TicketSlot) : list TicketSlot :=
  match l with
  | [] => [x]
  | y :: r =>
      if key_leb (slot_key x) (slot_key y) then x :: l
      else y :: insert_slot x r
  end.

Definition sorted (l : list TicketSlot) : list TicketSlot :=
  fold_right insert_slot [] l.

(** The end of [scrape_top_of_rock]: concatenate, remove duplicates, sort. *)
Definition reconcile (slots_from_network dom_slots : list TicketSlot)
  : list TicketSlot :=
  let all_slots := slots_from_network ++ dom_slots in
  let dedup := dedup_dict all_slots in
  sorted (dict_values dedup).

(** An element whose reads succeed, with the texts given as literals. *)
Definition text_element (text parent : string) : Locator :=
  {| inner_text := Ok (u text); parent_inner_text := Ok (u parent) |}.

(** An index at which the page has no element: the reads time out. *)
Definition no_element : Locator :=
  {| inner_text := Raise (PlaywrightError "Timeout 1000ms exceeded");
     parent_inner_text := Raise (PlaywrightError "Timeout 1000ms exceeded") |}.

(** A page that holds the elements [els] and counts them. *)
Definition page_of (els : list Locator) : Page :=
  {| count := Ok (List.length els);
     nth := fun i => List.nth i els no_element |}.

(** ** Vocabulary of the statements *)

(** Every character of [s] is in the class [p]. *)
Definition all_chars (p : N -> bool) (s : pystr) : bool := forallb p s.

(** [hh] and [mm] are the two groups of a [\d{1,2}:\d{2}] match. *)
Definition hhmm_shaped (hh mm : pystr) : Prop :=
  all_chars PyStr.is_digit hh = true /\
  (List.length hh = 1 \/ List.length hh = 2) /\
  all_chars PyStr.is_digit mm = true /\
  List.length mm = 2.

(** The text [t] holds an [HH:MM]-shaped substring whose minute component
    is a multiple of 10. *)
Definition has_ten_minute_time (t : pystr) : Prop :=
  exists pre hh mm post minutes,
    t = pre ++ hh ++ u ":" ++ mm ++ post /\
    hhmm_shaped hh mm /\
    PyStr.int mm = Some minutes /\
    (minutes mod 10 = 0)%Z.

(** A string that does not start, or end, with a whitespace character. *)
Definition no_leading_space (s : pystr) : bool :=
  match s with
  | [] => true
  | c :: _ => negb (PyStr.is_space c)
  end.

Definition no_trailing_space (s : pystr) : bool := no_leading_space (rev s).

(** [k] is a key of [entries] whose lower-case form is an alias of the
    priority list, and no key of [entries] matches an earlier alias. *)
Definition selects (aliases : list pystr) (entries : list (pystr * json))
    (k : pystr) : Prop :=
  exists before a after,
    aliases = before ++ a :: after /\
    PyStr.lower k = a /\
    In k (dict_keys entries) /\
    forall a' k', In a' before -> In k' (dict_keys entries) -> PyStr.lower k' <> a'.

(** The last key of [ks] whose lower-case form is [a]. *)
Definition last_lowering_to (a : pystr) (ks : list pystr) (start : option pystr)
  : option pystr :=
  fold_left (fun acc k => if PyStr.eqb (PyStr.lower k) a then Some k else acc)
            ks start.

(** The last slot of [l] whose key is [k], [start] if there is none. *)
Definition last_with_key (k : pystr * pystr) (l : list TicketSlot)
    (start : option TicketSlot) : option TicketSlot :=
  fold_left (fun acc s => if key_eqb (slot_key s) k then Some s else acc) l start.

(** The order of the output: the key of [a] is at most the key of [b]. *)
Definition key_le (a b : TicketSlot) : Prop :=
  key_leb (slot_key a) (slot_key b) = true.

(** [g] has the form [\$\s*\d+(?:\.\d{2})?]. *)
Definition currency_shaped (g : pystr) : Prop :=
  exists ws ds frac,
    g = 36%N :: ws ++ ds ++ frac /\
    all_chars PyStr.is_space ws = true /\
    all_chars PyStr.is_digit ds = true /\
    ds <> [] /\
    (frac = [] \/
     exists d1 d2,
       frac = [46%N; d1; d2] /\
       PyStr.is_digit d1 = true /\ PyStr.is_digit d2 = true).

(** [tail] has the form [(?:\s?[AP]M)?] under IGNORECASE. *)
Definition meridiem_shaped (tail : pystr) : Prop :=
  tail = [] \/
  (exists a m, tail = [a; m] /\ Re.is_ap a = true /\ Re.is_m m = true) \/
  (exists w a m,
      tail = [w; a; m] /\
      PyStr.is_space w = true /\ Re.is_ap a = true /\ Re.is_m m = true).

(** [g] has the form [\d{1,2}:\d{2}(?:\s?[AP]M)?] under IGNORECASE. *)
Definition dom_time_shaped (g : pystr) : Prop :=
  exists hh mm tail,
    g = hh ++ u ":" ++ mm ++ tail /\
    hhmm_shaped hh mm /\
    meridiem_shaped tail.

(** The loop of the rendered-text scanner over the elements themselves. *)
Fixpoint scan_all (els : list Locator) (slots : list TicketSlot)
    (requested_date : pystr) : result (list TicketSlot) :=
  match els with
  | [] => Ok slots
  | el :: rest =>
      found <- scan_candidate el requested_date ;;
      scan_all rest
               (match found with Some s => slots ++ [s] | None => slots end)
               requested_date
  end.

(** The elements a sweep of the page visits, when [count()] gives [n]. *)
Definition visited (page : Page) (n : nat) : list Locator :=
  map (nth page) (seq 0 (Nat.min n 4000)).

(** [t] is a prefix of [s]; [t] occurs in [s] ([t in s]). *)
Fixpoint is_prefix (t s : pystr) : bool :=
  match t, s with
  | [], _ => true
  | a :: t', b :: s' => (a =? b)%N && is_prefix t' s'
  | _ :: _, [] => false
  end.

Fixpoint is_substring (t s : pystr) : bool :=
  is_prefix t s ||
  match s with
  | _ :: r => is_substring t r
  | [] => false
  end.

(** The lower-case form of [k] is one of the time or price aliases. *)
Definition is_alias_key (k : pystr) : bool :=
  existsb (PyStr.eqb (PyStr.lower k)) (TIME_ALIASES ++ PRICE_ALIASES).

(** [v'] is [v] with the elements of some of its sequences permuted, at any
    depth; [allowed k x x'] restricts the steps taken inside the value [x]
    of a mapping key [k]. *)
Inductive reordered_by (allowed : pystr -> json -> json -> Prop)
  : json -> json -> Prop :=
| reordered_refl (v : json) : reordered_by allowed v v
| reordered_trans (a b c : json) :
    reordered_by allowed a b -> reordered_by allowed b c ->
    reordered_by allowed a c
| reordered_perm (items items' : list json) :
    Permutation items items' ->
    reordered_by allowed (JList items) (JList items')
| reordered_item (before : list json) (x x' : json) (after : list json) :
    reordered_by allowed x x' ->
    reordered_by allowed (JList (before ++ x :: after))
                         (JList (before ++ x' :: after))
| reordered_value (before : list (pystr * json)) (k : pystr) (x x' : json)
    (after : list (pystr * json)) :
    reordered_by allowed x x' ->
    allowed k x x' ->
    reordered_by allowed (JDict (before ++ (k, x) :: after))
                         (JDict (before ++ (k, x') :: after)).

(** Any permutation of the elements of the sequences of a value. *)
Definition reordered : json -> json -> Prop :=
  reordered_by (fun _ _ _ => True).

(** A permutation that leaves the text of the values under time and price
    alias keys as it was (as it does when those values are scalars). *)
Definition reordered_keeping_fields : json -> json -> Prop :=
  reordered_by (fun k x x' =>
                  is_alias_key k = false \/ PyRepr.str x = PyRepr.str x').

(** The slots a scan of [payload] appends. *)
Definition emitted (payload : json) (requested_date : pystr) : list TicketSlot :=
  _collect_slots_from_json payload [] requested_date.

(** [c] is an element of the sequence [v] or a value of the mapping [v]. *)
Inductive child : json -> json -> Prop :=
| child_item (items : list json) (c : json) :
    In c items -> child c (JList items)
| child_value (entries : list (pystr * json)) (k : pystr) (c : json) :
    In (k, c) entries -> child c (JDict entries).

(** [d] occurs in [v] at some depth (possibly zero). *)
Inductive nested_in : json -> json -> Prop :=
| nested_here (v : json) : nested_in v v
| nested_below (d c v : json) : nested_in d c -> child c v -> nested_in d v.

(** Induction over JSON values that reaches the elements of sequences and
    the values of mappings. *)
Section JsonInduction.
Variable P : json -> Prop.
Hypothesis HNull : P JNull.
Hypothesis HBool : forall b, P (JBool b).
Hypothesis HInt : forall n, P (JInt n).
Hypothesis HFloat : forall text, P (JFloat text).
Hypothesis HStr : forall s, P (JStr s).
Hypothesis HList : forall items, Forall P items -> P (JList items).
Hypothesis HDict :
  forall entries, Forall (fun kv => P (snd kv)) entries -> P (JDict entries).

Fixpoint json_nested_ind (v : json) : P v :=
  match v with
  | JNull => HNull
  | JBool b => HBool b
  | JInt n => HInt n
  | JFloat text => HFloat text
  | JStr s => HStr s
  | JList items =>
      HList items
        ((fix items_ind (l : list json) : Forall P l :=
            match l with
            | [] => Forall_nil _
            | x :: r => Forall_cons x (json_nested_ind x) (items_ind r)
            end) items)
  | JDict entries =>
      HDict entries
        ((fix entries_ind (l : list (pystr * json))
            : Forall (fun kv => P (snd kv)) l :=
            match l with
            | [] => Forall_nil _
            | kv :: r =>
                Forall_cons kv (json_nested_ind (snd kv)) (entries_ind r)
            end) entries)
  end.
End JsonInduction.

(** ** Network interception *)

(** An intercepted response: [response.headers], [response.url] and what
    [response.json()] gives, a decoded payload or an exception. *)
Record Response := {
  headers : list (pystr * pystr);
  url : pystr;
  json_body : result json
}.

Definition URL_KEYWORDS : list pystr :=
  [u "availability"; u "timeslot"; u "ticket"; u "calendar"; u "book"].

(** [on_response(response)], the callback registered on the page; the list
    [slots_from_network] it appends to is threaded explicitly. *)
Definition on_response (response : Response)
    (slots_from_network : list TicketSlot) (requested_date : pystr)
  : list TicketSlot :=
  let content_type :=
    dict_get_default PyStr.eqb (headers response) (u "content-type") [] in
  if negb (is_substring (u "json") content_type) then slots_from_network
  else
    let url := PyStr.lower (url response) in
    if negb (existsb (fun k => is_substring k url) URL_KEYWORDS)
    then slots_from_network
    else
      match json_body response with
      | Raise _ => slots_from_network
      | Ok payload =>
          _collect_slots_from_json payload slots_from_network requested_date
      end.

(** The list [slots_from_network] after the callbacks for [responses], which
    the page delivers one after the other. *)
Definition slots_after_responses (responses : list Response)
    (requested_date : pystr) : list TicketSlot :=
  fold_left (fun out response => on_response response out requested_date)
            responses [].

(** The payload of a response that [on_response] hands to the scanner. *)
Definition accepted_payload (response : Response) : option json :=
  if is_substring (u "json")
       (dict_get_default PyStr.eqb (headers response) (u "content-type") [])
     && existsb (fun k => is_substring k (PyStr.lower (url response))) URL_KEYWORDS
  then match json_body response with Ok payload => Some payload | Raise _ => None end
  else None.

Definition with_url (response : Response) (address : pystr) : Response :=
  {| headers := headers response; url := address;
     json_body := json_body response |}.

Definition with_parent (el : Locator) (parent : result pystr) : Locator :=
  {| inner_text := inner_text el; parent_inner_text := parent |}.

(** The number of mappings in a payload, at any depth. *)
Fixpoint count_mappings (v : json) : nat :=
  match v with
  | JList items => list_sum (map count_mappings items)
  | JDict entries =>
      S (list_sum (map (fun kv : pystr * json => count_mappings (snd kv)) entries))
  | _ => 0
  end.

(** ** Writing the results *)

Definition newline : N := 10%N.
Definition carriage_return : N := 13%N.

(** [json.dumps(..., indent=2)] on the list of [asdict(slot)] dictionaries. *)
Module Json.

Definition dquote : N := 34%N.
Definition backslash : N := 92%N.

(** [\uXXXX] *)
Definition u_escape (v : N) : pystr := backslash :: 117%N :: PyRepr.hex 4 v.

(** The escape of one character in a JSON string ([ensure_ascii] is on):
    printable ASCII characters other than the quote and the backslash stand
    for themselves, the others are written with a backslash; a character
    beyond the basic plane is written as its two UTF-16 surrogates. *)
Definition escape_char (c : N) : pystr :=
  if (c =? dquote)%N then [backslash; dquote]
  else if (c =? backslash)%N then [backslash; backslash]
  else if (c =? 8)%N then [backslash; 98%N]
  else if (c =? 12)%N then [backslash; 102%N]
  else if (c =? 10)%N then [backslash; 110%N]
  else if (c =? 13)%N then [backslash; 114%N]
  else if (c =? 9)%N then [backslash; 116%N]
  else if (c <? 32)%N || (126 <? c)%N then
    if (c <? 65536)%N then u_escape c
    else u_escape (55296 - 64 + c / 1024)%N ++ u_escape (56320 + c mod 1024)%N
  else [c].

Definition escape (s : pystr) : pystr := flat_map escape_char s.

(** A string value or a key, between quotes. *)
Definition encode_string (s : pystr) : pystr :=
  dquote :: escape s ++ [dquote].

Definition nl : pystr := [newline].

(** One member line of an object at nesting depth 2. *)
Definition member (key : string) (value : pystr) : pystr :=
  u "    " ++ encode_string (u key) ++ u ": " ++ encode_string value.

(** One slot: the dictionary [asdict(slot)], fields in declaration order. *)
Definition dump_slot (s : TicketSlot) : pystr :=
  u "  {" ++ nl
  ++ member "date" (date s) ++ u "," ++ nl
  ++ member "time" (time s) ++ u "," ++ nl
  ++ member "price" (price s) ++ u "," ++ nl
  ++ member "source" (source s) ++ nl
  ++ u "  }".

Definition dumps (slots : list TicketSlot) : pystr :=
  match slots with
  | [] => u "[]"
  | _ => u "[" ++ nl ++ PyStr.join (u "," ++ nl) (map dump_slot slots)
           ++ nl ++ u "]"
  end.

(** The value of a lower-case hexadecimal digit. *)
Definition unhex (c : N) : option N :=
  if PyStr.in_range 48 57 c then Some (c - 48)%N
  else if PyStr.in_range 97 102 c then Some (c - 87)%N
  else None.

Definition unhex4 (h1 h2 h3 h4 : N) : option N :=
  match unhex h1, unhex h2, unhex h3, unhex h4 with
  | Some a, Some b, Some c, Some d => Some (4096 * a + 256 * b + 16 * c + d)%N
  | _, _, _, _ => None
  end.

(** A character read, in front of the rest of the literal. *)
Definition prepend (c : N) (r : option (pystr * pystr))
  : option (pystr * pystr) :=
  match r with Some (a, rest) => Some (c :: a, rest) | None => None end.

(** Reads a string literal after its opening quote, as a JSON reader does:
    the string it stands for and the text after its closing quote.  A high
    surrogate followed by a low one stands for one character. *)
Fixpoint read_literal (s : pystr) : option (pystr * pystr) :=
  match s with
  | [] => None
  | c :: r =>
      if (c =? dquote)%N then Some ([], r)
      else if (c =? backslash)%N then
        match r with
        | e :: r1 =>
            if (e =? dquote)%N then prepend dquote (read_literal r1)
            else if (e =? backslash)%N then prepend backslash (read_literal r1)
            else if (e =? 98)%N then prepend 8%N (read_literal r1)
            else if (e =? 102)%N then prepend 12%N (read_literal r1)
            else if (e =? 110)%N then prepend 10%N (read_literal r1)
            else if (e =? 114)%N then prepend 13%N (read_literal r1)
            else if (e =? 116)%N then prepend 9%N (read_literal r1)
            else if (e =? 117)%N then
              match r1 with
              | h1 :: h2 :: h3 :: h4 :: r2 =>
                  match unhex4 h1 h2 h3 h4 with
                  | Some v =>
                      if PyStr.in_range 55296 56319 v then
                        match r2 with
                        | b :: e2 :: l1 :: l2 :: l3 :: l4 :: r3 =>
                            if (b =? backslash)%N && (e2 =? 117)%N then
                              match unhex4 l1 l2 l3 l4 with
                              | Some w =>
                                  if PyStr.in_range 56320 57343 w then
                                    prepend (65536 + (v - 55296) * 1024
                                             + (w - 56320))%N
                                            (read_literal r3)
                                  else prepend v (read_literal r2)
                              | None => None
                              end
                            else prepend v (read_literal r2)
                        | _ => prepend v (read_literal r2)
                        end
                      else prepend v (read_literal r2)
                  | None => None
                  end
              | _ => None
              end
            else None
        | [] => None
        end
      else prepend c (read_literal r)
  end.

End Json.

(** [csv.DictWriter] with the default dialect: comma, double quote, minimal
    quoting with doubled quotes, lines ended by CR LF. *)
Module Csv.

Definition dquote : N := 34%N.
Definition comma : N := 44%N.
Definition crlf : pystr := [carriage_return; newline].

(** The characters that make the writer quote a field: the delimiter, the
    quote and the characters of the line terminator. *)
Definition is_special (c : N) : bool :=
  (c =? comma)%N || (c =? dquote)%N
  || (c =? carriage_return)%N || (c =? newline)%N.

Definition has_special (s : pystr) : bool := existsb is_special s.

(** Every quote of the field written twice. *)
Fixpoint double_quotes (s : pystr) : pystr :=
  match s with
  | [] => []
  | c :: r =>
      if (c =? dquote)%N then dquote :: dquote :: double_quotes r
      else c :: double_quotes r
  end.

Definition write_field (f : pystr) : pystr :=
  if has_special f then dquote :: double_quotes f ++ [dquote] else f.

(** [writer.writerow(fields)]: the text of one line.  A record that would be
    empty, one empty field, is written as a pair of quotes. *)
Definition writerow (fields : list pystr) : pystr :=
  let record := PyStr.join [comma] (map write_field fields) in
  match fields, record with
  | _ :: _, [] => [dquote; dquote] ++ crlf
  | _, _ => record ++ crlf
  end.

Definition fieldnames : list pystr :=
  [u "date"; u "time"; u "price"; u "source"].

(** [DictWriter.writerow(asdict(slot))]: the values in the order of
    [fieldnames]. *)
Definition slot_row (s : TicketSlot) : pystr :=
  writerow [date s; time s; price s; source s].

(** The text of the whole table: the header line and one line per slot. *)
Definition table (slots : list TicketSlot) : pystr :=
  writerow fieldnames ++ concat (map slot_row slots).

(** Reads a quoted field after its opening quote: the field and the text
    after its closing quote. *)
Fixpoint read_quoted (s : pystr) : option (pystr * pystr) :=
  match s with
  | [] => None
  | c :: r =>
      if (c =? dquote)%N then
        match r with
        | c2 :: r2 =>
            if (c2 =? dquote)%N then
              match read_quoted r2 with
              | Some (a, rest) => Some (dquote :: a, rest)
              | None => None
              end
            else Some ([], r)
        | [] => Some ([], r)
        end
      else
        match read_quoted r with
        | Some (a, rest) => Some (c :: a, rest)
        | None => None
        end
  end.

(** Reads an unquoted field: the text up to the next special character. *)
Fixpoint read_plain (s : pystr) : pystr * pystr :=
  match s with
  | [] => ([], [])
  | c :: r =>
      if is_special c then ([], s)
      else let (a, rest) := read_plain r in (c :: a, rest)
  end.

Definition read_field (s : pystr) : option (pystr * pystr) :=
  match s with
  | c :: r => if (c =? dquote)%N then read_quoted r else Some (read_plain s)
  | [] => Some ([], [])
  end.

End Csv.

(** ** Files *)

(** The files of the run: the text stored under each path. *)
Definition files : Type := list (pystr * pystr).

(** A surrogate code point, which UTF-8 cannot encode. *)
Definition is_surrogate (c : N) : bool := PyStr.in_range 55296 57343 c.

(** [text.encode("utf-8")] succeeds. *)
Definition encodable (text : pystr) : bool :=
  forallb (fun c => negb (is_surrogate c)) text.

(** [f.write(text)] on a file opened with [encoding="utf-8"]: the text is
    encoded at once, so one that cannot be encoded leaves the file as it was.
    [written] is the text of the file so far. *)
Definition write (text written : pystr) : pystr * result unit :=
  if encodable text then (written ++ text, Ok tt)
  else (written, Raise UnicodeEncodeError).

(** Writes one after the other, up to the first that raises. *)
Fixpoint write_all (texts : list pystr) (written : pystr)
  : pystr * result unit :=
  match texts with
  | [] => (written, Ok tt)
  | text :: rest =>
      match write text written with
      | (written', Ok _) => write_all rest written'
      | (written', Raise e) => (written', Raise e)
      end
  end.

(** A [with path.open("w", encoding="utf-8") as f] block whose body writes
    [texts] in turn: [open_ path] tells whether the path can be opened; an
    opened file starts empty and keeps what was written when the block is
    left, also by an exception. *)
Definition with_open (open_ : pystr -> result unit) (path : pystr)
    (texts : list pystr) (fs : files) : files * result unit :=
  match open_ path with
  | Raise e => (fs, Raise e)
  | Ok _ =>
      let (text, r) := write_all texts [] in
      (dict_set PyStr.eqb fs path text, r)
  end.

(** [_save_json(slots, path)]: [path.write_text(json.dumps(...))], one write
    of the whole text. *)
Definition _save_json (slots : list TicketSlot) (path : pystr)
    (open_ : pystr -> result unit) (fs : files) : files * result unit :=
  with_open open_ path [Json.dumps slots] fs.

(** [_save_csv(slots, path)]: the header, then one [writerow] per slot. *)
Definition _save_csv (slots : list TicketSlot) (path : pystr)
    (open_ : pystr -> result unit) (fs : files) : files * result unit :=
  with_open open_ path
            (Csv.writerow Csv.fieldnames :: map Csv.slot_row slots) fs.

(** A printable ASCII character or a line feed. *)
Definition is_printable_or_newline (c : N) : bool :=
  PyStr.in_range 32 126 c || (c =? newline)%N.

(** A character of a well-formed text: a code point that is no surrogate. *)
Definition is_scalar (c : N) : bool :=
  (c <? 1114112)%N && negb (is_surrogate c).

(** The four fields of a slot are well-formed texts. *)
Definition scalar_slot (s : TicketSlot) : bool :=
  all_chars is_scalar (date s) && all_chars is_scalar (time s)
  && all_chars is_scalar (price s) && all_chars is_scalar (source s).

(** ** The whole run *)

(** One of the buttons and links the program tries to open the ticket
    widget with: what [loc.count()] gives, and whether the click and the
    wait after it succeed. *)
Record Cta := {
  cta_count : result nat;
  click_and_wait : result unit
}.

(** The loop over the selectors: a failing [count()] leaves the function,
    a failing click is skipped, the first successful click ends the loop. *)
Fixpoint open_widget (ctas : list Cta) : result unit :=
  match ctas with
  | [] => Ok tt
  | loc :: rest =>
      n <- cta_count loc ;;
      if 0 <? n then
        match click_and_wait loc with
        | Ok _ => Ok tt
        | Raise _ => open_widget rest
        end
      else open_widget rest
  end.

(** What the browser, the file system and the terminal do in one run, as far
    as the program can tell: the outcome of each of its calls to them. *)
Record Run := {
  (** [sync_playwright()], [_create_context], [new_page], [page.on] *)
  start : result unit;
  (** the [try] statement around [page.goto], which catches what it raises
      and reports it *)
  goto : result unit;
  (** [page.wait_for_timeout(12_000)] *)
  settle : result unit;
  (** the five locators of the widget loop *)
  ctas : list Cta;
  (** the locator of the sweep *)
  page : Page;
  (** the responses delivered to [on_response] by the time the two lists
      are concatenated *)
  responses : list Response;
  (** [context.close()] and the end of the [with] block *)
  close : result unit;
  (** opening a path for writing *)
  open_ : pystr -> result unit;
  (** the closing [print] *)
  report : result unit
}.

(** [scrape_top_of_rock(date, output_prefix, headless, timeout_ms)] on a run
    and the files before it: the files after it, and the list returned or
    the exception raised.  A path is named by its text. *)
Definition scrape_top_of_rock (date output_prefix : pystr) (run : Run)
    (fs : files) : files * result (list TicketSlot) :=
  let requested_date := date in
  let in_browser :=
    _ <- start run ;;
    _ <- goto run ;;
    _ <- settle run ;;
    _ <- open_widget (ctas run) ;;
    dom_slots <- _collect_slots_from_dom (page run) requested_date ;;
    let slots_from_network :=
      slots_after_responses (responses run) requested_date in
    let all_slots := slots_from_network ++ dom_slots in
    let dedup := dedup_dict all_slots in
    _ <- close run ;;
    Ok dedup in
  match in_browser with
  | Raise e => (fs, Raise e)
  | Ok dedup =>
      let slots := sorted (dict_values dedup) in
      let out_json := output_prefix ++ u ".json" in
      let out_csv := output_prefix ++ u ".csv" in
      match _save_json slots out_json (open_ run) fs with
      | (fs1, Raise e) => (fs1, Raise e)
      | (fs1, Ok _) =>
          match _save_csv slots out_csv (open_ run) fs1 with
          | (fs2, Raise e) => (fs2, Raise e)
          | (fs2, Ok _) =>
              match report run with
              | Raise e => (fs2, Raise e)
              | Ok _ => (fs2, Ok slots)
              end
          end
      end
  end.

(** A run in which every call to the browser, the file system and the
    terminal succeeds, on a page with no widget button. *)
Definition quiet_run (responses : list Response) (page : Page) : Run :=
  {| start := Ok tt; goto := Ok tt; settle := Ok tt; ctas := [];
     page := page; responses := responses; close := Ok tt;
     open_ := fun _ => Ok tt; report := Ok tt |}.

(** A response that [on_response] accepts, carrying [payload]. *)
Definition json_response (payload : json) : Response :=
  {| headers := [(u "content-type", u "application/json")];
     url := u "https://example.test/api/availability";
     json_body := Ok payload |}.

(** Two tables share no character; every character of one is in the other. *)
Definition ranges_avoid (table : list (N * N)) (lo hi : N) : bool :=
  forallb (fun r => ((snd r <? lo) || (hi <? fst r))%N) table.

Definition tables_disjoint (t1 t2 : list (N * N)) : bool :=
  forallb (fun r => ranges_avoid t2 (fst r) (snd r)) t1.

Definition tables_included (t1 t2 : list (N * N)) : bool :=
  forallb (fun r =>
             existsb (fun r' => ((fst r' <=? fst r) && (snd r <=? snd r'))%N) t2)
          t1.

Arguments PyStr.in_ranges : simpl never.
Arguments PyStr.is_space : simpl never.
Arguments PyStr.is_digit : simpl never.
Arguments PyStr.is_word : simpl never.
Arguments PyStr.is_printable : simpl never.
Arguments PyStr.digit_value : simpl never.

(** Turns the range tests of the hypotheses and of the goal into
    inequalities. *)
Ltac range_facts :=
  unfold PyStr.is_upper, PyStr.is_lower, PyStr.in_range in *;
  repeat match goal with
         | H : (_ && _)%bool = true |- _ => apply andb_prop in H; destruct H
         | H : (_ || _)%bool = false |- _ => apply orb_false_elim in H; destruct H
         | H : (_ =? _)%N = true |- _ => apply N.eqb_eq in H
         | H : (_ =? _)%N = false |- _ => apply N.eqb_neq in H
         | H : (_ <=? _)%N = true |- _ => apply N.leb_le in H
         | H : (_ <=? _)%N = false |- _ => apply N.leb_gt in H
         | H : (_ <? _)%N = true |- _ => apply N.ltb_lt in H
         | H : (_ <? _)%N = false |- _ => apply N.ltb_ge in H
         end.

(** ** Characters *)

Lemma in_range_iff (lo hi c : N) :
  PyStr.in_range lo hi c = true <-> (lo <= c <= hi)%N.
Proof.
  unfold PyStr.in_range. rewrite andb_true_iff, !N.leb_le. tauto.
Qed.

Lemma in_ranges_iff (table : list (N * N)) (c : N) :
  PyStr.in_ranges table c = true <->
  exists lo hi, In (lo, hi) table /\ (lo <= c <= hi)%N.
Proof.
  unfold PyStr.in_ranges. rewrite existsb_exists. split.
  - intros [[lo hi] [Hin Hr]]. exists lo, hi. split; [exact Hin|].
    now apply in_range_iff.
  - intros (lo & hi & Hin & Hr). exists (lo, hi). split; [exact Hin|].
    now apply in_range_iff.
Qed.

Lemma ranges_avoid_sound (table : list (N * N)) (lo hi c : N) :
  ranges_avoid table lo hi = true ->
  (lo <= c <= hi)%N -> PyStr.in_ranges table c = false.
Proof.
  intros Ha Hc. apply not_true_is_false. intros Hin.
  apply in_ranges_iff in Hin. destruct Hin as (lo' & hi' & Hin & Hr).
  unfold ranges_avoid in Ha. rewrite forallb_forall in Ha.
  specialize (Ha _ Hin). cbn [fst snd] in Ha.
  apply orb_true_iff in Ha. rewrite !N.ltb_lt in Ha. lia.
Qed.

Lemma tables_disjoint_sound (t1 t2 : list (N * N)) (c : N) :
  tables_disjoint t1 t2 = true ->
  PyStr.in_ranges t1 c = true -> PyStr.in_ranges t2 c = false.
Proof.
  intros Hd Hin. apply in_ranges_iff in Hin.
  destruct Hin as (lo & hi & Hin & Hr).
  unfold tables_disjoint in Hd. rewrite forallb_forall in Hd.
  specialize (Hd _ Hin). cbn [fst snd] in Hd.
  now apply (ranges_avoid_sound t2 lo hi).
Qed.

Lemma tables_included_sound (t1 t2 : list (N * N)) (c : N) :
  tables_included t1 t2 = true ->
  PyStr.in_ranges t1 c = true -> PyStr.in_ranges t2 c = true.
Proof.
  intros Hi Hin. apply in_ranges_iff in Hin.
  destruct Hin as (lo & hi & Hin & Hr).
  unfold tables_included in Hi. rewrite forallb_forall in Hi.
  specialize (Hi _ Hin). cbn [fst snd] in Hi.
  apply existsb_exists in Hi. destruct Hi as [[lo' hi'] [Hin' Hle]].
  cbn [fst snd] in Hle. apply andb_prop in Hle. destruct Hle as [H1 H2].
  apply N.leb_le in H1, H2.
  apply in_ranges_iff. exists lo', hi'. split; [exact Hin'|lia].
Qed.

(** A character of a table is none of the characters of a range that the
    table avoids. *)
Lemma in_ranges_outside (table : list (N * N)) (lo hi c : N) :
  ranges_avoid table lo hi = true ->
  PyStr.in_ranges table c = true -> ~ (lo <= c <= hi)%N.
Proof.
  intros Ha Hin Hc. rewrite (ranges_avoid_sound _ _ _ _ Ha Hc) in Hin.
  discriminate.
Qed.

(** No decimal digit is a white-space character. *)
Lemma digit_not_space_char (c : N) :
  PyStr.is_digit c = true -> PyStr.is_space c = false.
Proof.
  apply tables_disjoint_sound. vm_compute. reflexivity.
Qed.

Lemma space_not_digit (c : N) :
  PyStr.is_space c = true -> PyStr.is_digit c = false.
Proof.
  apply tables_disjoint_sound. vm_compute. reflexivity.
Qed.

(** Every decimal digit is a word character. *)
Lemma digit_is_word (c : N) : PyStr.is_digit c = true -> PyStr.is_word c = true.
Proof.
  intros H. unfold PyStr.is_word.
  rewrite (tables_included_sound PyStr.DECIMAL_RANGES PyStr.ALNUM_RANGES c);
    [reflexivity | vm_compute; reflexivity | exact H].
Qed.

(** No white-space character is a word character. *)
Lemma space_not_word (c : N) : PyStr.is_space c = true -> PyStr.is_word c = false.
Proof.
  intros H. unfold PyStr.is_word.
  rewrite (tables_disjoint_sound PyStr.SPACE_RANGES PyStr.ALNUM_RANGES c);
    [| vm_compute; reflexivity | exact H].
  assert (Hc : ~ (95 <= c <= 95)%N).
  { apply (in_ranges_outside PyStr.SPACE_RANGES); [vm_compute; reflexivity|exact H]. }
  cbn [orb]. apply N.eqb_neq. lia.
Qed.

(** The ASCII digits are the decimal digits below 128; the ASCII white
    space likewise. *)
Lemma digit_ascii (c : N) :
  (c < 128)%N -> PyStr.is_digit c = PyStr.in_range 48 57 c.
Proof.
  intros Hc. destruct (PyStr.in_range 48 57 c) eqn:E.
  - apply in_ranges_iff. exists 48%N, 57%N. split; [now left|].
    now apply in_range_iff.
  - apply not_true_is_false. intros H.
    assert (H0 : ~ (0 <= c <= 47)%N)
      by (apply (in_ranges_outside PyStr.DECIMAL_RANGES);
          [vm_compute; reflexivity|exact H]).
    assert (H1 : ~ (58 <= c <= 127)%N)
      by (apply (in_ranges_outside PyStr.DECIMAL_RANGES);
          [vm_compute; reflexivity|exact H]).
    range_facts.
    apply andb_false_iff in E. rewrite !N.leb_gt in E. lia.
Qed.

Lemma digit_outside (lo hi c : N) :
  ranges_avoid PyStr.DECIMAL_RANGES lo hi = true ->
  PyStr.is_digit c = true -> ~ (lo <= c <= hi)%N.
Proof. apply in_ranges_outside. Qed.

Lemma space_outside (lo hi c : N) :
  ranges_avoid PyStr.SPACE_RANGES lo hi = true ->
  PyStr.is_space c = true -> ~ (lo <= c <= hi)%N.
Proof. apply in_ranges_outside. Qed.

(** A decimal digit is no colon, no space character, no letter. *)
Lemma digit_not_colon (c : N) : PyStr.is_digit c = true -> (58 =? c)%N = false.
Proof.
  intros H. apply N.eqb_neq. intros <-.
  apply (digit_outside 58 58 58) in H; [lia|vm_compute; reflexivity].
Qed.

Lemma digit_not_space (c : N) :
  PyStr.is_digit c = true -> (c =? 32)%N = false.
Proof.
  intros H. apply N.eqb_neq. intros ->.
  apply (digit_outside 32 32 32) in H; [lia|vm_compute; reflexivity].
Qed.

Lemma digit_not_letter (c : N) :
  PyStr.is_digit c = true -> ~ (58 <= c <= 127)%N.
Proof. apply digit_outside. vm_compute. reflexivity. Qed.

Lemma digit_upper (c : N) : PyStr.is_digit c = true -> PyStr.upper_char c = c.
Proof.
  intros H. apply digit_not_letter in H. unfold PyStr.upper_char.
  destruct (PyStr.is_lower c) eqn:E; [|reflexivity]. range_facts. lia.
Qed.

Lemma space_not_letter (c : N) :
  PyStr.is_space c = true -> ~ (33 <= c <= 127)%N.
Proof. apply space_outside. vm_compute. reflexivity. Qed.

Lemma space_not_colon (c : N) : PyStr.is_space c = true -> (58 =? c)%N = false.
Proof.
  intros H. apply space_not_letter in H. apply N.eqb_neq. lia.
Qed.

Lemma space_upper (c : N) : PyStr.is_space c = true -> PyStr.upper_char c = c.
Proof.
  intros H. apply space_not_letter in H. unfold PyStr.upper_char.
  destruct (PyStr.is_lower c) eqn:E; [|reflexivity]. range_facts. lia.
Qed.

(** The characters [[AP]] and [M] match, in either case. *)
Lemma is_ap_cases (c : N) :
  Re.is_ap c = true <-> (c = 65 \/ c = 80 \/ c = 97 \/ c = 112)%N.
Proof.
  unfold Re.is_ap, PyStr.upper_char.
  destruct (PyStr.is_lower c) eqn:E; rewrite orb_true_iff, !N.eqb_eq;
    range_facts.
  - lia.
  - apply andb_false_iff in E. rewrite !N.leb_gt in E. lia.
Qed.

Lemma is_m_cases (c : N) : Re.is_m c = true <-> (c = 77 \/ c = 109)%N.
Proof.
  unfold Re.is_m, PyStr.upper_char.
  destruct (PyStr.is_lower c) eqn:E; rewrite !N.eqb_eq; range_facts.
  - lia.
  - apply andb_false_iff in E. rewrite !N.leb_gt in E. lia.
Qed.

Lemma ap_not_colon (c : N) : Re.is_ap c = true -> (58 =? c)%N = false.
Proof. rewrite is_ap_cases. intros H. apply N.eqb_neq. lia. Qed.

Lemma m_not_colon (c : N) : Re.is_m c = true -> (58 =? c)%N = false.
Proof. rewrite is_m_cases. intros H. apply N.eqb_neq. lia. Qed.

Lemma ap_upper (c : N) :
  Re.is_ap c = true ->
  PyStr.upper_char c = 65%N \/ PyStr.upper_char c = 80%N.
Proof.
  unfold Re.is_ap. rewrite orb_true_iff, !N.eqb_eq. tauto.
Qed.

Lemma m_upper (c : N) : Re.is_m c = true -> PyStr.upper_char c = 77%N.
Proof. unfold Re.is_m. now rewrite N.eqb_eq. Qed.

Lemma upper_upper_char (c : N) :
  PyStr.upper_char (PyStr.upper_char c) = PyStr.upper_char c.
Proof.
  unfold PyStr.upper_char. destruct (PyStr.is_lower c) eqn:E.
  - destruct (PyStr.is_lower (c - 32)) eqn:E2; [|reflexivity].
    range_facts. lia.
  - now rewrite E.
Qed.

Lemma lower_lower_char (c : N) :
  PyStr.lower_char (PyStr.lower_char c) = PyStr.lower_char c.
Proof.
  unfold PyStr.lower_char, PyStr.KELVIN.
  destruct (PyStr.is_upper c) eqn:E.
  - destruct (PyStr.is_upper (c + 32)) eqn:E2; [range_facts; lia|].
    destruct (c + 32 =? 8490)%N eqn:E3; [range_facts; lia|reflexivity].
  - destruct (c =? 8490)%N eqn:E1; [reflexivity|].
    now rewrite E, E1.
Qed.

Lemma lower_upper_char (c : N) :
  PyStr.lower_char (PyStr.upper_char c) = PyStr.lower_char c.
Proof.
  unfold PyStr.upper_char. destruct (PyStr.is_lower c) eqn:E; [|reflexivity].
  unfold PyStr.lower_char, PyStr.KELVIN.
  destruct (PyStr.is_upper (c - 32)) eqn:E1.
  - destruct (PyStr.is_upper c) eqn:E2; [range_facts; lia|].
    destruct (c =? 8490)%N eqn:E3; range_facts; lia.
  - range_facts. apply andb_false_iff in E1. rewrite !N.leb_gt in E1. lia.
Qed.

(** ** Strings: equality and order *)

Lemma pystr_eqb_spec (a b : pystr) : reflect (a = b) (PyStr.eqb a b).
Proof.
  revert b. induction a as [|x a IH]; intros [|y b]; simpl;
    try (constructor; congruence).
  destruct (N.eqb_spec x y) as [->|Hxy]; simpl.
  - destruct (IH b) as [->|Hab]; constructor; congruence.
  - constructor. congruence.
Qed.

Lemma pystr_eqb_refl (a : pystr) : PyStr.eqb a a = true.
Proof. now destruct (pystr_eqb_spec a a). Qed.

Lemma pystr_eqb_eq (a b : pystr) : PyStr.eqb a b = true <-> a = b.
Proof. destruct (pystr_eqb_spec a b); split; congruence. Qed.

Lemma pystr_eqb_neq (a b : pystr) : PyStr.eqb a b = false <-> a <> b.
Proof. destruct (pystr_eqb_spec a b); split; congruence. Qed.

Lemma pystr_eqb_sym (a b : pystr) : PyStr.eqb a b = PyStr.eqb b a.
Proof.
  destruct (pystr_eqb_spec a b), (pystr_eqb_spec b a); congruence.
Qed.

Lemma string_compare_refl (a : pystr) : PyStr.compare a a = Eq.
Proof.
  induction a as [|x a IH]; simpl; [reflexivity|].
  now rewrite N.compare_refl.
Qed.

Lemma pystr_compare_eq_iff (a b : pystr) : PyStr.compare a b = Eq -> a = b.
Proof.
  revert b. induction a as [|x a IH]; intros [|y b]; simpl; try discriminate;
    [reflexivity|].
  destruct (x ?= y)%N eqn:E; try discriminate.
  apply N.compare_eq_iff in E. subst y. intros H. now rewrite (IH b H).
Qed.

Lemma pystr_compare_antisym (a b : pystr) :
  PyStr.compare a b = CompOpp (PyStr.compare b a).
Proof.
  revert b. induction a as [|x a IH]; intros [|y b]; simpl; try reflexivity.
  rewrite (N.compare_antisym y x).
  destruct (y ?= x)%N; simpl; [apply IH|reflexivity|reflexivity].
Qed.

Lemma string_compare_lt_trans (a b c : pystr) :
  PyStr.compare a b = Lt -> PyStr.compare b c = Lt -> PyStr.compare a c = Lt.
Proof.
  revert b c. induction a as [|x a IH]; intros [|y b] [|z c]; simpl;
    try discriminate; try reflexivity.
  destruct (x ?= y)%N eqn:Exy; destruct (y ?= z)%N eqn:Eyz;
    intros H1 H2; try discriminate.
  - apply N.compare_eq_iff in Exy, Eyz. subst. rewrite N.compare_refl.
    now apply (IH b c).
  - apply N.compare_eq_iff in Exy. subst. now rewrite Eyz.
  - apply N.compare_eq_iff in Eyz. subst. now rewrite Exy.
  - rewrite N.compare_lt_iff in Exy, Eyz.
    assert (H : (x ?= z)%N = Lt) by (apply N.compare_lt_iff; lia).
    now rewrite H.
Qed.

Lemma string_leb_refl (a : pystr) : PyStr.leb a a = true.
Proof. unfold PyStr.leb. now rewrite string_compare_refl. Qed.

Lemma pystr_leb_total (a b : pystr) :
  PyStr.leb a b = true \/ PyStr.leb b a = true.
Proof.
  unfold PyStr.leb. rewrite (pystr_compare_antisym b a).
  destruct (PyStr.compare a b); simpl; auto.
Qed.

Lemma pystr_leb_antisym (a b : pystr) :
  PyStr.leb a b = true -> PyStr.leb b a = true -> a = b.
Proof.
  unfold PyStr.leb. rewrite (pystr_compare_antisym b a).
  destruct (PyStr.compare a b) eqn:E; simpl; try discriminate.
  intros _ _. now apply pystr_compare_eq_iff.
Qed.

Lemma string_leb_trans (a b c : pystr) :
  PyStr.leb a b = true -> PyStr.leb b c = true -> PyStr.leb a c = true.
Proof.
  unfold PyStr.leb.
  destruct (PyStr.compare a b) eqn:Eab; try discriminate;
    destruct (PyStr.compare b c) eqn:Ebc; try discriminate; intros _ _.
  - apply pystr_compare_eq_iff in Eab, Ebc. subst.
    now rewrite string_compare_refl.
  - apply pystr_compare_eq_iff in Eab. subst. now rewrite Ebc.
  - apply pystr_compare_eq_iff in Ebc. subst. now rewrite Eab.
  - now rewrite (string_compare_lt_trans a b c Eab Ebc).
Qed.

Lemma append_assoc (a b c : pystr) : (a ++ b) ++ c = a ++ (b ++ c).
Proof. symmetry. apply app_assoc. Qed.

Lemma append_nil_r (a : pystr) : a ++ [] = a.
Proof. apply app_nil_r. Qed.

(** ** Sanity checks of the embedding on concrete inputs *)

Example search_minute_ex :
  Re.search_minute (u "123:45") =
  Some (u "1", {| Re.group1 := u "23"; Re.group2 := u "45" |}).
Proof. reflexivity. Qed.

Example search_dom_time_ex1 :
  Re.search_dom_time (u "Tour 10:30 am today") = Some (u "Tour ", (u "10:30 am")).
Proof. reflexivity. Qed.

Example search_dom_time_ex2 :
  Re.search_dom_time (u "x10:30 9:40PMs 9:50pm") = Some (u "x10:30 9:40PMs ", (u "9:50pm")).
Proof. reflexivity. Qed.

Example search_currency_ex :
  Re.search_currency (u "from $ 42.5 each") = Some (u "from ", (u "$ 42")).
Proof. reflexivity. Qed.

Example str_list_ex :
  PyRepr.str (JList [JStr (u "10:20"); JInt (-7); JNull; JStr (u "it's"); JDict [(u "a", JBool true)]])
  = u "['10:20', -7, None, " ++ PyRepr.dquote :: u "it's" ++ PyRepr.dquote :: u ", {'a': True}]".
Proof. reflexivity. Qed.

Example json_ex1 :
  _collect_slots_from_json
    (JDict [(u "StartTime", JStr (u "14:20")); (u "AdultPrice", JStr (u "$55"))]) [] (u "2026-01-01")
  = [{| date := u "2026-01-01"; time := u "14:20"; price := u "$55";
        source := u "network-json" |}].
Proof. reflexivity. Qed.

Example dom_ex1 :
  _collect_slots_from_dom (page_of [text_element "10:30 AM - $42.00" ""]) (u "d")
  = Ok [{| date := u "d"; time := u "10:30 AM"; price := u "$42.00"; source := u "dom" |}].
Proof. reflexivity. Qed.

Example parse_currency_ex : _parse_currency (u "from $ 42.00 pp") = u "$42.00".
Proof. reflexivity. Qed.

(** ** The JSON scanner as a function of its payload *)

Lemma fold_collect_app (A : Type) (f : A -> json) (date : pystr) (l : list A) :
  Forall (fun a => forall out,
            _collect_slots_from_json (f a) out date = out ++ emitted (f a) date) l ->
  forall out,
    fold_left (fun out a => _collect_slots_from_json (f a) out date) l out
    = out ++ flat_map (fun a => emitted (f a) date) l.
Proof.
  induction 1 as [|a l Ha _ IH]; intros out; simpl.
  - now rewrite app_nil_r.
  - rewrite IH, Ha. now rewrite app_assoc.
Qed.

(** Appending to [out] never looks at what [out] already holds. *)
Lemma collect_app (payload : json) (date : pystr) :
  forall out,
    _collect_slots_from_json payload out date = out ++ emitted payload date.
Proof.
  induction payload as [| | | | |items IH|entries IH] using json_nested_ind;
    intros out; try (unfold emitted; simpl; now rewrite app_nil_r).
  - unfold emitted at 1. simpl.
    rewrite !(fold_collect_app json (fun v => v) date items IH). reflexivity.
  - unfold emitted at 1. simpl.
    rewrite !(fold_collect_app _ snd date entries IH).
    simpl. now rewrite app_assoc.
Qed.

Lemma emitted_list (items : list json) (date : pystr) :
  emitted (JList items) date = flat_map (fun v => emitted v date) items.
Proof.
  unfold emitted at 1. simpl.
  rewrite (fold_collect_app json (fun v => v) date items); [reflexivity|].
  apply Forall_forall. intros v _ out. apply collect_app.
Qed.

Lemma emitted_dict (entries : list (pystr * json)) (date : pystr) :
  emitted (JDict entries) date
  = slot_of_mapping entries date ++ flat_map (fun kv => emitted (snd kv) date) entries.
Proof.
  unfold emitted at 1. simpl.
  rewrite (fold_collect_app _ snd date entries); [reflexivity|].
  apply Forall_forall. intros v _ out. apply collect_app.
Qed.

Lemma emitted_child (c v : json) (date : pystr) (s : TicketSlot) :
  child c v -> In s (emitted c date) -> In s (emitted v date).
Proof.
  intros [items c' Hin|entries k c' Hin] Hs.
  - rewrite emitted_list. apply in_flat_map. now exists c'.
  - rewrite emitted_dict. apply in_or_app. right.
    apply in_flat_map. now exists (k, c').
Qed.

(** ** Strings *)

Lemma truthy_true (s : pystr) : PyStr.truthy s = true <-> s <> [].
Proof. destruct s; simpl; split; congruence. Qed.

Lemma rstrip_idempotent (s : pystr) :
  PyStr.rstrip (PyStr.rstrip s) = PyStr.rstrip s.
Proof.
  induction s as [|c r IH]; [reflexivity|].
  simpl. destruct (PyStr.rstrip r) as [|c' r'] eqn:E.
  - destruct (PyStr.is_space c) eqn:Hc; simpl; [reflexivity|now rewrite Hc].
  - change (PyStr.rstrip (c :: c' :: r'))
      with (match PyStr.rstrip (c' :: r') with
            | [] =>
                if PyStr.is_space c then [] else (c :: [])
            | (a :: b) => (c :: a :: b)
            end).
    now rewrite IH.
Qed.

Lemma lstrip_no_leading_space (s : pystr) :
  no_leading_space (PyStr.lstrip s) = true.
Proof.
  induction s as [|c r IH]; [reflexivity|].
  simpl. destruct (PyStr.is_space c) eqn:Hc; [exact IH|]. simpl. now rewrite Hc.
Qed.

Lemma lstrip_fixed (s : pystr) :
  no_leading_space s = true -> PyStr.lstrip s = s.
Proof.
  destruct s as [|c r]; [reflexivity|]. simpl.
  now destruct (PyStr.is_space c).
Qed.

Lemma rstrip_no_leading_space (s : pystr) :
  no_leading_space s = true -> no_leading_space (PyStr.rstrip s) = true.
Proof.
  destruct s as [|c r]; [reflexivity|]. simpl. intros Hc.
  destruct (PyStr.rstrip r); [|exact Hc].
  destruct (PyStr.is_space c) eqn:E; [reflexivity|]. simpl. now rewrite E.
Qed.

(** [s.strip().strip() == s.strip()] *)
Lemma strip_idempotent (s : pystr) :
  PyStr.strip (PyStr.strip s) = PyStr.strip s.
Proof.
  unfold PyStr.strip.
  rewrite (lstrip_fixed (PyStr.rstrip (PyStr.lstrip s))).
  - apply rstrip_idempotent.
  - apply rstrip_no_leading_space, lstrip_no_leading_space.
Qed.

(** ** The matchers return what their patterns describe *)

(** [re.search] returns the text before the match and a match at the
    position where that text ends. *)
Lemma search_sound (M : Type) (at_ : option N -> pystr -> option M) :
  forall s prev pre m,
    Re.search at_ prev s = Some (pre, m) ->
    exists rest prev', s = pre ++ rest /\ at_ prev' rest = Some m.
Proof.
  induction s as [|c r IH]; intros prev pre m; simpl.
  - destruct (at_ prev []) eqn:E; [|discriminate].
    intros [= <- <-]. now exists [], prev.
  - destruct (at_ prev (c :: r)) eqn:E.
    + intros [= <- <-]. now exists (c :: r), prev.
    + destruct (Re.search at_ (Some c) r) as [[pre' m']|] eqn:Es; [|discriminate].
      intros [= <- <-].
      destruct (IH _ _ _ Es) as (rest & prev' & -> & Hat).
      now exists rest, prev'.
Qed.

Lemma colon_minutes_sound (s mm rest : pystr) :
  Re.colon_minutes s = Some (mm, rest) ->
  s = ((u ":") ++ mm ++ rest) /\
  all_chars PyStr.is_digit mm = true /\ List.length mm = 2.
Proof.
  unfold Re.colon_minutes.
  destruct s as [|c [|m1 [|m2 r]]]; try discriminate.
  destruct (N.eqb_spec c 58%N) as [->|Hc]; [|discriminate].
  destruct (PyStr.is_digit m1) eqn:H1; [|discriminate].
  destruct (PyStr.is_digit m2) eqn:H2; [|discriminate].
  simpl. intros [= <- <-]. simpl. now rewrite H1, H2.
Qed.

Lemma hour_minutes_sound (s hh mm rest : pystr) :
  Re.hour_minutes s = Some (hh, mm, rest) ->
  s = (hh ++ (u ":") ++ mm ++ rest) /\ hhmm_shaped hh mm.
Proof.
  unfold Re.hour_minutes, hhmm_shaped.
  destruct s as [|h1 r1]; [discriminate|].
  destruct (PyStr.is_digit h1) eqn:H1; [|discriminate].
  assert (Hone :
    match Re.colon_minutes r1 with
    | Some (mm0, rest0) => Some ([h1], mm0, rest0)
    | None => None
    end = Some (hh, mm, rest) ->
    (h1 :: r1) = (hh ++ (u ":") ++ mm ++ rest) /\
    all_chars PyStr.is_digit hh = true /\
    (List.length hh = 1 \/ List.length hh = 2) /\
    all_chars PyStr.is_digit mm = true /\ List.length mm = 2).
  { destruct (Re.colon_minutes r1) as [[mm0 rest0]|] eqn:E; [|discriminate].
    intros [= <- <- <-].
    destruct (colon_minutes_sound _ _ _ E) as (-> & Hd & Hl).
    simpl. rewrite H1. auto. }
  destruct r1 as [|h2 r2]; [exact Hone|].
  destruct (PyStr.is_digit h2) eqn:H2; [|exact Hone].
  destruct (Re.colon_minutes r2) as [[mm0 rest0]|] eqn:E; [|exact Hone].
  intros [= <- <- <-].
  destruct (colon_minutes_sound _ _ _ E) as (-> & Hd & Hl).
  simpl. rewrite H1, H2. auto.
Qed.

Lemma search_minute_sound (s pre : pystr) (m : Re.minute_match) :
  Re.search_minute s = Some (pre, m) ->
  exists post,
    s = (pre ++ Re.group1 m ++ (u ":") ++ Re.group2 m ++ post) /\
    hhmm_shaped (Re.group1 m) (Re.group2 m).
Proof.
  intros H. apply search_sound in H as (rest & prev' & -> & Hat).
  unfold Re.minute_at in Hat.
  destruct (Re.hour_minutes rest) as [[[hh mm] post]|] eqn:E; [|discriminate].
  injection Hat as <-. simpl.
  destruct (hour_minutes_sound _ _ _ _ E) as (-> & Hs).
  now exists post.
Qed.

(** ** Dictionaries *)

Section DictFacts.
Context {K V : Type} (eqb : K -> K -> bool).
Hypothesis eqb_spec : forall a b, reflect (a = b) (eqb a b).

Lemma dict_get_set (d : list (K * V)) (k k' : K) (v : V) :
  dict_get eqb (dict_set eqb d k v) k'
  = if eqb k k' then Some v else dict_get eqb d k'.
Proof.
  induction d as [|[k0 v0] r IH]; simpl.
  - reflexivity.
  - destruct (eqb_spec k0 k) as [->|Hk0]; simpl.
    + destruct (eqb_spec k k'); reflexivity.
    + destruct (eqb_spec k0 k') as [->|Hk0'].
      * destruct (eqb_spec k k'); [congruence|reflexivity].
      * exact IH.
Qed.

Lemma dict_get_In (d : list (K * V)) (k : K) (v : V) :
  dict_get eqb d k = Some v -> In (k, v) d.
Proof.
  induction d as [|[k0 v0] r IH]; simpl; [discriminate|].
  destruct (eqb_spec k0 k) as [->|Hk0].
  - intros [= ->]. now left.
  - intros H. right. now apply IH.
Qed.

Lemma dict_get_None (d : list (K * V)) (k : K) :
  dict_get eqb d k = None <-> ~ In k (dict_keys d).
Proof.
  induction d as [|[k0 v0] r IH]; simpl.
  - tauto.
  - destruct (eqb_spec k0 k) as [->|Hk0].
    + split; [discriminate|]. intros H. exfalso. apply H. now left.
    + rewrite IH. unfold dict_keys. tauto.
Qed.
End DictFacts.

Lemma key_eqb_spec (a b : pystr * pystr) : reflect (a = b) (key_eqb a b).
Proof.
  destruct a as [a1 a2], b as [b1 b2]. unfold key_eqb. simpl.
  destruct (pystr_eqb_spec a1 b1) as [->|H1]; simpl.
  - destruct (pystr_eqb_spec a2 b2) as [->|H2]; constructor; congruence.
  - constructor. congruence.
Qed.

(** ** Key selection *)

Lemma lowered_keys_get_gen (a : pystr) (ks : list pystr) :
  forall d,
    dict_get PyStr.eqb
      (fold_left (fun keys k => dict_set PyStr.eqb keys (PyStr.lower k) k) ks d) a
    = last_lowering_to a ks (dict_get PyStr.eqb d a).
Proof.
  induction ks as [|k ks IH]; intros d; simpl; [reflexivity|].
  unfold last_lowering_to in *. simpl.
  rewrite IH, (dict_get_set PyStr.eqb pystr_eqb_spec). reflexivity.
Qed.

(** [keys[a]] is the last key of the payload that lower-cases to [a]. *)
Lemma lowered_keys_get (entries : list (pystr * json)) (a : pystr) :
  dict_get PyStr.eqb (lowered_keys entries) a
  = last_lowering_to a (dict_keys entries) None.
Proof. unfold lowered_keys. now rewrite lowered_keys_get_gen. Qed.

Lemma last_lowering_to_Some (a k : pystr) (ks : list pystr) :
  forall start,
    last_lowering_to a ks start = Some k ->
    (In k ks /\ PyStr.lower k = a) \/ start = Some k.
Proof.
  unfold last_lowering_to.
  induction ks as [|k0 ks IH]; intros start; simpl; [now right|].
  intros H. apply IH in H as [[Hin Hl]|H].
  - left. auto.
  - destruct (pystr_eqb_spec (PyStr.lower k0) a) as [Ha|Ha].
    + injection H as ->. left. auto.
    + now right.
Qed.

Lemma last_lowering_to_None (a : pystr) (ks : list pystr) :
  forall start,
    last_lowering_to a ks start = None <->
    start = None /\ forall k, In k ks -> PyStr.lower k <> a.
Proof.
  unfold last_lowering_to.
  induction ks as [|k0 ks IH]; intros start; simpl.
  - split; [intros ->; split; [reflexivity|tauto]|tauto].
  - rewrite IH.
    destruct (pystr_eqb_spec (PyStr.lower k0) a) as [Ha|Ha].
    + split; [intros [? _]; discriminate|].
      intros [_ H]. exfalso. apply (H k0); auto.
    + split; intros [Hs H]; split; auto.
      intros k [<-|Hin]; auto.
Qed.

Lemma first_alias_Some (keys : list (pystr * pystr)) (aliases : list pystr)
    (k : pystr) :
  first_alias keys aliases = Some k ->
  exists before a after,
    aliases = before ++ a :: after /\
    dict_get PyStr.eqb keys a = Some k /\
    forall a', In a' before -> dict_get PyStr.eqb keys a' = None.
Proof.
  induction aliases as [|a rest IH]; simpl; [discriminate|].
  destruct (dict_get PyStr.eqb keys a) as [k0|] eqn:E.
  - intros [= ->]. exists [], a, rest. simpl. tauto.
  - intros H. destruct (IH H) as (before & a0 & after & -> & Hget & Hnone).
    exists (a :: before), a0, after. simpl. repeat split; auto.
    intros a' [<-|Hin]; auto.
Qed.

Lemma first_alias_None (keys : list (pystr * pystr)) (aliases : list pystr) :
  first_alias keys aliases = None <->
  forall a, In a aliases -> dict_get PyStr.eqb keys a = None.
Proof.
  induction aliases as [|a rest IH]; simpl.
  - tauto.
  - destruct (dict_get PyStr.eqb keys a) as [k0|] eqn:E.
    + split; [discriminate|]. intros H. rewrite <- E. apply H. now left.
    + rewrite IH. split; [intros H a' [<-|Hin]; auto|auto].
Qed.

Lemma first_alias_selects (aliases : list pystr) (entries : list (pystr * json))
    (k : pystr) :
  first_alias (lowered_keys entries) aliases = Some k ->
  selects aliases entries k.
Proof.
  intros H. apply first_alias_Some in H as (before & a & after & -> & Hget & Hnone).
  exists before, a, after. rewrite lowered_keys_get in Hget.
  apply last_lowering_to_Some in Hget as [[Hin Hl]|]; [|discriminate].
  repeat split; auto.
  intros a' k' Ha' Hk'. specialize (Hnone a' Ha').
  rewrite lowered_keys_get in Hnone.
  apply last_lowering_to_None in Hnone as [_ Hnone]. auto.
Qed.

Lemma first_alias_no_match (aliases : list pystr) (entries : list (pystr * json)) :
  first_alias (lowered_keys entries) aliases = None <->
  forall k, In k (dict_keys entries) -> ~ In (PyStr.lower k) aliases.
Proof.
  rewrite first_alias_None. split.
  - intros H k Hk Hin. specialize (H _ Hin). rewrite lowered_keys_get in H.
    apply last_lowering_to_None in H as [_ H]. now apply (H k).
  - intros H a Ha. rewrite lowered_keys_get. apply last_lowering_to_None.
    split; [reflexivity|]. intros k Hk <-. now apply (H k).
Qed.

(** ** The slot of one mapping *)

(** The slot built from the values under the selected keys. *)
Lemma slot_of_mapping_inv (entries : list (pystr * json)) (date0 : pystr)
    (s : TicketSlot) :
  In s (slot_of_mapping entries date0) ->
  exists tk pk pre m minutes,
    first_alias (lowered_keys entries) TIME_ALIASES = Some tk /\
    first_alias (lowered_keys entries) PRICE_ALIASES = Some pk /\
    s = {| date := date0;
           time := PyStr.strip (PyRepr.str (dict_get_default PyStr.eqb entries tk (JStr [])));
           price := PyStr.strip (PyRepr.str (dict_get_default PyStr.eqb entries pk (JStr [])));
           source := u "network-json" |} /\
    Re.search_minute (time s) = Some (pre, m) /\
    PyStr.int (Re.group2 m) = Some minutes /\
    (minutes mod 10 = 0)%Z /\
    price s <> [].
Proof.
  unfold slot_of_mapping.
  destruct (first_alias (lowered_keys entries) TIME_ALIASES) as [tk|]; [|intros []].
  destruct (first_alias (lowered_keys entries) PRICE_ALIASES) as [pk|]; [|intros []].
  destruct (truthy_key (Some tk) && truthy_key (Some pk)); [|intros []].
  destruct (Re.search_minute _) as [[pre m]|] eqn:Es; [|intros []].
  destruct (PyStr.int (Re.group2 m)) as [minutes|] eqn:Ei; [|intros []].
  destruct (Z.eqb_spec (minutes mod 10) 0) as [Hm|Hm]; [|intros []].
  destruct (PyStr.truthy _) eqn:Ht; [|intros []].
  simpl. intros [<-|[]].
  exists tk, pk, pre, m, minutes. simpl.
  repeat split; auto. now apply truthy_true.
Qed.

Lemma lower_nonempty (k : pystr) : PyStr.lower k <> [] -> PyStr.truthy k = true.
Proof. destruct k; simpl; intros H; [now elim H|reflexivity]. Qed.

Lemma selected_time_key_truthy (entries : list (pystr * json)) (k : pystr) :
  first_alias (lowered_keys entries) TIME_ALIASES = Some k -> PyStr.truthy k = true.
Proof.
  intros H. apply first_alias_selects in H as (before & a & after & Hal & Hl & _).
  apply lower_nonempty. rewrite Hl.
  assert (Hin : In a TIME_ALIASES) by (rewrite Hal; apply in_elt).
  unfold TIME_ALIASES in Hin. simpl in Hin.
  repeat (destruct Hin as [<-|Hin]; [discriminate|]). destruct Hin.
Qed.

Lemma selected_price_key_truthy (entries : list (pystr * json)) (k : pystr) :
  first_alias (lowered_keys entries) PRICE_ALIASES = Some k -> PyStr.truthy k = true.
Proof.
  intros H. apply first_alias_selects in H as (before & a & after & Hal & Hl & _).
  apply lower_nonempty. rewrite Hl.
  assert (Hin : In a PRICE_ALIASES) by (rewrite Hal; apply in_elt).
  unfold PRICE_ALIASES in Hin. simpl in Hin.
  repeat (destruct Hin as [<-|Hin]; [discriminate|]). destruct Hin.
Qed.

(** Conversely, these conditions are all the mapping needs to yield a slot. *)
Lemma slot_of_mapping_intro (entries : list (pystr * json)) (date0 : pystr)
    (tk pk pre : pystr) (m : Re.minute_match) (minutes : Z) :
  first_alias (lowered_keys entries) TIME_ALIASES = Some tk ->
  first_alias (lowered_keys entries) PRICE_ALIASES = Some pk ->
  Re.search_minute
    (PyStr.strip (PyRepr.str (dict_get_default PyStr.eqb entries tk (JStr []))))
  = Some (pre, m) ->
  PyStr.int (Re.group2 m) = Some minutes ->
  (minutes mod 10 = 0)%Z ->
  PyStr.strip (PyRepr.str (dict_get_default PyStr.eqb entries pk (JStr []))) <> [] ->
  slot_of_mapping entries date0 =
  [{| date := date0;
      time := PyStr.strip (PyRepr.str (dict_get_default PyStr.eqb entries tk (JStr [])));
      price := PyStr.strip (PyRepr.str (dict_get_default PyStr.eqb entries pk (JStr [])));
      source := u "network-json" |}].
Proof.
  intros Ht Hp Hs Hi Hm Hprice. unfold slot_of_mapping.
  rewrite Ht, Hp. simpl truthy_key.
  rewrite (selected_time_key_truthy _ _ Ht), (selected_price_key_truthy _ _ Hp).
  simpl andb. rewrite Hs, Hi, Hm. simpl.
  apply truthy_true in Hprice. now rewrite Hprice.
Qed.

(** Every slot a scan emits is the slot of some mapping inside the payload. *)
Lemma emitted_origin (payload : json) (date0 : pystr) (s : TicketSlot) :
  In s (emitted payload date0) ->
  exists entries,
    nested_in (JDict entries) payload /\ In s (slot_of_mapping entries date0).
Proof.
  induction payload as [| | | | |items IH|entries IH] using json_nested_ind;
    try (intros []).
  - rewrite emitted_list. intros H.
    apply in_flat_map in H as (item & Hin & Hs).
    rewrite Forall_forall in IH.
    destruct (IH item Hin Hs) as (entries & Hn & Hslot).
    exists entries. split; [|exact Hslot].
    eapply nested_below; [exact Hn|]. now constructor.
  - rewrite emitted_dict. intros H.
    apply in_app_or in H as [H|H].
    + exists entries. split; [constructor|exact H].
    + apply in_flat_map in H as ([k c] & Hin & Hs).
      rewrite Forall_forall in IH.
      destruct (IH (k, c) Hin Hs) as (entries' & Hn & Hslot).
      exists entries'. split; [|exact Hslot].
      eapply nested_below; [exact Hn|]. econstructor. exact Hin.
Qed.

Lemma emitted_nested (sub v : json) (date0 : pystr) (s : TicketSlot) :
  nested_in sub v -> In s (emitted sub date0) -> In s (emitted v date0).
Proof.
  induction 1 as [v|d c v Hn IH Hc]; [auto|].
  intros Hs. eapply emitted_child; eauto.
Qed.


(** ** Trimmed texts *)

Lemma no_leading_space_app (a b : pystr) :
  a <> [] -> no_leading_space (a ++ b) = no_leading_space a.
Proof. destruct a; [congruence|reflexivity]. Qed.

Lemma rstrip_no_trailing_space (s : pystr) :
  no_trailing_space (PyStr.rstrip s) = true.
Proof.
  unfold no_trailing_space.
  induction s as [|c r IH]; [reflexivity|].
  cbn [PyStr.rstrip]. destruct (PyStr.rstrip r) as [|c' r'] eqn:E.
  - destruct (PyStr.is_space c) eqn:Hc; [reflexivity|].
    cbn [rev app no_leading_space]. now rewrite Hc.
  - change (rev (c :: c' :: r')) with (rev (c' :: r') ++ [c]).
    rewrite no_leading_space_app; [exact IH|].
    cbn [rev]. now destruct (rev r').
Qed.

Lemma strip_no_trailing_space (s : pystr) :
  no_trailing_space (PyStr.strip s) = true.
Proof. apply rstrip_no_trailing_space. Qed.

Lemma strip_no_leading_space (s : pystr) :
  no_leading_space (PyStr.strip s) = true.
Proof. apply rstrip_no_leading_space, lstrip_no_leading_space. Qed.

Lemma lstrip_spec (s : pystr) :
  exists l, s = l ++ PyStr.lstrip s /\ all_chars PyStr.is_space l = true.
Proof.
  induction s as [|c r (l & Hl & Hs)]; [now exists []|].
  cbn [PyStr.lstrip]. destruct (PyStr.is_space c) eqn:Hc.
  - exists (c :: l). cbn [app]. split; [now rewrite <- Hl|].
    unfold all_chars in *. cbn [forallb]. now rewrite Hc.
  - now exists [].
Qed.

Lemma rstrip_spec (s : pystr) :
  exists r, s = PyStr.rstrip s ++ r /\ all_chars PyStr.is_space r = true.
Proof.
  induction s as [|c s (r & Hr & Hs)]; [now exists []|].
  cbn [PyStr.rstrip]. destruct (PyStr.rstrip s) as [|c' r'] eqn:E.
  - cbn [app] in Hr. subst s. destruct (PyStr.is_space c) eqn:Hc.
    + exists (c :: r). split; [reflexivity|].
      unfold all_chars in *. cbn [forallb]. now rewrite Hc.
    + now exists r.
  - exists r. split; [|exact Hs]. cbn [app]. now rewrite Hr at 1.
Qed.

(** [strip] takes away white space at both ends and nothing else. *)
Lemma strip_spec (s : pystr) :
  exists l r,
    s = l ++ PyStr.strip s ++ r /\
    all_chars PyStr.is_space l = true /\ all_chars PyStr.is_space r = true.
Proof.
  destruct (lstrip_spec s) as (l & Hl & Hls).
  destruct (rstrip_spec (PyStr.lstrip s)) as (r & Hr & Hrs).
  exists l, r. unfold PyStr.strip. split; [|auto].
  rewrite Hl at 1. now rewrite Hr at 1.
Qed.


(** ** Sanity checks beyond ASCII *)

(** [strip] removes the white space of all of Unicode: here a no-break
    space in front and a next-line character behind. *)
Example strip_unicode_ex :
  PyStr.strip ([160%N; 32%N] ++ u "10:30" ++ [32%N; 133%N]) = u "10:30" /\
  PyStr.strip [160%N] = [].
Proof. split; reflexivity. Qed.

(** [\s] before the meridiem takes a no-break space, which is stored. *)
Example dom_nbsp_ex :
  let text := u "10:30" ++ [160%N] ++ u "AM $42" in
  Re.search_dom_time text = Some ([], u "10:30" ++ [160%N] ++ u "AM") /\
  _collect_slots_from_dom
    (page_of [{| inner_text := Ok text; parent_inner_text := Ok [] |}]) (u "d")
  = Ok [{| date := u "d"; time := u "10:30" ++ [160%N] ++ u "AM";
           price := u "$42"; source := u "dom" |}].
Proof. split; reflexivity. Qed.

(** [\s*] after the dollar sign takes a no-break space, which
    [replace(" ", "")] leaves in place. *)
Example parse_currency_nbsp_ex :
  _parse_currency (u "x $" ++ [160%N] ++ u "42.00 y")
  = u "$" ++ [160%N] ++ u "42.00".
Proof. reflexivity. Qed.

(** A price that is white space only is empty after trimming: no slot. *)
Example json_nbsp_price_ex :
  _collect_slots_from_json
    (JDict [(u "time", JStr (u "10:30")); (u "price", JStr [160%N])]) [] (u "d")
  = [].
Proof. reflexivity. Qed.

(** [\d] and [int] take the decimal digits of every script: here the
    Arabic-Indic digits of 10:30 and of 10:35. *)
Example json_arabic_indic_ex :
  let half_past := [1633%N; 1632%N; 58%N; 1635%N; 1632%N] in
  let five_later := [1633%N; 1632%N; 58%N; 1635%N; 1637%N] in
  _collect_slots_from_json
    (JDict [(u "time", JStr half_past); (u "price", JStr (u "$5"))]) [] (u "d")
  = [{| date := u "d"; time := half_past; price := u "$5";
        source := u "network-json" |}] /\
  _collect_slots_from_json
    (JDict [(u "time", JStr five_later); (u "price", JStr (u "$5"))]) [] (u "d")
  = [] /\
  PyStr.int [1633%N; 65298%N] = Some 12%Z.
Proof. repeat split; reflexivity. Qed.

(** [str] of a sequence writes the characters that are not printable with
    a backslash. *)
Example str_unicode_ex :
  PyRepr.str (JList [JStr [160%N]; JStr [233%N]; JStr [8232%N]; JStr [917505%N]])
  = u "['\xa0', '" ++ [233%N] ++ u "', '\u2028', '\U000e0001']".
Proof. reflexivity. Qed.

(** ** Claims about the JSON scanner *)

(** C3: every slot the JSON scanner appends has a time that contains an
    HH:MM-shaped substring whose minutes are a multiple of 10, a price that
    is not empty after trimming, and the source tag network-json. *)
Theorem C3_json_slots_ten_minute_and_priced (payload : json)
    (out : list TicketSlot) (date0 : pystr) (s : TicketSlot) :
  In s (_collect_slots_from_json payload out date0) ->
  In s out \/
  (has_ten_minute_time (time s) /\
   PyStr.strip (price s) <> [] /\
   source s = u "network-json").
Proof.
  rewrite collect_app. intros H. apply in_app_or in H as [H|H]; [now left|right].
  apply emitted_origin in H as (entries & _ & H).
  apply slot_of_mapping_inv in H
    as (tk & pk & pre & m & minutes & _ & _ & Hs & Hsearch & Hint & Hmod & Hprice).
  apply search_minute_sound in Hsearch as (post & Htime & Hshape).
  split; [|split].
  - exists pre, (Re.group1 m), (Re.group2 m), post, minutes. auto.
  - rewrite Hs in *. simpl in *. now rewrite strip_idempotent.
  - rewrite Hs. reflexivity.
Qed.

Lemma C3_json_slots_ten_minute_and_priced_witness :
  let s := {| date := u "2026-01-01"; time := u "at 9:40 PM"; price := u "$ 61";
              source := u "network-json" |} in
  In s (_collect_slots_from_json
          (JList [JDict [(u "slot_time", JStr (u "  at 9:40 PM ")); (u "Price", JStr (u " $ 61"))]])
          [] (u "2026-01-01")) /\
  (In s [] \/
   (has_ten_minute_time (time s) /\
    PyStr.strip (price s) <> [] /\
    source s = u "network-json")).
Proof.
  intros s.
  assert (H : In s (_collect_slots_from_json
          (JList [JDict [(u "slot_time", JStr (u "  at 9:40 PM ")); (u "Price", JStr (u " $ 61"))]])
          [] (u "2026-01-01"))) by (vm_compute; auto).
  split; [exact H|].
  exact (C3_json_slots_ten_minute_and_priced _ _ _ _ H).
Defined.

(** C4: the scanner descends into every element of every sequence and every
    value of every mapping, whatever happened at the enclosing level: the
    slots of a value nested at any depth are among the slots of the whole
    payload, and so is the slot of any qualifying mapping nested in it. *)
Theorem C4_json_scan_reaches_every_nested_value (payload : json)
    (out : list TicketSlot) (date0 : pystr) :
  (forall sub s,
      nested_in sub payload ->
      In s (_collect_slots_from_json sub [] date0) ->
      In s (_collect_slots_from_json payload out date0)) /\
  (forall entries s,
      nested_in (JDict entries) payload ->
      In s (slot_of_mapping entries date0) ->
      In s (_collect_slots_from_json payload out date0)).
Proof.
  split.
  - intros sub s Hn Hs. rewrite collect_app. apply in_or_app. right.
    eapply emitted_nested; eauto.
  - intros entries s Hn Hs. rewrite collect_app. apply in_or_app. right.
    eapply emitted_nested; [exact Hn|].
    rewrite emitted_dict. apply in_or_app. now left.
Qed.

Lemma C4_json_scan_reaches_every_nested_value_witness :
  let inner := [(u "time", JStr (u "10:30 AM")); (u "price", JStr (u "$42.00"))] in
  let payload :=
    JDict [(u "time", JStr (u "10:07"));
           (u "price", JStr (u "$10"));
           (u "days", JList [JNull; JDict [(u "slots", JList [JInt 3; JDict inner])]])] in
  let s := {| date := u "d"; time := u "10:30 AM"; price := u "$42.00";
              source := u "network-json" |} in
  slot_of_mapping
    [(u "time", JStr (u "10:07")); (u "price", JStr (u "$10"));
     (u "days", JList [JNull; JDict [(u "slots", JList [JInt 3; JDict inner])]])] (u "d") = [] /\
  nested_in (JDict inner) payload /\
  In s (slot_of_mapping inner (u "d")) /\
  In s (_collect_slots_from_json payload [] (u "d")).
Proof.
  intros inner payload s.
  assert (Hn : nested_in (JDict inner) payload).
  { eapply nested_below; [|apply (child_value _ (u "days")); simpl; auto].
    eapply nested_below; [|apply child_item; simpl; right; left; reflexivity].
    eapply nested_below; [|apply (child_value _ (u "slots")); simpl; auto].
    eapply nested_below; [|apply child_item; simpl; right; left; reflexivity].
    apply nested_here. }
  assert (Hs : In s (slot_of_mapping inner (u "d"))) by (vm_compute; auto).
  split; [reflexivity|]. split; [exact Hn|]. split; [exact Hs|].
  exact (proj2 (C4_json_scan_reaches_every_nested_value payload [] (u "d")) inner s Hn Hs).
Defined.

(** C6: the time-bearing and the price-bearing key of a mapping are found
    by comparing lower-cased keys with the two fixed priority lists; the key
    used matches the first alias, in list order, that any key matches, and no
    key is used exactly when no key matches any alias.  The mapping
    [{"StartTime": "14:20", "AdultPrice": "$55"}] yields exactly one slot. *)
Theorem C6_alias_lookup_case_insensitive_first_wins :
  TIME_ALIASES = [u "time"; u "starttime"; u "start_time"; u "slot_time"] /\
  PRICE_ALIASES =
    [u "price"; u "adultprice"; u "adult_price"; u "displayprice"; u "formattedprice"] /\
  (forall entries date0 s,
      In s (slot_of_mapping entries date0) ->
      exists tk pk,
        selects TIME_ALIASES entries tk /\
        selects PRICE_ALIASES entries pk /\
        time s = PyStr.strip (PyRepr.str (dict_get_default PyStr.eqb entries tk (JStr []))) /\
        price s = PyStr.strip (PyRepr.str (dict_get_default PyStr.eqb entries pk (JStr [])))) /\
  (forall aliases entries k,
      first_alias (lowered_keys entries) aliases = Some k ->
      selects aliases entries k) /\
  (forall aliases entries,
      first_alias (lowered_keys entries) aliases = None <->
      forall k, In k (dict_keys entries) -> ~ In (PyStr.lower k) aliases) /\
  (forall out date0,
      _collect_slots_from_json
        (JDict [(u "StartTime", JStr (u "14:20")); (u "AdultPrice", JStr (u "$55"))]) out date0
      = out ++ [{| date := date0; time := u "14:20"; price := u "$55";
                   source := u "network-json" |}]).
Proof.
  split; [reflexivity|]. split; [reflexivity|].
  split; [|split; [|split]].
  - intros entries date0 s H.
    apply slot_of_mapping_inv in H
      as (tk & pk & pre & m & minutes & Ht & Hp & -> & _).
    exists tk, pk. simpl.
    repeat split; auto using first_alias_selects.
  - apply first_alias_selects.
  - apply first_alias_no_match.
  - intros out date0. rewrite collect_app. reflexivity.
Qed.

Lemma C6_alias_lookup_case_insensitive_first_wins_witness :
  let entries :=
    [(u "start_time", JStr (u "10:20")); (u "displayPrice", JStr (u "$9"));
     (u "Time", JStr (u "10:30")); (u "ADULTPRICE", JStr (u "$7"))] in
  let s := {| date := u "d"; time := u "10:30"; price := u "$7";
              source := u "network-json" |} in
  In s (slot_of_mapping entries (u "d")) /\
  exists tk pk,
    selects TIME_ALIASES entries tk /\
    selects PRICE_ALIASES entries pk /\
    time s = PyStr.strip (PyRepr.str (dict_get_default PyStr.eqb entries tk (JStr []))) /\
    price s = PyStr.strip (PyRepr.str (dict_get_default PyStr.eqb entries pk (JStr []))).
Proof.
  intros entries s.
  assert (H : In s (slot_of_mapping entries (u "d"))) by (vm_compute; auto).
  split; [exact H|].
  exact (proj1 (proj2 (proj2 C6_alias_lookup_case_insensitive_first_wins))
           entries (u "d") s H).
Defined.

(** ** Removing duplicates *)


Section DictKeys.
Context {K V : Type} (eqb : K -> K -> bool).
Hypothesis eqb_spec : forall a b, reflect (a = b) (eqb a b).

Lemma dict_set_keys_In (d : list (K * V)) (k k' : K) (v : V) :
  In k' (dict_keys (dict_set eqb d k v)) <-> In k' (dict_keys d) \/ k' = k.
Proof.
  unfold dict_keys.
  induction d as [|[k0 v0] r IH]; simpl.
  - intuition.
  - destruct (eqb_spec k0 k) as [->|Hk0]; simpl.
    + intuition.
    + rewrite IH. tauto.
Qed.

Lemma dict_set_keys_NoDup (d : list (K * V)) (k : K) (v : V) :
  NoDup (dict_keys d) -> NoDup (dict_keys (dict_set eqb d k v)).
Proof.
  induction d as [|[k0 v0] r IH]; simpl; intros Hnd.
  - constructor; [intros []|constructor].
  - destruct (eqb_spec k0 k) as [->|Hk0]; simpl; [exact Hnd|].
    inversion Hnd as [|? ? Hnotin Hnd']; subst.
    constructor; [|now apply IH].
    intros Hin. apply dict_set_keys_In in Hin as [Hin| ->]; auto.
Qed.

Lemma dict_In_get (d : list (K * V)) (k : K) (v : V) :
  NoDup (dict_keys d) -> In (k, v) d -> dict_get eqb d k = Some v.
Proof.
  induction d as [|[k0 v0] r IH]; simpl; intros Hnd; [intros []|].
  inversion Hnd as [|? ? Hnotin Hnd']; subst.
  intros [[= -> ->]|Hin].
  - now destruct (eqb_spec k k).
  - destruct (eqb_spec k0 k) as [->|Hk0]; [|now apply IH].
    exfalso. apply Hnotin. change k with (fst (k, v)). now apply in_map.
Qed.
End DictKeys.

Lemma dedup_dict_snoc (l : list TicketSlot) (x : TicketSlot) :
  dedup_dict (l ++ [x]) = dict_set key_eqb (dedup_dict l) (slot_key x) x.
Proof. unfold dedup_dict. now rewrite fold_left_app. Qed.

Lemma dedup_dict_keys_NoDup (l : list TicketSlot) :
  NoDup (dict_keys (dedup_dict l)).
Proof.
  induction l as [|x l IH] using rev_ind.
  - constructor.
  - rewrite dedup_dict_snoc. now apply (dict_set_keys_NoDup key_eqb key_eqb_spec).
Qed.

Lemma last_with_key_snoc (k : pystr * pystr) (l : list TicketSlot)
    (x : TicketSlot) (start : option TicketSlot) :
  last_with_key k (l ++ [x]) start
  = if key_eqb (slot_key x) k then Some x else last_with_key k l start.
Proof. unfold last_with_key. now rewrite fold_left_app. Qed.

(** The dictionary maps a key to the last slot written under it. *)
Lemma dedup_dict_get (l : list TicketSlot) (k : pystr * pystr) :
  dict_get key_eqb (dedup_dict l) k = last_with_key k l None.
Proof.
  induction l as [|x l IH] using rev_ind; [reflexivity|].
  rewrite dedup_dict_snoc, last_with_key_snoc.
  rewrite (dict_get_set key_eqb key_eqb_spec). now rewrite IH.
Qed.

Lemma last_with_key_Some (k : pystr * pystr) (l : list TicketSlot)
    (s : TicketSlot) :
  forall start,
    last_with_key k l start = Some s ->
    (In s l /\ slot_key s = k) \/ start = Some s.
Proof.
  unfold last_with_key.
  induction l as [|x l IH]; intros start; simpl; [now right|].
  intros H. apply IH in H as [[Hin Hk]|H].
  - left. auto.
  - destruct (key_eqb_spec (slot_key x) k) as [Hx|Hx].
    + injection H as ->. left. auto.
    + now right.
Qed.

Lemma last_with_key_started (k : pystr * pystr) (l : list TicketSlot)
    (x : TicketSlot) :
  exists s, last_with_key k l (Some x) = Some s.
Proof.
  unfold last_with_key. revert x.
  induction l as [|y l IH]; intros x; simpl; [now exists x|].
  destruct (key_eqb (slot_key y) k); apply IH.
Qed.

(** A key that occurs in [l] is resolved to a slot of [l]. *)
Lemma last_with_key_found (l : list TicketSlot) (x : TicketSlot)
    (start : option TicketSlot) :
  In x l ->
  exists s, last_with_key (slot_key x) l start = Some s /\
            In s l /\ slot_key s = slot_key x.
Proof.
  intros Hin. apply in_split in Hin as (l1 & l2 & ->).
  unfold last_with_key. rewrite fold_left_app. simpl.
  destruct (key_eqb_spec (slot_key x) (slot_key x)) as [_|Hne]; [|now elim Hne].
  destruct (last_with_key_started (slot_key x) l2 x) as (s & Hs).
  exists s. split; [exact Hs|].
  apply last_with_key_Some in Hs as [[Hin Hk]|[= <-]].
  - split; [|exact Hk]. apply in_or_app. right. now right.
  - split; [|reflexivity]. apply in_or_app. right. now left.
Qed.

(** Entries of the dictionary: every value sits under its own key. *)
Lemma dedup_dict_entries (l : list TicketSlot) (k : pystr * pystr)
    (s : TicketSlot) :
  In (k, s) (dedup_dict l) <-> last_with_key k l None = Some s.
Proof.
  rewrite <- dedup_dict_get. split.
  - apply (dict_In_get key_eqb key_eqb_spec), dedup_dict_keys_NoDup.
  - apply (dict_get_In key_eqb key_eqb_spec).
Qed.

Lemma dedup_dict_entry_key (l : list TicketSlot) (k : pystr * pystr)
    (s : TicketSlot) :
  In (k, s) (dedup_dict l) -> slot_key s = k.
Proof.
  intros H. apply dedup_dict_entries in H.
  apply last_with_key_Some in H as [[_ Hk]|]; [exact Hk|discriminate].
Qed.

Lemma dedup_dict_values_keys (l : list TicketSlot) :
  map slot_key (dict_values (dedup_dict l)) = dict_keys (dedup_dict l).
Proof.
  unfold dict_values, dict_keys. rewrite map_map.
  apply map_ext_in. intros [k s] Hin. simpl.
  now apply dedup_dict_entry_key in Hin.
Qed.

(** The values of the dictionary are the slots that are last for their key. *)
Lemma dedup_dict_values_In (l : list TicketSlot) (s : TicketSlot) :
  In s (dict_values (dedup_dict l)) <->
  last_with_key (slot_key s) l None = Some s.
Proof.
  unfold dict_values. rewrite in_map_iff. split.
  - intros ([k s'] & Heq & Hin). simpl in Heq. subst s'.
    rewrite (dedup_dict_entry_key _ _ _ Hin). now apply dedup_dict_entries.
  - intros H. exists (slot_key s, s). split; [reflexivity|].
    now apply dedup_dict_entries.
Qed.

(** ** Sorting *)

Lemma key_leb_trans (a b c : pystr * pystr) :
  key_leb a b = true -> key_leb b c = true -> key_leb a c = true.
Proof.
  destruct a as [a1 a2], b as [b1 b2], c as [c1 c2]. unfold key_leb. simpl.
  destruct (PyStr.compare a1 b1) eqn:Hab; try discriminate;
    destruct (PyStr.compare b1 c1) eqn:Hbc; try discriminate.
  - apply pystr_compare_eq_iff in Hab, Hbc. subst.
    rewrite string_compare_refl. apply string_leb_trans.
  - apply pystr_compare_eq_iff in Hab. subst. now rewrite Hbc.
  - apply pystr_compare_eq_iff in Hbc. subst. now rewrite Hab.
  - now rewrite (string_compare_lt_trans _ _ _ Hab Hbc).
Qed.

Lemma key_leb_total (a b : pystr * pystr) :
  key_leb a b = false -> key_leb b a = true.
Proof.
  destruct a as [a1 a2], b as [b1 b2]. unfold key_leb. simpl.
  rewrite (pystr_compare_antisym b1 a1).
  destruct (PyStr.compare a1 b1) eqn:Hab; simpl; try congruence.
  intros H. destruct (pystr_leb_total a2 b2); congruence.
Qed.

(** The comparison of keys is the lexicographic one on (time, price). *)
Lemma key_le_lexicographic (a b : TicketSlot) :
  key_le a b <->
  PyStr.ltb (time a) (time b) = true \/
  (time a = time b /\ PyStr.leb (price a) (price b) = true).
Proof.
  unfold key_le, key_leb, slot_key, PyStr.ltb. simpl.
  destruct (PyStr.compare (time a) (time b)) eqn:E.
  - apply pystr_compare_eq_iff in E. split; [now right|].
    now intros [?|[_ ?]].
  - split; [now left|reflexivity].
  - split; [discriminate|]. intros [?|[Heq _]]; [discriminate|].
    rewrite Heq, string_compare_refl in E. discriminate.
Qed.

Lemma insert_slot_perm (x : TicketSlot) (l : list TicketSlot) :
  Permutation (insert_slot x l) (x :: l).
Proof.
  induction l as [|y r IH]; simpl; [reflexivity|].
  destruct (key_leb (slot_key x) (slot_key y)); [reflexivity|].
  rewrite IH. apply perm_swap.
Qed.

Lemma sorted_perm (l : list TicketSlot) : Permutation (sorted l) l.
Proof.
  induction l as [|x l IH]; simpl; [constructor|].
  rewrite insert_slot_perm. now constructor.
Qed.

Lemma insert_slot_sorted (x : TicketSlot) (l : list TicketSlot) :
  StronglySorted key_le l -> StronglySorted key_le (insert_slot x l).
Proof.
  induction 1 as [|y r Hr IH Hy]; simpl.
  - repeat constructor.
  - destruct (key_leb (slot_key x) (slot_key y)) eqn:E.
    + constructor; [now constructor|].
      constructor; [exact E|].
      rewrite Forall_forall in *. intros z Hz.
      apply key_leb_trans with (slot_key y); [exact E|now apply Hy].
    + constructor; [exact IH|].
      rewrite Forall_forall in *. intros z Hz.
      apply (Permutation_in _ (insert_slot_perm x r)) in Hz as [<-|Hz].
      * now apply key_leb_total.
      * now apply Hy.
Qed.

Lemma sorted_sorted (l : list TicketSlot) : StronglySorted key_le (sorted l).
Proof.
  induction l as [|x l IH]; simpl; [constructor|now apply insert_slot_sorted].
Qed.

(** ** Claims about the reconciliation *)

(** C7 (amended): the returned sequence is ordered by the pair (time, price),
    compared as strings, and holds exactly the slots that survive the removal
    of duplicates; the order is not chronological: 10:30 AM sorts before
    1:00 PM (the colon is greater than every digit) and before 9:50 AM. *)
Theorem C7_output_sorted_by_time_then_price_strings :
  (forall net dom, StronglySorted key_le (reconcile net dom)) /\
  (forall net dom,
      Permutation (reconcile net dom) (dict_values (dedup_dict (net ++ dom)))) /\
  (forall a b,
      key_le a b <->
      PyStr.ltb (time a) (time b) = true \/
      (time a = time b /\ PyStr.leb (price a) (price b) = true)) /\
  PyStr.ltb (u "10:30 AM") (u "1:00 PM") = true /\
  PyStr.ltb (u "10:30 AM") (u "9:50 AM") = true /\
  (forall d src,
      reconcile
        [{| date := d; time := u "9:50 AM"; price := u "$40.00"; source := src |};
         {| date := d; time := u "1:00 PM"; price := u "$45.00"; source := src |}]
        [{| date := d; time := u "10:30 AM"; price := u "$42.00"; source := src |};
         {| date := d; time := u "1:00 PM"; price := u "$38.00"; source := src |}]
      = [{| date := d; time := u "10:30 AM"; price := u "$42.00"; source := src |};
         {| date := d; time := u "1:00 PM"; price := u "$38.00"; source := src |};
         {| date := d; time := u "1:00 PM"; price := u "$45.00"; source := src |};
         {| date := d; time := u "9:50 AM"; price := u "$40.00"; source := src |}]).
Proof.
  split; [|split; [|split; [|split; [|split]]]].
  - intros net dom. apply sorted_sorted.
  - intros net dom. apply sorted_perm.
  - apply key_le_lexicographic.
  - reflexivity.
  - reflexivity.
  - reflexivity.
Qed.

(** C7, as stated, fails on its example: under string comparison 1:00 PM
    does not sort before 10:30 AM, and the reconciler returns 10:30 AM
    first. *)
Lemma C7_counterexample :
  PyStr.ltb (u "1:00 PM") (u "10:30 AM") = false /\
  reconcile
    [{| date := u "d"; time := u "1:00 PM"; price := u "$45.00"; source := u "network-json" |};
     {| date := u "d"; time := u "10:30 AM"; price := u "$42.00"; source := u "network-json" |}]
    []
  = [{| date := u "d"; time := u "10:30 AM"; price := u "$42.00"; source := u "network-json" |};
     {| date := u "d"; time := u "1:00 PM"; price := u "$45.00"; source := u "network-json" |}].
Proof. split; reflexivity. Qed.

Lemma reconcile_In (net dom : list TicketSlot) (s : TicketSlot) :
  In s (reconcile net dom) <->
  last_with_key (slot_key s) (net ++ dom) None = Some s.
Proof.
  unfold reconcile. rewrite <- dedup_dict_values_In. split.
  - apply Permutation_in, sorted_perm.
  - apply Permutation_in. symmetry. apply sorted_perm.
Qed.

Lemma reconcile_keys_NoDup (net dom : list TicketSlot) :
  NoDup (map slot_key (reconcile net dom)).
Proof.
  unfold reconcile.
  eapply Permutation_NoDup.
  - apply Permutation_map. symmetry. apply sorted_perm.
  - rewrite dedup_dict_values_keys. apply dedup_dict_keys_NoDup.
Qed.

(** A key that occurs among the candidates survives, held by one slot. *)
Lemma reconcile_keeps_key (net dom : list TicketSlot) (x : TicketSlot) :
  In x (net ++ dom) ->
  exists s, In s (reconcile net dom) /\ slot_key s = slot_key x /\ In s (net ++ dom).
Proof.
  intros Hin.
  destruct (last_with_key_found _ _ None Hin) as (s & Hs & Hin' & Hk).
  exists s. split; [|auto]. apply reconcile_In. now rewrite Hk.
Qed.

(** C1 (amended): the reconciled output holds one slot per (time, price)
    key, namely the last candidate with that key in merge order (network
    list, then DOM list).  When a network candidate and a DOM candidate
    carry the same key, the one slot kept for that key is therefore a DOM
    candidate, and its source tag is dom when the DOM candidates are tagged
    dom.  Candidates with the same time and different prices are both kept,
    as distinct records. *)
Theorem C1_same_key_keeps_last_written_candidate (net dom : list TicketSlot) :
  NoDup (map slot_key (reconcile net dom)) /\
  (forall s,
      In s (reconcile net dom) <->
      last_with_key (slot_key s) (net ++ dom) None = Some s) /\
  (forall n d,
      In n net -> In d dom -> slot_key n = slot_key d ->
      exists s,
        In s (reconcile net dom) /\
        slot_key s = slot_key n /\
        In s dom /\
        ((forall x, In x dom -> source x = u "dom") -> source s = u "dom") /\
        (forall s', In s' (reconcile net dom) -> slot_key s' = slot_key n -> s' = s)) /\
  (forall a b,
      In a (net ++ dom) -> In b (net ++ dom) ->
      time a = time b -> price a <> price b ->
      exists a' b',
        In a' (reconcile net dom) /\ In b' (reconcile net dom) /\
        slot_key a' = slot_key a /\ slot_key b' = slot_key b /\ a' <> b').
Proof.
  split; [apply reconcile_keys_NoDup|].
  split; [apply reconcile_In|].
  split.
  - intros n d Hn Hd Hk.
    destruct (last_with_key_found dom d (last_with_key (slot_key d) net None) Hd)
      as (s & Hs & Hin & Hks).
    assert (Hlast : last_with_key (slot_key s) (net ++ dom) None = Some s).
    { unfold last_with_key in *. rewrite fold_left_app, Hks. exact Hs. }
    exists s. split; [now apply reconcile_In|].
    split; [congruence|]. split; [exact Hin|]. split; [auto|].
    intros s' Hs' Hk'. apply reconcile_In in Hs'.
    assert (Heq : slot_key s' = slot_key s) by congruence.
    rewrite Heq in Hs'. congruence.
  - intros a b Ha Hb Ht Hp.
    destruct (reconcile_keeps_key net dom a Ha) as (a' & Ha' & Hka & _).
    destruct (reconcile_keeps_key net dom b Hb) as (b' & Hb' & Hkb & _).
    exists a', b'. repeat split; auto.
    intros Heq. subst b'. apply Hp.
    assert (Hk : slot_key a = slot_key b) by congruence.
    unfold slot_key in Hk. congruence.
Qed.

Lemma C1_same_key_keeps_last_written_candidate_witness :
  let n := {| date := u "d"; time := u "10:30 AM"; price := u "$42.00";
              source := u "network-json" |} in
  let n2 := {| date := u "d"; time := u "10:30 AM"; price := u "$47.00";
               source := u "network-json" |} in
  let d := {| date := u "d"; time := u "10:30 AM"; price := u "$42.00";
              source := u "dom" |} in
  reconcile [n; n2] [d] = [d; n2] /\
  (exists s,
      In s (reconcile [n; n2] [d]) /\
      slot_key s = slot_key n /\
      In s [d] /\
      ((forall x, In x [d] -> source x = u "dom") -> source s = u "dom") /\
      (forall s', In s' (reconcile [n; n2] [d]) -> slot_key s' = slot_key n -> s' = s)) /\
  (exists a' b',
      In a' (reconcile [n; n2] [d]) /\ In b' (reconcile [n; n2] [d]) /\
      slot_key a' = slot_key n /\ slot_key b' = slot_key n2 /\ a' <> b').
Proof.
  intros n n2 d.
  pose proof (C1_same_key_keeps_last_written_candidate [n; n2] [d])
    as (_ & _ & Hsame & Hdiff).
  split; [reflexivity|]. split.
  - apply (Hsame n d); simpl; auto.
  - apply (Hdiff n n2); simpl; auto. discriminate.
Defined.

(** C1, as stated, fails: for a network candidate and a DOM candidate with
    the same (time, price) key the one slot kept is the DOM one, so its tag
    is dom and not network-json; the whole scrape shows the same. *)
Lemma C1_counterexample :
  let n := {| date := u "d"; time := u "10:30 AM"; price := u "$42.00";
              source := u "network-json" |} in
  let d := {| date := u "d"; time := u "10:30 AM"; price := u "$42.00";
              source := u "dom" |} in
  slot_key n = slot_key d /\
  reconcile [n] [d] = [d] /\
  ~ (exists s, reconcile [n] [d] = [s] /\ source s = u "network-json") /\
  snd (scrape_top_of_rock (u "d") (u "out")
         (quiet_run
            [json_response
               (JDict [(u "time", JStr (u "10:30 AM")); (u "price", JStr (u "$42.00"))])]
            (page_of [text_element "10:30 AM - $42.00" ""]))
         [])
  = Ok [d].
Proof.
  intros n d. split; [reflexivity|]. split; [reflexivity|]. split.
  - intros (s & Hs & Hsrc). vm_compute in Hs. injection Hs as <-. discriminate.
  - reflexivity.
Qed.


(** ** The currency pattern *)

Lemma span_sound (p : N -> bool) (s a b : pystr) :
  Re.span p s = (a, b) -> s = a ++ b /\ all_chars p a = true.
Proof.
  revert a b. induction s as [|c r IH]; intros a b; simpl.
  - intros [= <- <-]. auto.
  - destruct (p c) eqn:Hc.
    + destruct (Re.span p r) as [a' b'] eqn:E. intros [= <- <-].
      destruct (IH _ _ eq_refl) as (-> & Ha). simpl. now rewrite Hc.
    + intros [= <- <-]. auto.
Qed.

Lemma fraction_sound (s : pystr) :
  (Re.fraction s = [] \/
   exists d1 d2,
     Re.fraction s = (46%N :: d1 :: [d2]) /\
     PyStr.is_digit d1 = true /\ PyStr.is_digit d2 = true) /\
  exists post, s = Re.fraction s ++ post.
Proof.
  unfold Re.fraction.
  destruct s as [|c [|d1 [|d2 r]]];
    try (split; [now left|eexists; reflexivity]).
  destruct (N.eqb_spec c 46%N) as [->|Hc];
    [|split; [now left|eexists; reflexivity]].
  destruct (PyStr.is_digit d1) eqn:H1, (PyStr.is_digit d2) eqn:H2; simpl;
    try (split; [now left|eexists; reflexivity]).
  split; [right; now exists d1, d2|now exists r].
Qed.

Lemma currency_at_sound (prev : option N) (s g : pystr) :
  Re.currency_at prev s = Some g ->
  currency_shaped g /\ exists post, s = g ++ post.
Proof.
  unfold Re.currency_at.
  destruct s as [|c r]; [discriminate|].
  destruct (N.eqb_spec c 36%N) as [->|Hc]; [|discriminate].
  destruct (Re.span PyStr.is_space r) as [ws r1] eqn:E1.
  destruct (Re.span PyStr.is_digit r1) as [ds r2] eqn:E2.
  apply span_sound in E1 as (-> & Hws), E2 as (-> & Hds).
  destruct ds as [|d ds]; [discriminate|].
  intros [= <-].
  destruct (fraction_sound r2) as (Hshape & post & Hpost).
  split.
  - exists ws, (d :: ds), (Re.fraction r2). repeat split; auto. discriminate.
  - exists post. rewrite Hpost at 1. simpl. f_equal.
    rewrite !append_assoc. simpl. now rewrite !append_assoc.
Qed.

(** [_parse_currency] returns the first currency match of the text with its
    space characters removed, or the empty string when there is none. *)
Lemma parse_currency_spec (text : pystr) :
  (Re.search_currency text = None /\ _parse_currency text = []) \/
  (exists pre g post,
      Re.search_currency text = Some (pre, g) /\
      text = pre ++ g ++ post /\
      currency_shaped g /\
      _parse_currency text = PyStr.remove_spaces g).
Proof.
  unfold _parse_currency.
  destruct (Re.search_currency text) as [[pre g]|] eqn:E; [right|now left].
  pose proof E as E'.
  apply search_sound in E' as (rest & prev' & -> & Hat).
  apply currency_at_sound in Hat as (Hshape & post & ->).
  now exists pre, g, post.
Qed.

Lemma remove_spaces_fixed (s : pystr) :
  PyStr.contains_char 32%N s = false -> PyStr.remove_spaces s = s.
Proof.
  induction s as [|c r IH]; [reflexivity|].
  cbn [PyStr.contains_char PyStr.remove_spaces].
  rewrite (N.eqb_sym 32%N c).
  destruct (N.eqb c 32%N); cbn [orb]; [discriminate|].
  intros H. now rewrite IH.
Qed.

(** ** The time pattern of the rendered-text scanner *)

Lemma meridiem_tail_sound (m2 : N) (s tail : pystr) :
  Re.meridiem_tail m2 s = Some tail ->
  meridiem_shaped tail /\ exists rest, s = tail ++ rest.
Proof.
  unfold Re.meridiem_tail, meridiem_shaped.
  assert (Hnone :
    (if Re.word_boundary (Some m2) (Re.head s) then Some [] else None) = Some tail ->
    (tail = [] \/
     (exists a m, tail = (a :: [m]) /\
                  Re.is_ap a = true /\ Re.is_m m = true) \/
     (exists w a m, tail = (w :: a :: [m]) /\
                    PyStr.is_space w = true /\ Re.is_ap a = true /\ Re.is_m m = true)) /\
    exists rest, s = (tail ++ rest)).
  { destruct (Re.word_boundary (Some m2) (Re.head s)); [|discriminate].
    intros [= <-]. split; [now left|now exists s]. }
  destruct s as [|c1 [|c2 r2]]; try exact Hnone.
  assert (Htwo :
    match
      (if Re.is_ap c1 && Re.is_m c2 && Re.word_boundary (Some c2) (Re.head r2)
       then Some (c1 :: [c2]) else None)
    with
    | Some t => Some t
    | None =>
        if Re.word_boundary (Some m2) (Re.head (c1 :: c2 :: r2))
        then Some [] else None
    end = Some tail ->
    (tail = [] \/
     (exists a m, tail = (a :: [m]) /\
                  Re.is_ap a = true /\ Re.is_m m = true) \/
     (exists w a m, tail = (w :: a :: [m]) /\
                    PyStr.is_space w = true /\ Re.is_ap a = true /\ Re.is_m m = true)) /\
    exists rest, (c1 :: c2 :: r2) = (tail ++ rest)).
  { destruct (Re.is_ap c1) eqn:H1; [|exact Hnone].
    destruct (Re.is_m c2) eqn:H2; [|exact Hnone].
    destruct (Re.word_boundary (Some c2) (Re.head r2)); [|exact Hnone].
    simpl. intros [= <-]. split; [|now exists r2].
    right. left. now exists c1, c2. }
  destruct r2 as [|c3 r3]; [exact Htwo|].
  destruct (PyStr.is_space c1) eqn:H1; [|exact Htwo].
  destruct (Re.is_ap c2) eqn:H2; [|exact Htwo].
  destruct (Re.is_m c3) eqn:H3; [|exact Htwo].
  destruct (Re.word_boundary (Some c3) (Re.head r3)); [|exact Htwo].
  simpl. intros [= <-]. split; [|now exists r3].
  right. right. now exists c1, c2, c3.
Qed.

Lemma dom_time_with_sound (hh after g : pystr) :
  Re.dom_time_with hh after = Some g ->
  exists mm tail rest,
    g = (hh ++ (u ":") ++ mm ++ tail) /\
    after = ((u ":") ++ mm ++ tail ++ rest) /\
    all_chars PyStr.is_digit mm = true /\ List.length mm = 2 /\
    meridiem_shaped tail.
Proof.
  unfold Re.dom_time_with.
  destruct (Re.colon_minutes after) as [[mm rest0]|] eqn:E; [|discriminate].
  destruct (Re.meridiem_tail _ rest0) as [tail|] eqn:Et; [|discriminate].
  intros [= <-].
  apply colon_minutes_sound in E as (-> & Hd & Hl).
  apply meridiem_tail_sound in Et as (Hshape & rest & ->).
  now exists mm, tail, rest.
Qed.

Lemma dom_time_at_sound (prev : option N) (s g : pystr) :
  Re.dom_time_at prev s = Some g ->
  dom_time_shaped g /\ exists rest, s = g ++ rest.
Proof.
  unfold Re.dom_time_at, dom_time_shaped, hhmm_shaped.
  destruct (Re.word_boundary prev (Re.head s)); [|discriminate].
  destruct s as [|h1 r1]; [discriminate|].
  destruct (PyStr.is_digit h1) eqn:H1; [|discriminate].
  assert (Hone :
    Re.dom_time_with [h1] r1 = Some g ->
    (exists hh mm tail,
        g = (hh ++ (u ":") ++ mm ++ tail) /\
        (all_chars PyStr.is_digit hh = true /\
         (List.length hh = 1 \/ List.length hh = 2) /\
         all_chars PyStr.is_digit mm = true /\ List.length mm = 2) /\
        meridiem_shaped tail) /\
    exists rest, (h1 :: r1) = (g ++ rest)).
  { intros H. apply dom_time_with_sound in H
      as (mm & tail & rest & -> & -> & Hd & Hl & Ht).
    split.
    - exists [h1], mm, tail. simpl. rewrite H1. auto 10.
    - exists rest. simpl. now rewrite !append_assoc. }
  destruct r1 as [|h2 r2]; [exact Hone|].
  destruct (PyStr.is_digit h2) eqn:H2; [|exact Hone].
  destruct (Re.dom_time_with (h1 :: [h2]) r2) as [g'|] eqn:E;
    [|exact Hone].
  intros [= <-].
  apply dom_time_with_sound in E as (mm & tail & rest & -> & -> & Hd & Hl & Ht).
  split.
  - exists (h1 :: [h2]), mm, tail. simpl. rewrite H1, H2. auto 10.
  - exists rest. simpl. now rewrite !append_assoc.
Qed.

Lemma search_dom_time_sound (text pre tm : pystr) :
  Re.search_dom_time text = Some (pre, tm) ->
  dom_time_shaped tm /\ exists post, text = pre ++ tm ++ post.
Proof.
  intros H. apply search_sound in H as (rest & prev' & -> & Hat).
  apply dom_time_at_sound in Hat as (Hshape & post & ->).
  split; [exact Hshape|now exists post].
Qed.

Lemma split_no_sep (sep : N) (s : pystr) :
  PyStr.contains_char sep s = false -> PyStr.split sep s = [s].
Proof.
  induction s as [|c r IH]; [reflexivity|].
  cbn [PyStr.contains_char PyStr.split].
  rewrite (N.eqb_sym c sep).
  destruct (N.eqb sep c); cbn [orb]; [discriminate|].
  intros H. now rewrite (IH H).
Qed.

Lemma split_at_first_sep (sep : N) (a b : pystr) :
  PyStr.contains_char sep a = false ->
  PyStr.split sep (a ++ (sep :: b)) = a :: PyStr.split sep b.
Proof.
  induction a as [|c r IH]; cbn [PyStr.contains_char PyStr.split app].
  - intros _. now rewrite N.eqb_refl.
  - rewrite (N.eqb_sym c sep).
    destruct (N.eqb sep c); cbn [orb]; [discriminate|].
    intros H. now rewrite (IH H).
Qed.

Lemma contains_char_app (c : N) (a b : pystr) :
  PyStr.contains_char c (a ++ b)
  = PyStr.contains_char c a || PyStr.contains_char c b.
Proof.
  induction a as [|x a IH]; cbn [PyStr.contains_char app]; [reflexivity|].
  now rewrite IH, orb_assoc.
Qed.

Lemma all_chars_exclude (p : N -> bool) (c : N) (s : pystr) :
  (forall x, p x = true -> N.eqb c x = false) ->
  all_chars p s = true -> PyStr.contains_char c s = false.
Proof.
  intros Hp. induction s as [|x r IH]; cbn [all_chars PyStr.contains_char];
    [reflexivity|].
  intros H. apply andb_true_iff in H as [Hx Hr].
  now rewrite (Hp x Hx), (IH Hr).
Qed.

Lemma meridiem_no_colon (tail : pystr) :
  meridiem_shaped tail -> PyStr.contains_char 58%N tail = false.
Proof.
  intros [->|[(a & m & -> & Ha & Hm)|(w & a & m & -> & Hw & Ha & Hm)]];
    cbn [PyStr.contains_char];
    rewrite ?(space_not_colon _ Hw), ?(ap_not_colon _ Ha), ?(m_not_colon _ Hm);
    reflexivity.
Qed.

Lemma int_acc_digits (s : pystr) :
  all_chars PyStr.is_digit s = true ->
  forall acc, exists n, PyStr.int_acc acc s = Some n.
Proof.
  induction s as [|c r IH]; cbn [all_chars PyStr.int_acc]; intros H acc.
  - now exists acc.
  - apply andb_true_iff in H as [Hc Hr]. rewrite Hc. apply (IH Hr).
Qed.

Lemma take_prefix_2 (mm tail : pystr) :
  List.length mm = 2 -> PyStr.take 2 (mm ++ tail) = mm.
Proof. destruct mm as [|m1 [|m2 [|m3 r]]]; try discriminate. reflexivity. Qed.

(** On a match of the time pattern, [split(":")[1][:2]] is the text of the
    two minute digits and [int] reads it: neither [IndexError] nor
    [ValueError] can arise. *)
Lemma dom_time_minutes (tm : pystr) :
  dom_time_shaped tm ->
  exists hh mm tail minutes,
    tm = (hh ++ (u ":") ++ mm ++ tail) /\
    hhmm_shaped hh mm /\ meridiem_shaped tail /\
    nth_error (PyStr.split 58%N tm) 1 = Some (mm ++ tail) /\
    PyStr.take 2 (mm ++ tail) = mm /\
    PyStr.int mm = Some minutes.
Proof.
  intros (hh & mm & tail & -> & Hshape & Htail).
  pose proof Hshape as (Hh & Hhl & Hm & Hml).
  assert (Hint : exists minutes, PyStr.int mm = Some minutes).
  { destruct mm as [|m1 r]; [discriminate|]. apply (int_acc_digits _ Hm). }
  destruct Hint as (minutes & Hint).
  exists hh, mm, tail, minutes.
  repeat split; auto using take_prefix_2.
  change (hh ++ (u ":") ++ mm ++ tail)
    with (hh ++ (58%N :: mm ++ tail)).
  rewrite split_at_first_sep
    by (apply (all_chars_exclude PyStr.is_digit); auto using digit_not_colon).
  rewrite split_no_sep; [reflexivity|].
  rewrite contains_char_app, (meridiem_no_colon _ Htail), orb_false_r.
  apply (all_chars_exclude PyStr.is_digit); auto using digit_not_colon.
Qed.

(** ** Upper-casing a matched time token *)

Lemma collapse_step (c : N) (r : pystr) :
  N.eqb c 32%N = false ->
  PyStr.collapse_double_spaces (c :: r)
  = (c :: PyStr.collapse_double_spaces r).
Proof.
  intros H. destruct r as [|c' r']; [reflexivity|].
  cbn [PyStr.collapse_double_spaces]. now rewrite H.
Qed.

Lemma collapse_step_next (c c' : N) (r : pystr) :
  N.eqb c' 32%N = false ->
  PyStr.collapse_double_spaces (c :: c' :: r)
  = c :: PyStr.collapse_double_spaces (c' :: r).
Proof.
  intros H. cbn [PyStr.collapse_double_spaces]. rewrite H.
  now rewrite andb_false_r.
Qed.

Lemma upper_app (a b : pystr) :
  PyStr.upper (a ++ b) = PyStr.upper a ++ PyStr.upper b.
Proof.
  unfold PyStr.upper. induction a as [|c a IH]; simpl; [reflexivity|].
  now rewrite IH.
Qed.

Lemma upper_digits (s : pystr) :
  all_chars PyStr.is_digit s = true -> PyStr.upper s = s.
Proof.
  unfold PyStr.upper. induction s as [|c r IH]; cbn [all_chars map];
    [reflexivity|].
  intros H. apply andb_true_iff in H as [Hc Hr].
  now rewrite (digit_upper _ Hc), (IH Hr).
Qed.

Lemma collapse_digits_then (s rest : pystr) :
  all_chars PyStr.is_digit s = true ->
  PyStr.collapse_double_spaces (s ++ rest)
  = s ++ PyStr.collapse_double_spaces rest.
Proof.
  induction s as [|c r IH]; cbn [all_chars app]; [reflexivity|].
  intros H. apply andb_true_iff in H as [Hc Hr].
  rewrite (collapse_step _ _ (digit_not_space _ Hc)). now rewrite (IH Hr).
Qed.

Lemma collapse_upper_meridiem (tail : pystr) :
  meridiem_shaped tail ->
  PyStr.collapse_double_spaces (PyStr.upper tail) = PyStr.upper tail.
Proof.
  intros [->|[(a & m & -> & Ha & Hm)|(w & a & m & -> & Hw & Ha & Hm)]];
    [reflexivity| |];
    unfold PyStr.upper; cbn [map];
    rewrite (m_upper _ Hm);
    destruct (ap_upper _ Ha) as [-> | ->];
    try reflexivity;
    now rewrite collapse_step_next by reflexivity.
Qed.

(** The replacement of doubled spaces never changes a matched time token:
    the stored time is the token in upper case. *)
Lemma collapse_upper_dom_time (tm : pystr) :
  dom_time_shaped tm ->
  PyStr.collapse_double_spaces (PyStr.upper tm) = PyStr.upper tm.
Proof.
  intros (hh & mm & tail & -> & (Hh & _ & Hm & _) & Htail).
  rewrite !upper_app, (upper_digits _ Hh), (upper_digits _ Hm).
  rewrite (collapse_digits_then _ _ Hh).
  change (PyStr.upper (u ":") ++ mm ++ PyStr.upper tail)
    with (58%N :: mm ++ PyStr.upper tail).
  rewrite collapse_step by reflexivity.
  rewrite (collapse_digits_then _ _ Hm).
  now rewrite (collapse_upper_meridiem _ Htail).
Qed.

(** ** One element of the rendered page *)

(** What an appended slot says about the element it came from. *)
Lemma scan_candidate_slot (el : Locator) (date0 : pystr) (slot : TicketSlot) :
  scan_candidate el date0 = Ok (Some slot) ->
  exists raw pre tm hh mm tail minutes,
    inner_text el = Ok raw /\
    PyStr.strip raw <> [] /\
    List.length (PyStr.strip raw) <= 200 /\
    Re.search_dom_time (PyStr.strip raw) = Some (pre, tm) /\
    tm = (hh ++ (u ":") ++ mm ++ tail) /\
    hhmm_shaped hh mm /\ meridiem_shaped tail /\
    PyStr.int mm = Some minutes /\
    (minutes mod 10 = 0)%Z /\
    price slot <> [] /\
    (price slot = _parse_currency (PyStr.strip raw) \/
     (_parse_currency (PyStr.strip raw) = [] /\
      exists parent,
        parent_inner_text el = Ok parent /\
        price slot = _parse_currency parent)) /\
    slot = {| date := date0;
              time := PyStr.collapse_double_spaces (PyStr.upper tm);
              price := price slot;
              source := u "dom" |}.
Proof.
  unfold scan_candidate.
  destruct (inner_text el) as [raw|e0] eqn:Hraw; cbn [bind]; [|discriminate].
  destruct (PyStr.truthy (PyStr.strip raw)) eqn:Htruthy; cbn [negb orb];
    [|discriminate].
  destruct (200 <? List.length (PyStr.strip raw)) eqn:Hlen; [discriminate|].
  destruct (Re.search_dom_time (PyStr.strip raw)) as [[pre tm]|] eqn:Hs;
    [|discriminate].
  destruct (search_dom_time_sound _ _ _ Hs) as (Hshape & _).
  destruct (dom_time_minutes tm Hshape)
    as (hh & mm & tail & minutes & Htm & Hhm & Htail & Hnth & Htake & Hint).
  rewrite Hnth, Htake, Hint.
  destruct (Z.eqb_spec (minutes mod 10) 0) as [Hmod|Hmod]; cbn [negb];
    [|discriminate].
  apply truthy_true in Htruthy. apply Nat.ltb_ge in Hlen.
  destruct (PyStr.truthy (_parse_currency (PyStr.strip raw))) eqn:Hp; cbn [negb bind].
  - rewrite Hp. cbn [negb]. intros [= <-].
    exists raw, pre, tm, hh, mm, tail, minutes. cbn [price].
    repeat (split; [solve [auto]|]).
    split; [now apply truthy_true|]. split; [now left|reflexivity].
  - destruct (parent_inner_text el) as [parent|e1]; cbn [bind]; [|discriminate].
    destruct (PyStr.truthy (_parse_currency parent)) eqn:Hpp; cbn [negb];
      [|discriminate].
    intros [= <-].
    exists raw, pre, tm, hh, mm, tail, minutes. cbn [price].
    repeat (split; [solve [auto]|]).
    split; [now apply truthy_true|]. split; [|reflexivity].
    right. split; [|now exists parent].
    destruct (_parse_currency (PyStr.strip raw)); [reflexivity|discriminate].
Qed.

(** The only failures of the loop body are failed reads: of the element's
    own text, or of its parent's text when that is consulted. *)
Lemma scan_candidate_raise (el : Locator) (date0 : pystr) (e : exn) :
  scan_candidate el date0 = Raise e ->
  inner_text el = Raise e \/
  (exists raw, inner_text el = Ok raw /\
               _parse_currency (PyStr.strip raw) = [] /\
               parent_inner_text el = Raise e).
Proof.
  unfold scan_candidate.
  destruct (inner_text el) as [raw|e0] eqn:Hraw; cbn [bind];
    [|intros [= <-]; now left].
  destruct (PyStr.truthy (PyStr.strip raw)) eqn:Htruthy; cbn [negb orb];
    [|discriminate].
  destruct (200 <? List.length (PyStr.strip raw)) eqn:Hlen; [discriminate|].
  destruct (Re.search_dom_time (PyStr.strip raw)) as [[pre tm]|] eqn:Hs;
    [|discriminate].
  destruct (search_dom_time_sound _ _ _ Hs) as (Hshape & _).
  destruct (dom_time_minutes tm Hshape)
    as (hh & mm & tail & minutes & Htm & Hhm & Htail & Hnth & Htake & Hint).
  rewrite Hnth, Htake, Hint.
  destruct (negb (minutes mod 10 =? 0)%Z); [discriminate|].
  destruct (PyStr.truthy (_parse_currency (PyStr.strip raw))) eqn:Hp; cbn [negb bind].
  - rewrite Hp. discriminate.
  - destruct (parent_inner_text el) as [parent|e1]; cbn [bind].
    + destruct (negb (PyStr.truthy (_parse_currency parent))); discriminate.
    + intros [= <-]. right. exists raw. repeat split; auto.
      destruct (_parse_currency (PyStr.strip raw)); [reflexivity|discriminate].
Qed.

(** A failed read of the element's own text always escapes the loop body. *)
Lemma scan_candidate_read_failure (el : Locator) (date0 : pystr) (e : exn) :
  inner_text el = Raise e -> scan_candidate el date0 = Raise e.
Proof. intros H. unfold scan_candidate. now rewrite H. Qed.

(** An element whose text is a time on a ten-minute boundary and holds a
    price gives a slot; nothing else about the minutes is asked. *)
Lemma scan_candidate_accepts (el : Locator) (date0 raw pre tm : pystr)
    (hh mm tail : pystr) (minutes : Z) :
  inner_text el = Ok raw ->
  PyStr.strip raw <> [] ->
  List.length (PyStr.strip raw) <= 200 ->
  Re.search_dom_time (PyStr.strip raw) = Some (pre, tm) ->
  tm = (hh ++ (u ":") ++ mm ++ tail) ->
  hhmm_shaped hh mm -> meridiem_shaped tail ->
  PyStr.int mm = Some minutes ->
  (minutes mod 10 = 0)%Z ->
  _parse_currency (PyStr.strip raw) <> [] ->
  scan_candidate el date0 =
  Ok (Some {| date := date0;
              time := PyStr.upper tm;
              price := _parse_currency (PyStr.strip raw);
              source := u "dom" |}).
Proof.
  intros Hraw Hne Hlen Hs Htm Hhm Htail Hint Hmod Hprice.
  unfold scan_candidate. rewrite Hraw. cbn [bind].
  apply truthy_true in Hne. rewrite Hne. cbn [negb orb].
  apply Nat.ltb_ge in Hlen. rewrite Hlen, Hs.
  assert (Hshape : dom_time_shaped tm) by (now exists hh, mm, tail).
  destruct (dom_time_minutes tm Hshape)
    as (hh' & mm' & tail' & minutes' & Htm' & Hhm' & Htail' & Hnth & Htake & Hint').
  assert (Hmm : mm' = mm).
  { rewrite Htm in Hnth.
    change (hh ++ (u ":") ++ mm ++ tail)
      with (hh ++ (58%N :: mm ++ tail)) in Hnth.
    destruct Hhm as (Hh & _ & Hm & Hml).
    rewrite split_at_first_sep in Hnth
      by (apply (all_chars_exclude PyStr.is_digit); auto using digit_not_colon).
    rewrite split_no_sep in Hnth.
    - cbn in Hnth. injection Hnth as Hnth. rewrite <- Htake, <- Hnth.
      now apply take_prefix_2.
    - rewrite contains_char_app, (meridiem_no_colon _ Htail), orb_false_r.
      apply (all_chars_exclude PyStr.is_digit); auto using digit_not_colon. }
  subst mm'. rewrite Hnth, Htake, Hint, Hmod. cbn [Z.eqb negb].
  apply truthy_true in Hprice. rewrite Hprice. cbn [negb bind]. rewrite Hprice.
  cbn [negb]. now rewrite (collapse_upper_dom_time _ Hshape).
Qed.

(** ** The sweep over the elements *)

Lemma dom_loop_scan_all (date0 : pystr) (page : Page) (indices : list nat) :
  forall slots,
    dom_loop page indices slots date0
    = scan_all (map (nth page) indices) slots date0.
Proof.
  induction indices as [|i rest IH]; intros slots; [reflexivity|].
  cbn [dom_loop scan_all map].
  destruct (scan_candidate (nth page i) date0) as [found|e]; cbn [bind];
    [apply IH|reflexivity].
Qed.

(** The scanner is the count, the sweep over at most 4000 elements, then
    the removal of duplicates. *)
Lemma collect_slots_from_dom_unfold (page : Page) (date0 : pystr) :
  _collect_slots_from_dom page date0
  = (n <- count page ;;
     slots <- scan_all (visited page n) [] date0 ;;
     Ok (dict_values (dedup_dict slots))).
Proof.
  unfold _collect_slots_from_dom, visited.
  destruct (count page) as [n|e]; cbn [bind]; [|reflexivity].
  now rewrite dom_loop_scan_all.
Qed.

Lemma nth_seq_firstn (A : Type) (d : A) (l : list A) :
  forall before n,
    map (fun i => List.nth i (before ++ l) d)
        (seq (List.length before) (Nat.min (List.length l) n))
    = firstn n l.
Proof.
  induction l as [|x l IH]; intros before n; [now destruct n|].
  destruct n as [|n]; [reflexivity|].
  cbn [List.length Nat.min seq map firstn].
  rewrite app_nth2 by lia. rewrite Nat.sub_diag. cbn [List.nth]. f_equal.
  specialize (IH (before ++ [x]) n).
  rewrite <- app_assoc, length_app in IH. cbn [List.length app] in IH.
  rewrite Nat.add_1_r in IH. exact IH.
Qed.

(** On a page that holds the elements [els], the sweep visits the first
    4000 of them. *)
Lemma visited_page_of (els : list Locator) :
  visited (page_of els) (List.length els) = firstn 4000 els.
Proof.
  unfold visited, page_of. cbn [nth].
  apply (nth_seq_firstn Locator no_element els [] 4000).
Qed.

Lemma collect_slots_from_dom_page_of (els : list Locator) (date0 : pystr) :
  _collect_slots_from_dom (page_of els) date0
  = (slots <- scan_all (firstn 4000 els) [] date0 ;;
     Ok (dict_values (dedup_dict slots))).
Proof.
  rewrite collect_slots_from_dom_unfold. cbn [page_of count bind].
  now rewrite visited_page_of.
Qed.

Lemma scan_all_raises_at (date0 : pystr) (before : list Locator) (el : Locator)
    (after : list Locator) (e : exn) :
  (forall x, In x before -> exists r, scan_candidate x date0 = Ok r) ->
  scan_candidate el date0 = Raise e ->
  forall slots, scan_all (before ++ el :: after) slots date0 = Raise e.
Proof.
  intros Hbefore Hel.
  induction before as [|x before IH]; intros slots; cbn [app scan_all].
  - now rewrite Hel.
  - destruct (Hbefore x (or_introl eq_refl)) as (r & Hr). rewrite Hr. cbn [bind].
    apply IH. intros y Hy. apply Hbefore. now right.
Qed.

Lemma scan_all_returns (date0 : pystr) (l : list Locator) :
  (forall x, In x l -> exists r, scan_candidate x date0 = Ok r) ->
  forall slots, exists slots', scan_all l slots date0 = Ok slots'.
Proof.
  induction l as [|x l IH]; intros Hl slots; cbn [scan_all].
  - now exists slots.
  - destruct (Hl x (or_introl eq_refl)) as (r & Hr). rewrite Hr. cbn [bind].
    apply IH. intros y Hy. apply Hl. now right.
Qed.

Lemma scan_all_raise_inv (date0 : pystr) (l : list Locator) (e : exn) :
  forall slots,
    scan_all l slots date0 = Raise e ->
    exists before el after,
      l = before ++ el :: after /\
      (forall x, In x before -> exists r, scan_candidate x date0 = Ok r) /\
      scan_candidate el date0 = Raise e.
Proof.
  induction l as [|x l IH]; intros slots; cbn [scan_all]; [discriminate|].
  destruct (scan_candidate x date0) as [found|e0] eqn:Hx; cbn [bind].
  - intros H. apply IH in H as (before & el & after & -> & Hbefore & Hel).
    exists (x :: before), el, after. repeat split; auto.
    intros y [<-|Hy]; [now exists found|auto].
  - intros [= <-]. exists [], x, l. repeat split; auto. intros y [].
Qed.

(** Every slot of a completed sweep was appended for one of the elements. *)
Lemma scan_all_origin (date0 : pystr) (l : list Locator) :
  forall slots slots',
    scan_all l slots date0 = Ok slots' ->
    forall s, In s slots' ->
              In s slots \/ exists el, In el l /\ scan_candidate el date0 = Ok (Some s).
Proof.
  induction l as [|x l IH]; intros slots slots'; cbn [scan_all].
  - intros [= <-] s Hs. now left.
  - destruct (scan_candidate x date0) as [found|e0] eqn:Hx; cbn [bind];
      [|discriminate].
    intros H s Hs. destruct (IH _ _ H s Hs) as [Hin|(el & Hel & Hscan)].
    + destruct found as [s0|]; [|now left].
      apply in_app_or in Hin as [Hin|[<-|[]]]; [now left|].
      right. exists x. split; [now left|exact Hx].
    + right. exists el. split; [now right|exact Hscan].
Qed.

Lemma In_firstn (A : Type) (n : nat) (l : list A) (x : A) :
  In x (firstn n l) -> In x l.
Proof.
  intros H. rewrite <- (firstn_skipn n l). apply in_or_app. now left.
Qed.

(** Every slot the scanner returns was appended for one of the elements it
    visited. *)
Lemma collect_slots_from_dom_origin (page : Page) (date0 : pystr)
    (slots : list TicketSlot) (s : TicketSlot) :
  _collect_slots_from_dom page date0 = Ok slots ->
  In s slots ->
  exists n el,
    count page = Ok n /\
    In el (visited page n) /\ scan_candidate el date0 = Ok (Some s).
Proof.
  rewrite collect_slots_from_dom_unfold.
  destruct (count page) as [n|e0]; cbn [bind]; [|discriminate].
  destruct (scan_all (visited page n) [] date0) as [all|e] eqn:E; cbn [bind];
    [|discriminate].
  intros [= <-] Hs. apply dedup_dict_values_In in Hs.
  apply last_with_key_Some in Hs as [[Hin _]|]; [|discriminate].
  destruct (scan_all_origin _ _ _ _ E s Hin) as [[]|(el & Hel & Hscan)].
  now exists n, el.
Qed.

Lemma is_prefix_app (t post : pystr) : is_prefix t (t ++ post) = true.
Proof.
  induction t as [|a t IH]; [reflexivity|].
  cbn [is_prefix app]. now rewrite N.eqb_refl, IH.
Qed.

Lemma substring_of_is_substring (t s : pystr) :
  PyStr.substring_of t s -> is_substring t s = true.
Proof.
  intros (pre & post & ->).
  induction pre as [|c pre IH].
  - cbn [app]. destruct (t ++ post) eqn:E;
      cbn [is_substring]; rewrite <- E, is_prefix_app; reflexivity.
  - cbn [app is_substring]. rewrite IH. apply orb_true_r.
Qed.

Lemma selected_value (aliases : list pystr) (entries : list (pystr * json))
    (k : pystr) (default : json) :
  selects aliases entries k ->
  exists v,
    In (k, v) entries /\ dict_get_default PyStr.eqb entries k default = v.
Proof.
  intros (_ & _ & _ & _ & _ & Hin & _).
  unfold dict_get_default.
  destruct (dict_get PyStr.eqb entries k) as [v|] eqn:E.
  - exists v. split; [|reflexivity].
    now apply (dict_get_In PyStr.eqb pystr_eqb_spec).
  - apply (dict_get_None PyStr.eqb pystr_eqb_spec) in E. contradiction.
Qed.


(** ** The loop body on a matched time *)

(** On an element whose trimmed text holds a time token, the loop body is
    the test of the minutes, the search for a price in the element's text
    or else in its parent's, and the test of that price. *)
Lemma scan_candidate_time (el : Locator) (date0 raw pre tm : pystr)
    (hh mm tail : pystr) (minutes : Z) :
  inner_text el = Ok raw ->
  PyStr.strip raw <> [] ->
  List.length (PyStr.strip raw) <= 200 ->
  Re.search_dom_time (PyStr.strip raw) = Some (pre, tm) ->
  tm = hh ++ u ":" ++ mm ++ tail ->
  hhmm_shaped hh mm -> meridiem_shaped tail ->
  PyStr.int mm = Some minutes ->
  scan_candidate el date0 =
  if negb (minutes mod 10 =? 0)%Z then Ok None
  else
    price <-
      (if negb (PyStr.truthy (_parse_currency (PyStr.strip raw))) then
         parent_text <- parent_inner_text el ;;
         Ok (_parse_currency parent_text)
       else Ok (_parse_currency (PyStr.strip raw))) ;;
    if negb (PyStr.truthy price) then Ok None
    else Ok (Some {| date := date0; time := PyStr.upper tm;
                     price := price; source := u "dom" |}).
Proof.
  intros Hraw Hne Hlen Hs Htm Hhm Htail Hint.
  unfold scan_candidate. rewrite Hraw. cbn [bind].
  apply truthy_true in Hne. rewrite Hne. cbn [negb orb].
  apply Nat.ltb_ge in Hlen. rewrite Hlen, Hs.
  assert (Hshape : dom_time_shaped tm) by (now exists hh, mm, tail).
  destruct (dom_time_minutes tm Hshape)
    as (hh' & mm' & tail' & minutes' & Htm' & Hhm' & Htail' & Hnth & Htake & Hint').
  assert (Hmm : mm' = mm).
  { rewrite Htm in Hnth.
    change (hh ++ u ":" ++ mm ++ tail)
      with (hh ++ (58%N :: mm ++ tail)) in Hnth.
    destruct Hhm as (Hh & _ & Hm & Hml).
    rewrite split_at_first_sep in Hnth
      by (apply (all_chars_exclude PyStr.is_digit); auto using digit_not_colon).
    rewrite split_no_sep in Hnth.
    - cbn in Hnth. injection Hnth as Hnth. rewrite <- Htake, <- Hnth.
      now apply take_prefix_2.
    - rewrite contains_char_app, (meridiem_no_colon _ Htail), orb_false_r.
      apply (all_chars_exclude PyStr.is_digit); auto using digit_not_colon. }
  subst mm'. rewrite Hnth, Htake, Hint.
  now rewrite (collapse_upper_dom_time _ Hshape).
Qed.

(** ** The first match of a search *)

(** [re.search] returns the leftmost match: the pattern matches at no
    earlier position. *)
Lemma search_first (M : Type) (at_ : option N -> pystr -> option M) :
  forall s prev pre m,
    Re.search at_ prev s = Some (pre, m) ->
    forall pre' rest',
      s = pre' ++ rest' -> List.length pre' < List.length pre ->
      exists p, at_ p rest' = None.
Proof.
  induction s as [|c r IH]; intros prev pre m; cbn [Re.search].
  - destruct (at_ prev []); [|discriminate].
    intros [= <- <-] pre' rest' _ Hlen. cbn [List.length] in Hlen. lia.
  - destruct (at_ prev (c :: r)) eqn:E.
    + intros [= <- <-] pre' rest' _ Hlen. cbn [List.length] in Hlen. lia.
    + destruct (Re.search at_ (Some c) r) as [[pre0 m0]|] eqn:Es; [|discriminate].
      intros [= <- <-] pre' rest' Hsplit Hlen.
      destruct pre' as [|c' pre'']; cbn [app] in Hsplit.
      * subst rest'. now exists prev.
      * injection Hsplit as <- ->. cbn [List.length] in Hlen.
        apply (IH _ _ _ Es pre'' rest' eq_refl). lia.
Qed.

(** When [re.search] finds nothing, the pattern matches at no position. *)
Lemma search_nowhere (M : Type) (at_ : option N -> pystr -> option M) :
  forall s prev,
    Re.search at_ prev s = None ->
    forall pre' rest', s = pre' ++ rest' -> exists p, at_ p rest' = None.
Proof.
  induction s as [|c r IH]; intros prev; cbn [Re.search].
  - destruct (at_ prev []) eqn:E; [discriminate|].
    intros _ pre' rest' Hsplit.
    destruct pre'; [|discriminate]. cbn [app] in Hsplit. subst rest'.
    now exists prev.
  - destruct (at_ prev (c :: r)) eqn:E; [discriminate|].
    destruct (Re.search at_ (Some c) r) as [[pre0 m0]|] eqn:Es; [discriminate|].
    intros _ pre' rest' Hsplit.
    destruct pre' as [|c' pre'']; cbn [app] in Hsplit.
    + subst rest'. now exists prev.
    + injection Hsplit as <- ->. now apply (IH _ Es pre'' rest').
Qed.

Lemma span_app (p : N -> bool) (a b : pystr) :
  all_chars p a = true ->
  match b with [] => True | c :: _ => p c = false end ->
  Re.span p (a ++ b) = (a, b).
Proof.
  intros Ha Hb. induction a as [|c a IH]; cbn [app].
  - destruct b as [|c r]; [reflexivity|]. cbn [Re.span]. now rewrite Hb.
  - cbn [all_chars forallb] in Ha. apply andb_true_iff in Ha as [Hc Ha].
    cbn [Re.span]. now rewrite Hc, (IH Ha).
Qed.

Lemma span_app_all (p : N -> bool) (a b : pystr) :
  all_chars p a = true ->
  Re.span p (a ++ b) = (a ++ fst (Re.span p b), snd (Re.span p b)).
Proof.
  intros Ha. induction a as [|c a IH]; cbn [app].
  - now destruct (Re.span p b).
  - cbn [all_chars forallb] in Ha. apply andb_true_iff in Ha as [Hc Ha].
    cbn [Re.span]. now rewrite Hc, (IH Ha).
Qed.

(** The pattern ignores what comes before it. *)
Lemma currency_at_prev (p q : option N) (s : pystr) :
  Re.currency_at p s = Re.currency_at q s.
Proof. reflexivity. Qed.

(** Where a currency-shaped text starts, the pattern matches, and its match
    is at least as long. *)
Lemma currency_at_complete (g' post' : pystr) (prev : option N) :
  currency_shaped g' ->
  exists g ext, Re.currency_at prev (g' ++ post') = Some g /\ g = g' ++ ext.
Proof.
  intros (ws & ds & frac & -> & Hws & Hds & Hne & Hfrac).
  unfold Re.currency_at. cbn [app]. rewrite N.eqb_refl.
  destruct ds as [|d ds]; [now elim Hne|].
  pose proof Hds as Hds'. cbn [all_chars forallb] in Hds'.
  apply andb_true_iff in Hds' as [Hd _].
  rewrite <- !app_assoc.
  rewrite (span_app PyStr.is_space ws ((d :: ds) ++ frac ++ post') Hws)
    by (cbn [app]; now apply digit_not_space_char).
  rewrite (span_app_all PyStr.is_digit (d :: ds) (frac ++ post') Hds).
  cbn [app].
  destruct Hfrac as [->|(d1 & d2 & -> & H1 & H2)].
  - cbn [app].
    exists (36%N :: ws ++ (d :: ds ++ fst (Re.span PyStr.is_digit post'))
                  ++ Re.fraction (snd (Re.span PyStr.is_digit post'))),
           (fst (Re.span PyStr.is_digit post')
            ++ Re.fraction (snd (Re.span PyStr.is_digit post'))).
    split; [reflexivity|].
    cbn [app]. f_equal. rewrite app_nil_r.
    repeat (rewrite <- ?app_assoc; cbn [app]). reflexivity.
  - cbn [app Re.span].
    assert (Hdot : PyStr.is_digit 46 = false) by (vm_compute; reflexivity).
    rewrite Hdot. cbn [fst snd]. unfold Re.fraction.
    rewrite N.eqb_refl, H1, H2. cbn [andb].
    exists (36%N :: ws ++ (d :: ds ++ []) ++ [46%N; d1; d2]), [].
    split; [reflexivity|].
    now rewrite !app_nil_r.
Qed.

(** A mapping whose time text matches with minutes that are no multiple of
    10 yields no slot. *)
Lemma slot_of_mapping_refuses (entries : list (pystr * json)) (date0 : pystr)
    (tk pre : pystr) (m : Re.minute_match) (minutes : Z) :
  first_alias (lowered_keys entries) TIME_ALIASES = Some tk ->
  Re.search_minute
    (PyStr.strip (PyRepr.str (dict_get_default PyStr.eqb entries tk (JStr []))))
  = Some (pre, m) ->
  PyStr.int (Re.group2 m) = Some minutes ->
  (minutes mod 10 <> 0)%Z ->
  slot_of_mapping entries date0 = [].
Proof.
  intros Ht Hs Hi Hm. unfold slot_of_mapping. rewrite Ht.
  destruct (first_alias (lowered_keys entries) PRICE_ALIASES) as [pk|];
    [|reflexivity].
  destruct (truthy_key (Some tk) && truthy_key (Some pk)); [|reflexivity].
  rewrite Hs, Hi.
  apply Z.eqb_neq in Hm. now rewrite Hm.
Qed.

(** ** Claims about the rendered-text scanner *)

(** C2 (amended): the scanner has no handler around its calls to the page.
    A failed read of an element's text always escapes the loop body, and so
    does a failed read of the parent's text whenever the parent is consulted
    (the element's own text holds a time on a ten-minute boundary and no
    price).  A failed [count()] leaves the scanner; so does the failure of
    the first failing element among those visited, and then no slots are
    returned.  The scanner returns normally when [count()] succeeds and no
    loop body fails, and whatever leaves it is a failed [count()] or a
    failed read of a visited element or of its parent. *)
Theorem C2_read_failure_leaves_the_scanner (page : Page) (date0 : pystr) :
  (forall el e, inner_text el = Raise e -> scan_candidate el date0 = Raise e) /\
  (forall el raw pre tm hh mm tail minutes e,
      inner_text el = Ok raw ->
      PyStr.strip raw <> [] ->
      List.length (PyStr.strip raw) <= 200 ->
      Re.search_dom_time (PyStr.strip raw) = Some (pre, tm) ->
      tm = hh ++ u ":" ++ mm ++ tail ->
      hhmm_shaped hh mm -> meridiem_shaped tail ->
      PyStr.int mm = Some minutes ->
      (minutes mod 10 = 0)%Z ->
      _parse_currency (PyStr.strip raw) = [] ->
      parent_inner_text el = Raise e ->
      scan_candidate el date0 = Raise e) /\
  (forall e,
      count page = Raise e -> _collect_slots_from_dom page date0 = Raise e) /\
  (forall n before el after e,
      count page = Ok n ->
      visited page n = before ++ el :: after ->
      (forall x, In x before -> exists r, scan_candidate x date0 = Ok r) ->
      scan_candidate el date0 = Raise e ->
      _collect_slots_from_dom page date0 = Raise e) /\
  (forall n,
      count page = Ok n ->
      (forall x, In x (visited page n) -> exists r, scan_candidate x date0 = Ok r) ->
      exists slots, _collect_slots_from_dom page date0 = Ok slots) /\
  (forall e,
      _collect_slots_from_dom page date0 = Raise e ->
      count page = Raise e \/
      exists n el,
        count page = Ok n /\
        In el (visited page n) /\
        (inner_text el = Raise e \/
         exists raw,
           inner_text el = Ok raw /\
           _parse_currency (PyStr.strip raw) = [] /\
           parent_inner_text el = Raise e)).
Proof.
  split; [intros el e; apply scan_candidate_read_failure|].
  split; [|split; [|split; [|split]]].
  - intros el raw pre tm hh mm tail minutes e
           Hraw Hne Hlen Hs Htm Hhm Htail Hint Hmod Hprice Hparent.
    rewrite (scan_candidate_time el date0 raw pre tm hh mm tail minutes)
      by assumption.
    rewrite Hmod, Hprice, Hparent. reflexivity.
  - intros e Hcount. rewrite collect_slots_from_dom_unfold, Hcount. reflexivity.
  - intros n before el after e Hcount Hpage Hbefore Hel.
    rewrite collect_slots_from_dom_unfold, Hcount. cbn [bind]. rewrite Hpage.
    now rewrite (scan_all_raises_at date0 before el after e Hbefore Hel).
  - intros n Hcount Hall. rewrite collect_slots_from_dom_unfold, Hcount.
    cbn [bind].
    destruct (scan_all_returns date0 _ Hall []) as (slots & ->). cbn [bind].
    eexists. reflexivity.
  - intros e. rewrite collect_slots_from_dom_unfold.
    destruct (count page) as [n|e0]; cbn [bind];
      [|intros [= ->]; now left].
    destruct (scan_all (visited page n) [] date0) as [all|e0] eqn:E; cbn [bind];
      [discriminate|].
    intros [= ->]. right.
    apply scan_all_raise_inv in E as (before & el & after & Hpage & _ & Hel).
    exists n, el. split; [reflexivity|].
    split; [rewrite Hpage; apply in_elt|].
    apply scan_candidate_raise in Hel as [H|(raw & Hraw & Hp & H)]; [now left|].
    right. now exists raw.
Qed.

Lemma C2_read_failure_leaves_the_scanner_witness :
  let good := text_element "10:30 AM - $42.00" "" in
  let stale := {| inner_text := Raise (PlaywrightError "Timeout 1000ms exceeded");
                  parent_inner_text := Ok [] |} in
  let orphan := {| inner_text := Ok (u " 10:40 AM ");
                   parent_inner_text := Raise (PlaywrightError "Element is not attached") |} in
  let page := page_of [good; stale; good] in
  (count page = Ok 3 /\
   visited page 3 = [good] ++ stale :: [good] /\
   (forall x, In x [good] -> exists r, scan_candidate x (u "d") = Ok r) /\
   scan_candidate stale (u "d") = Raise (PlaywrightError "Timeout 1000ms exceeded") /\
   _collect_slots_from_dom page (u "d")
   = Raise (PlaywrightError "Timeout 1000ms exceeded")) /\
  (inner_text orphan = Ok (u " 10:40 AM ") /\
   _parse_currency (PyStr.strip (u " 10:40 AM ")) = [] /\
   parent_inner_text orphan = Raise (PlaywrightError "Element is not attached") /\
   scan_candidate orphan (u "d") = Raise (PlaywrightError "Element is not attached")).
Proof.
  intros good stale orphan page.
  assert (H0 : count page = Ok 3) by reflexivity.
  assert (H1 : visited page 3 = [good] ++ stale :: [good]) by reflexivity.
  assert (H2 : forall x, In x [good] -> exists r, scan_candidate x (u "d") = Ok r).
  { intros x [<-|[]]. eexists. reflexivity. }
  assert (H3 : scan_candidate stale (u "d")
               = Raise (PlaywrightError "Timeout 1000ms exceeded"))
    by reflexivity.
  split.
  - split; [exact H0|]. split; [exact H1|]. split; [exact H2|].
    split; [exact H3|].
    exact (proj1 (proj2 (proj2 (proj2 (C2_read_failure_leaves_the_scanner page (u "d")))))
             3 [good] stale [good] _ H0 H1 H2 H3).
  - split; [reflexivity|]. split; [reflexivity|]. split; [reflexivity|].
    apply (proj1 (proj2 (C2_read_failure_leaves_the_scanner page (u "d")))
             orphan (u " 10:40 AM ") [] (u "10:40 AM") (u "10") (u "40") (u " AM") 40%Z);
      try reflexivity.
    + vm_compute. discriminate.
    + vm_compute. lia.
    + vm_compute. auto.
    + right. right. exists 32%N, 65%N, 77%N. vm_compute. auto.
Defined.

(** C2, as stated, fails: one element whose text cannot be read makes the
    whole scanner raise, although the other element holds a slot. *)
Lemma C2_counterexample :
  let good := text_element "10:30 AM - $42.00" "" in
  let stale := {| inner_text := Raise (PlaywrightError "Timeout 1000ms exceeded");
                  parent_inner_text := Ok [] |} in
  _collect_slots_from_dom (page_of [good]) (u "d")
  = Ok [{| date := u "d"; time := u "10:30 AM"; price := u "$42.00"; source := u "dom" |}] /\
  _collect_slots_from_dom (page_of [stale; good]) (u "d")
  = Raise (PlaywrightError "Timeout 1000ms exceeded") /\
  ~ (exists slots, _collect_slots_from_dom (page_of [stale; good]) (u "d") = Ok slots).
Proof.
  intros good stale. split; [reflexivity|]. split; [reflexivity|].
  intros (slots & H). vm_compute in H. discriminate.
Qed.

(** C8 (amended): the stored price is produced as follows.  The currency
    parser returns the empty string when its text holds no currency-shaped
    substring; otherwise it takes the first one, at the leftmost position
    where one starts and the longest that starts there, and returns it with
    every space character removed (the substring itself when it holds no
    space).  The rendered-text scanner stores that result for the element's
    trimmed text or else, when that is empty, for its parent's text.  The
    JSON scanner stores the whole trimmed [str] of the value under the
    selected price key, whatever its form.  No number is ever computed. *)
Theorem C8_stored_price_text :
  (forall text,
      (_parse_currency text = [] /\
       forall pre g post, text = pre ++ g ++ post -> ~ currency_shaped g) \/
      (exists pre g post,
          text = pre ++ g ++ post /\
          currency_shaped g /\
          (forall pre' g' post',
              text = pre' ++ g' ++ post' -> currency_shaped g' ->
              List.length pre <= List.length pre' /\
              (List.length pre' = List.length pre ->
               List.length g' <= List.length g)) /\
          _parse_currency text = PyStr.remove_spaces g /\
          (PyStr.contains_char 32%N g = false -> _parse_currency text = g))) /\
  (forall page date0 slots s,
      _collect_slots_from_dom page date0 = Ok slots ->
      In s slots ->
      exists n el raw,
        count page = Ok n /\
        In el (visited page n) /\
        inner_text el = Ok raw /\
        price s <> [] /\
        (price s = _parse_currency (PyStr.strip raw) \/
         (_parse_currency (PyStr.strip raw) = [] /\
          exists parent,
            parent_inner_text el = Ok parent /\
            price s = _parse_currency parent))) /\
  (forall payload out date0 s,
      In s (_collect_slots_from_json payload out date0) ->
      In s out \/
      exists entries pk v,
        nested_in (JDict entries) payload /\
        selects PRICE_ALIASES entries pk /\
        In (pk, v) entries /\
        price s = PyStr.strip (PyRepr.str v)).
Proof.
  split; [|split].
  - intros text.
    destruct (parse_currency_spec text)
      as [(Hnone & Hparse)|(pre & g & post & Hsearch & Htext & Hshape & Hparse)];
      [left|right].
    + split; [exact Hparse|].
      intros pre g post Htext Hshape.
      destruct (search_nowhere _ _ _ _ Hnone pre (g ++ post) Htext) as (p & Hp).
      destruct (currency_at_complete g post p Hshape) as (g0 & ext & Hg0 & _).
      congruence.
    + exists pre, g, post. split; [exact Htext|]. split; [exact Hshape|].
      split; [|split; [exact Hparse|]].
      * intros pre' g' post' Htext' Hshape'.
        assert (Hle : List.length pre <= List.length pre').
        { destruct (Nat.le_gt_cases (List.length pre) (List.length pre'))
            as [H|H]; [exact H|].
          destruct (search_first _ _ _ _ _ _ Hsearch pre' (g' ++ post') Htext' H)
            as (p & Hp).
          destruct (currency_at_complete g' post' p Hshape') as (g0 & ext & Hg0 & _).
          congruence. }
        split; [exact Hle|]. intros Hlen.
        assert (Hsame : pre' = pre /\ g' ++ post' = g ++ post).
        { rewrite Htext in Htext'. clear - Htext' Hlen.
          revert pre' Htext' Hlen.
          induction pre as [|c pre IH]; intros [|c' pre'] H Hlen;
            cbn [List.length app] in *; try discriminate.
          - now split.
          - injection H as <- H. injection Hlen as Hlen.
            destruct (IH pre' H Hlen) as (-> & ->). now split. }
        destruct Hsame as (_ & Hsame).
        apply search_sound in Hsearch as (rest & prev' & Hrest & Hat).
        rewrite Htext in Hrest. apply app_inv_head in Hrest. subst rest.
        destruct (currency_at_complete g' post' prev' Hshape')
          as (g0 & ext & Hg0 & Hext).
        rewrite Hsame, Hat in Hg0. injection Hg0 as <-.
        rewrite Hext, length_app. lia.
      * intros Hg. now rewrite Hparse, remove_spaces_fixed.
  - intros page date0 slots s Hscan Hs.
    destruct (collect_slots_from_dom_origin _ _ _ _ Hscan Hs)
      as (n & el & Hcount & Hel & Hslot).
    apply scan_candidate_slot in Hslot
      as (raw & pre & tm & hh & mm & tail & minutes & Hraw & _ & _ & _ & _ & _ & _
          & _ & _ & Hprice & Hsrc & _).
    exists n, el, raw. split; [exact Hcount|]. split; [exact Hel|].
    split; [exact Hraw|]. split; [exact Hprice|]. exact Hsrc.
  - intros payload out date0 s. rewrite collect_app. intros H.
    apply in_app_or in H as [H|H]; [now left|right].
    apply emitted_origin in H as (entries & Hn & H).
    apply slot_of_mapping_inv in H
      as (tk & pk & pre & m & minutes & _ & Hp & -> & _).
    apply first_alias_selects in Hp.
    destruct (selected_value _ _ _ (JStr []) Hp) as (v & Hin & Hv).
    exists entries, pk, v. cbn [price]. rewrite Hv. auto.
Qed.

Lemma C8_stored_price_text_witness :
  let page := page_of [text_element " 10:30 AM $ 42.00 " ""] in
  let s := {| date := u "d"; time := u "10:30 AM"; price := u "$42.00"; source := u "dom" |} in
  _collect_slots_from_dom page (u "d") = Ok [s] /\
  exists n el raw,
    count page = Ok n /\
    In el (visited page n) /\
    inner_text el = Ok raw /\
    price s <> [] /\
    (price s = _parse_currency (PyStr.strip raw) \/
     (_parse_currency (PyStr.strip raw) = [] /\
      exists parent,
        parent_inner_text el = Ok parent /\
        price s = _parse_currency parent)).
Proof.
  intros page s.
  assert (H : _collect_slots_from_dom page (u "d") = Ok [s]) by reflexivity.
  split; [exact H|].
  exact (proj1 (proj2 C8_stored_price_text) page (u "d") [s] s H (or_introl eq_refl)).
Defined.

(** C8, as stated, fails: the price stored for an element whose text shows
    the amount as [$ 42.00] is [$42.00], which occurs nowhere in that text;
    and the JSON scanner stores a price value that has no currency form. *)
Lemma C8_counterexample :
  _collect_slots_from_dom (page_of [text_element "10:30 AM $ 42.00" ""]) (u "d")
  = Ok [{| date := u "d"; time := u "10:30 AM"; price := u "$42.00"; source := u "dom" |}] /\
  ~ PyStr.substring_of (u "$42.00") (u "10:30 AM $ 42.00") /\
  _collect_slots_from_json
    (JDict [(u "time", JStr (u "10:30")); (u "price", JStr (u "sold out"))]) [] (u "d")
  = [{| date := u "d"; time := u "10:30"; price := u "sold out";
        source := u "network-json" |}] /\
  ~ currency_shaped (u "sold out").
Proof.
  split; [reflexivity|]. split; [|split; [reflexivity|]].
  - intros H. apply substring_of_is_substring in H. vm_compute in H. discriminate.
  - intros (ws & ds & frac & H & _). vm_compute in H. discriminate.
Qed.

(** ** Claims about both scanners *)

(** C9: both scanners test the minute component for divisibility by 10 and
    for nothing else.  A mapping whose time text matches with minutes that
    are a multiple of 10 and whose price text is not empty yields its slot;
    an element whose text holds a time token with such minutes yields its
    slot when a price is found in its text or else in its parent's text;
    with minutes that are no multiple of 10 neither yields a slot.  No range
    is asked of the minutes: [10:70] is accepted by both scanners, [10:75]
    by neither. *)
Theorem C9_minutes_checked_for_divisibility_only :
  (forall entries out date0 tk pk pre m minutes,
      first_alias (lowered_keys entries) TIME_ALIASES = Some tk ->
      first_alias (lowered_keys entries) PRICE_ALIASES = Some pk ->
      Re.search_minute
        (PyStr.strip (PyRepr.str (dict_get_default PyStr.eqb entries tk (JStr []))))
      = Some (pre, m) ->
      PyStr.int (Re.group2 m) = Some minutes ->
      (minutes mod 10 = 0)%Z ->
      PyStr.strip (PyRepr.str (dict_get_default PyStr.eqb entries pk (JStr []))) <> [] ->
      In {| date := date0;
            time := PyStr.strip (PyRepr.str (dict_get_default PyStr.eqb entries tk (JStr [])));
            price := PyStr.strip (PyRepr.str (dict_get_default PyStr.eqb entries pk (JStr [])));
            source := u "network-json" |}
         (_collect_slots_from_json (JDict entries) out date0)) /\
  (forall entries date0 tk pre m minutes,
      first_alias (lowered_keys entries) TIME_ALIASES = Some tk ->
      Re.search_minute
        (PyStr.strip (PyRepr.str (dict_get_default PyStr.eqb entries tk (JStr []))))
      = Some (pre, m) ->
      PyStr.int (Re.group2 m) = Some minutes ->
      (minutes mod 10 <> 0)%Z ->
      slot_of_mapping entries date0 = []) /\
  (forall el date0 raw pre tm hh mm tail minutes found,
      inner_text el = Ok raw ->
      PyStr.strip raw <> [] ->
      List.length (PyStr.strip raw) <= 200 ->
      Re.search_dom_time (PyStr.strip raw) = Some (pre, tm) ->
      tm = hh ++ u ":" ++ mm ++ tail ->
      hhmm_shaped hh mm -> meridiem_shaped tail ->
      PyStr.int mm = Some minutes ->
      (minutes mod 10 = 0)%Z ->
      found <> [] ->
      (_parse_currency (PyStr.strip raw) = found \/
       (_parse_currency (PyStr.strip raw) = [] /\
        exists parent,
          parent_inner_text el = Ok parent /\ _parse_currency parent = found)) ->
      scan_candidate el date0 =
      Ok (Some {| date := date0; time := PyStr.upper tm;
                  price := found; source := u "dom" |})) /\
  (forall el date0 raw pre tm hh mm tail minutes,
      inner_text el = Ok raw ->
      PyStr.strip raw <> [] ->
      List.length (PyStr.strip raw) <= 200 ->
      Re.search_dom_time (PyStr.strip raw) = Some (pre, tm) ->
      tm = hh ++ u ":" ++ mm ++ tail ->
      hhmm_shaped hh mm -> meridiem_shaped tail ->
      PyStr.int mm = Some minutes ->
      (minutes mod 10 <> 0)%Z ->
      scan_candidate el date0 = Ok None) /\
  (forall date0,
      _collect_slots_from_json
        (JDict [(u "time", JStr (u "10:70")); (u "price", JStr (u "$5"))]) [] date0
      = [{| date := date0; time := u "10:70"; price := u "$5";
            source := u "network-json" |}]) /\
  (forall date0,
      _collect_slots_from_dom (page_of [text_element "10:70 $5" ""]) date0
      = Ok [{| date := date0; time := u "10:70"; price := u "$5"; source := u "dom" |}]) /\
  (forall date0,
      _collect_slots_from_json
        (JDict [(u "time", JStr (u "10:75")); (u "price", JStr (u "$5"))]) [] date0
      = []) /\
  (forall date0,
      _collect_slots_from_dom (page_of [text_element "10:75 $5" ""]) date0 = Ok []).
Proof.
  split; [|split; [|split; [|split; [|split; [|split; [|split]]]]]].
  - intros entries out date0 tk pk pre m minutes Ht Hp Hs Hi Hm Hprice.
    rewrite collect_app, emitted_dict.
    rewrite (slot_of_mapping_intro _ date0 _ _ _ _ _ Ht Hp Hs Hi Hm Hprice).
    apply in_or_app. right. now left.
  - intros entries date0 tk pre m minutes.
    apply slot_of_mapping_refuses.
  - intros el date0 raw pre tm hh mm tail minutes found
           Hraw Hne Hlen Hs Htm Hhm Htail Hint Hmod Hfound Hprice.
    rewrite (scan_candidate_time el date0 raw pre tm hh mm tail minutes)
      by assumption.
    rewrite Hmod. cbn [Z.eqb negb].
    apply truthy_true in Hfound.
    destruct Hprice as [Hown|(Hown & parent & Hparent & Hp)].
    + rewrite Hown, Hfound. cbn [negb bind]. now rewrite Hfound.
    + rewrite Hown, Hparent. cbn [PyStr.truthy negb bind].
      rewrite Hp, Hfound. reflexivity.
  - intros el date0 raw pre tm hh mm tail minutes
           Hraw Hne Hlen Hs Htm Hhm Htail Hint Hmod.
    rewrite (scan_candidate_time el date0 raw pre tm hh mm tail minutes)
      by assumption.
    apply Z.eqb_neq in Hmod. now rewrite Hmod.
  - reflexivity.
  - reflexivity.
  - reflexivity.
  - reflexivity.
Qed.

Lemma C9_minutes_checked_for_divisibility_only_witness :
  let entries := [(u "Time", JStr (u "10:90 PM")); (u "price", JStr (u "$61"))] in
  let el := text_element "Late entry 11:80pm" "Late entry 11:80pm, $ 30" in
  let odd := text_element "Late entry 11:85pm, $ 30" "" in
  In {| date := u "d"; time := u "10:90 PM"; price := u "$61"; source := u "network-json" |}
     (_collect_slots_from_json (JDict entries) [] (u "d")) /\
  scan_candidate el (u "d")
  = Ok (Some {| date := u "d"; time := u "11:80PM"; price := u "$30"; source := u "dom" |}) /\
  scan_candidate odd (u "d") = Ok None.
Proof.
  intros entries el odd. split; [|split].
  - apply (proj1 C9_minutes_checked_for_divisibility_only
             entries [] (u "d") (u "Time") (u "price") []
             {| Re.group1 := u "10"; Re.group2 := u "90" |} 90%Z);
      try reflexivity. vm_compute. discriminate.
  - apply (proj1 (proj2 (proj2 C9_minutes_checked_for_divisibility_only))
             el (u "d") (u "Late entry 11:80pm") (u "Late entry ") (u "11:80pm")
             (u "11") (u "80") (u "pm") 80%Z (u "$30"));
      try reflexivity.
    + vm_compute. discriminate.
    + vm_compute. lia.
    + vm_compute. auto.
    + right. left. exists 112%N, 109%N. vm_compute. auto.
    + vm_compute. discriminate.
    + right. split; [reflexivity|].
      exists (u "Late entry 11:80pm, $ 30"). split; reflexivity.
  - apply (proj1 (proj2 (proj2 (proj2 C9_minutes_checked_for_divisibility_only)))
             odd (u "d") (u "Late entry 11:85pm, $ 30") (u "Late entry ") (u "11:85pm")
             (u "11") (u "85") (u "pm") 85%Z);
      try reflexivity.
    + vm_compute. discriminate.
    + vm_compute. lia.
    + vm_compute. auto.
    + right. left. exists 112%N, 109%N. vm_compute. auto.
    + vm_compute. discriminate.
Defined.

(** C10: for a qualifying mapping the JSON scanner stores the whole text of
    the value under the time key, without the white space at its two ends
    and with whatever surrounds the HH:MM match; the rendered-text scanner
    stores the matched time token alone, in upper case.  The same text gives
    different time strings by provenance. *)
Theorem C10_time_text_differs_by_provenance :
  (forall entries date0 s,
      In s (slot_of_mapping entries date0) ->
      exists tk v pre m post,
        selects TIME_ALIASES entries tk /\
        In (tk, v) entries /\
        time s = PyStr.strip (PyRepr.str v) /\
        (exists l r,
            PyRepr.str v = l ++ time s ++ r /\
            all_chars PyStr.is_space l = true /\
            all_chars PyStr.is_space r = true) /\
        no_leading_space (time s) = true /\
        no_trailing_space (time s) = true /\
        Re.search_minute (time s) = Some (pre, m) /\
        time s = pre ++ Re.minute_group0 m ++ post) /\
  (forall el date0 s,
      scan_candidate el date0 = Ok (Some s) ->
      exists raw pre tm post,
        inner_text el = Ok raw /\
        Re.search_dom_time (PyStr.strip raw) = Some (pre, tm) /\
        PyStr.strip raw = pre ++ tm ++ post /\
        time s = PyStr.upper tm) /\
  (forall date0,
      _collect_slots_from_json
        (JDict [(u "time", JStr (u " Doors 10:30 am sharp ")); (u "price", JStr (u "$42"))])
        [] date0
      = [{| date := date0; time := u "Doors 10:30 am sharp"; price := u "$42";
            source := u "network-json" |}]) /\
  (forall date0,
      _collect_slots_from_dom (page_of [text_element " Doors 10:30 am sharp $42" ""]) date0
      = Ok [{| date := date0; time := u "10:30 AM"; price := u "$42"; source := u "dom" |}]).
Proof.
  split; [|split; [|split]].
  - intros entries date0 s H.
    apply slot_of_mapping_inv in H
      as (tk & pk & pre & m & minutes & Ht & _ & Hs & Hsearch & _).
    apply first_alias_selects in Ht.
    destruct (selected_value _ _ _ (JStr []) Ht) as (v & Hin & Hv).
    destruct (search_minute_sound _ _ _ Hsearch) as (post & Htime & _).
    exists tk, v, pre, m, post.
    assert (Htv : time s = PyStr.strip (PyRepr.str v))
      by (rewrite Hs; cbn [time]; now rewrite Hv).
    split; [exact Ht|]. split; [exact Hin|].
    split; [exact Htv|].
    split; [rewrite Htv; apply strip_spec|].
    split; [rewrite Htv; apply strip_no_leading_space|].
    split; [rewrite Htv; apply strip_no_trailing_space|].
    split; [exact Hsearch|].
    unfold Re.minute_group0. rewrite Htime at 1. now rewrite !append_assoc.
  - intros el date0 s H.
    apply scan_candidate_slot in H
      as (raw & pre & tm & hh & mm & tail & minutes & Hraw & _ & _ & Hs & Htm
          & Hhm & Htail & _ & _ & _ & _ & Hslot).
    destruct (search_dom_time_sound _ _ _ Hs) as (Hshape & post & Htext).
    exists raw, pre, tm, post. repeat split; auto.
    rewrite Hslot. cbn [time]. now apply collapse_upper_dom_time.
  - reflexivity.
  - reflexivity.
Qed.

Lemma C10_time_text_differs_by_provenance_witness :
  let entries := [(u "slot_time", JStr (u " from 9:40 pm" ++ [160%N])); (u "price", JStr (u "$61"))] in
  let el := text_element "from 9:40 pm $61" "" in
  let js := {| date := u "d"; time := u "from 9:40 pm"; price := u "$61";
               source := u "network-json" |} in
  let ds := {| date := u "d"; time := u "9:40 PM"; price := u "$61"; source := u "dom" |} in
  In js (slot_of_mapping entries (u "d")) /\
  scan_candidate el (u "d") = Ok (Some ds) /\
  (exists tk v pre m post,
      selects TIME_ALIASES entries tk /\
      In (tk, v) entries /\
      time js = PyStr.strip (PyRepr.str v) /\
      (exists l r,
          PyRepr.str v = l ++ time js ++ r /\
          all_chars PyStr.is_space l = true /\
          all_chars PyStr.is_space r = true) /\
      no_leading_space (time js) = true /\
      no_trailing_space (time js) = true /\
      Re.search_minute (time js) = Some (pre, m) /\
      time js = pre ++ Re.minute_group0 m ++ post) /\
  (exists raw pre tm post,
      inner_text el = Ok raw /\
      Re.search_dom_time (PyStr.strip raw) = Some (pre, tm) /\
      PyStr.strip raw = pre ++ tm ++ post /\
      time ds = PyStr.upper tm).
Proof.
  intros entries el js ds.
  assert (H1 : In js (slot_of_mapping entries (u "d"))) by (vm_compute; auto).
  assert (H2 : scan_candidate el (u "d") = Ok (Some ds)) by reflexivity.
  split; [exact H1|]. split; [exact H2|]. split.
  - exact (proj1 C10_time_text_differs_by_provenance entries (u "d") js H1).
  - exact (proj1 (proj2 C10_time_text_differs_by_provenance) el (u "d") ds H2).
Defined.


(** ** Reordering the sequences of a payload *)

Lemma lowered_keys_same_keys (e e' : list (pystr * json)) :
  dict_keys e = dict_keys e' -> lowered_keys e = lowered_keys e'.
Proof. unfold lowered_keys. now intros ->. Qed.

Lemma selects_alias_key (entries : list (pystr * json)) (k : pystr) :
  selects TIME_ALIASES entries k \/ selects PRICE_ALIASES entries k ->
  is_alias_key k = true.
Proof.
  unfold is_alias_key. intros H. apply existsb_exists.
  exists (PyStr.lower k). split; [|apply pystr_eqb_refl].
  apply in_or_app.
  destruct H as [(before & a & after & Hal & Hl & _)|(before & a & after & Hal & Hl & _)];
    [left|right]; rewrite Hal, Hl; apply in_elt.
Qed.

Lemma dict_get_default_change (before : list (pystr * json)) (k : pystr)
    (x x' : json) (after : list (pystr * json)) (key : pystr) (default : json) :
  k <> key \/ PyRepr.str x = PyRepr.str x' ->
  PyRepr.str (dict_get_default PyStr.eqb (before ++ (k, x) :: after) key default)
  = PyRepr.str (dict_get_default PyStr.eqb (before ++ (k, x') :: after) key default).
Proof.
  intros H. unfold dict_get_default.
  induction before as [|[k0 v0] before IH]; cbn [app dict_get].
  - destruct (pystr_eqb_spec k key) as [->|Hk]; [|reflexivity].
    destruct H as [H|H]; [now elim H|exact H].
  - destruct (PyStr.eqb k0 key); [reflexivity|exact IH].
Qed.

Lemma slot_of_mapping_value_change (before : list (pystr * json)) (k : pystr)
    (x x' : json) (after : list (pystr * json)) (date0 : pystr) :
  is_alias_key k = false \/ PyRepr.str x = PyRepr.str x' ->
  slot_of_mapping (before ++ (k, x) :: after) date0
  = slot_of_mapping (before ++ (k, x') :: after) date0.
Proof.
  intros H. unfold slot_of_mapping.
  rewrite (lowered_keys_same_keys (before ++ (k, x) :: after)
                                  (before ++ (k, x') :: after))
    by (unfold dict_keys; now rewrite !map_app).
  destruct (first_alias _ TIME_ALIASES) as [tk|] eqn:Ht; [|reflexivity].
  destruct (first_alias _ PRICE_ALIASES) as [pk|] eqn:Hp; [|reflexivity].
  apply first_alias_selects in Ht, Hp.
  assert (Hk : forall key,
             is_alias_key key = true ->
             k <> key \/ PyRepr.str x = PyRepr.str x').
  { intros key Hkey. destruct H as [H|H]; [left|now right]. congruence. }
  rewrite (dict_get_default_change before k x x' after tk)
    by (apply Hk, (selects_alias_key (before ++ (k, x') :: after)); now left).
  rewrite (dict_get_default_change before k x x' after pk)
    by (apply Hk, (selects_alias_key (before ++ (k, x') :: after)); now right).
  reflexivity.
Qed.

(** C5 (amended): permuting the elements of the sequences of a payload, at
    any depth, leaves the scanner's slots the same up to order, hence the
    same set, provided the permutation does not change the text of a value
    stored under a time or price alias key. *)
Theorem C5_slot_set_independent_of_sequence_order (v v' : json) (date0 : pystr) :
  reordered_keeping_fields v v' ->
  Permutation (_collect_slots_from_json v [] date0)
              (_collect_slots_from_json v' [] date0) /\
  (forall s,
      In s (_collect_slots_from_json v [] date0) <->
      In s (_collect_slots_from_json v' [] date0)).
Proof.
  intros H.
  assert (Hperm : Permutation (emitted v date0) (emitted v' date0)).
  { induction H as [v|a b c _ IH1 _ IH2|items items' Hp
                    |before x x' after _ IH|before k x x' after _ IH Hk].
    - reflexivity.
    - now transitivity (emitted b date0).
    - rewrite !emitted_list. now apply Permutation_flat_map.
    - rewrite !emitted_list, !flat_map_app. cbn [flat_map].
      apply Permutation_app_head, Permutation_app_tail, IH.
    - rewrite !emitted_dict, !flat_map_app. cbn [flat_map snd].
      rewrite (slot_of_mapping_value_change before k x x' after date0 Hk).
      apply Permutation_app_head, Permutation_app_head, Permutation_app_tail, IH. }
  split; [exact Hperm|].
  intros s. split; apply Permutation_in; [exact Hperm|now symmetry].
Qed.

Lemma C5_slot_set_independent_of_sequence_order_witness :
  let a := JDict [(u "time", JStr (u "10:30 AM")); (u "price", JStr (u "$42.00"))] in
  let b := JDict [(u "StartTime", JStr (u "10:40 AM")); (u "AdultPrice", JInt 45)] in
  let v := JDict [(u "slots", JList [a; JNull; b])] in
  let v' := JDict [(u "slots", JList [b; a; JNull])] in
  reordered_keeping_fields v v' /\
  _collect_slots_from_json v [] (u "d")
  = [{| date := u "d"; time := u "10:30 AM"; price := u "$42.00"; source := u "network-json" |};
     {| date := u "d"; time := u "10:40 AM"; price := u "45"; source := u "network-json" |}] /\
  Permutation (_collect_slots_from_json v [] (u "d"))
              (_collect_slots_from_json v' [] (u "d")) /\
  (forall s,
      In s (_collect_slots_from_json v [] (u "d")) <->
      In s (_collect_slots_from_json v' [] (u "d"))).
Proof.
  intros a b v v'.
  assert (H : reordered_keeping_fields v v').
  { apply (reordered_value _ [] (u "slots") (JList [a; JNull; b]) (JList [b; a; JNull]) []).
    - apply reordered_perm.
      apply Permutation_sym, (Permutation_cons_app [a; JNull] []). reflexivity.
    - now left. }
  split; [exact H|]. split; [reflexivity|].
  exact (C5_slot_set_independent_of_sequence_order v v' (u "d") H).
Defined.

(** C5, as stated, fails: when the value under the time key is itself a
    sequence, its text, and with it the first HH:MM match, depends on the
    order of its elements. *)
Lemma C5_counterexample :
  let v := JDict [(u "time", JList [JStr (u "10:20"); JStr (u "10:07")]); (u "price", JStr (u "$5"))] in
  let v' := JDict [(u "time", JList [JStr (u "10:07"); JStr (u "10:20")]); (u "price", JStr (u "$5"))] in
  reordered v v' /\
  _collect_slots_from_json v [] (u "d")
  = [{| date := u "d"; time := u "['10:20', '10:07']"; price := u "$5";
        source := u "network-json" |}] /\
  _collect_slots_from_json v' [] (u "d") = [] /\
  ~ (forall s,
        In s (_collect_slots_from_json v [] (u "d")) <->
        In s (_collect_slots_from_json v' [] (u "d"))).
Proof.
  intros v v'.
  assert (H1 : _collect_slots_from_json v [] (u "d")
               = [{| date := u "d"; time := u "['10:20', '10:07']"; price := u "$5";
                     source := u "network-json" |}]) by reflexivity.
  assert (H2 : _collect_slots_from_json v' [] (u "d") = []) by reflexivity.
  split; [|split; [exact H1|split; [exact H2|]]].
  - apply (reordered_value _ [] (u "time")
             (JList [JStr (u "10:20"); JStr (u "10:07")])
             (JList [JStr (u "10:07"); JStr (u "10:20")]) [(u "price", JStr (u "$5"))]);
      [|exact I].
    apply reordered_perm, perm_swap.
  - intros H. rewrite H1, H2 in H.
    destruct (proj1 (H _) (or_introl eq_refl)).
Qed.


(** * Further properties of the code *)

(** ** The JSON scanner *)

(** X1: the scanner only appends.  What [out] held before the call is still
    there, in place and in order, and the slots appended after it do not
    depend on it. *)
Theorem X1_json_scan_only_appends (payload : json) (out : list TicketSlot)
    (date0 : pystr) :
  _collect_slots_from_json payload out date0
  = out ++ _collect_slots_from_json payload [] date0.
Proof. apply collect_app. Qed.

(** X2: every slot the scanner appends carries the date label it was
    called with. *)
Theorem X2_json_slots_carry_requested_date (payload : json)
    (out : list TicketSlot) (date0 : pystr) (s : TicketSlot) :
  In s (_collect_slots_from_json payload out date0) ->
  In s out \/ date s = date0.
Proof.
  rewrite collect_app. intros H. apply in_app_or in H as [H|H]; [now left|right].
  apply emitted_origin in H as (entries & _ & H).
  apply slot_of_mapping_inv in H as (tk & pk & pre & m & minutes & _ & _ & -> & _).
  reflexivity.
Qed.

Lemma X2_json_slots_carry_requested_date_witness :
  let s := {| date := u "2026-02-03"; time := u "14:20"; price := u "55";
              source := u "network-json" |} in
  In s (_collect_slots_from_json
          (JDict [(u "startTime", JStr (u "14:20")); (u "adult_price", JInt 55)])
          [] (u "2026-02-03")) /\
  (In s [] \/ date s = u "2026-02-03").
Proof.
  intros s.
  assert (H : In s (_collect_slots_from_json
          (JDict [(u "startTime", JStr (u "14:20")); (u "adult_price", JInt 55)])
          [] (u "2026-02-03"))) by (vm_compute; auto).
  split; [exact H|].
  exact (X2_json_slots_carry_requested_date _ _ _ _ H).
Defined.

Lemma slot_of_mapping_length (entries : list (pystr * json)) (date0 : pystr) :
  List.length (slot_of_mapping entries date0) <= 1.
Proof.
  unfold slot_of_mapping.
  destruct (first_alias _ TIME_ALIASES); [|simpl; lia].
  destruct (first_alias _ PRICE_ALIASES); [|simpl; lia].
  destruct (_ && _); [|simpl; lia].
  destruct (Re.search_minute _) as [[pre m]|]; [|simpl; lia].
  destruct (PyStr.int _); [|simpl; lia].
  destruct (_ && _); simpl; lia.
Qed.

Lemma flat_map_length_le (A B : Type) (f : A -> list B) (g : A -> nat)
    (l : list A) :
  Forall (fun a => List.length (f a) <= g a) l ->
  List.length (flat_map f l) <= list_sum (map g l).
Proof.
  induction 1 as [|a l Ha _ IH]; simpl; [lia|].
  rewrite length_app. lia.
Qed.

Lemma emitted_length (payload : json) (date0 : pystr) :
  List.length (emitted payload date0) <= count_mappings payload.
Proof.
  induction payload as [| | | | |items IH|entries IH] using json_nested_ind;
    try (unfold emitted; simpl; lia).
  - rewrite emitted_list. cbn [count_mappings].
    now apply flat_map_length_le.
  - rewrite emitted_dict, length_app. cbn [count_mappings].
    pose proof (slot_of_mapping_length entries date0).
    pose proof (flat_map_length_le _ _ (fun kv => emitted (snd kv) date0)
                  (fun kv => count_mappings (snd kv)) entries IH).
    lia.
Qed.

(** X3: a mapping contributes at most one slot of its own, so a scan appends
    at most as many slots as the payload holds mappings. *)
Theorem X3_json_at_most_one_slot_per_mapping (payload : json)
    (out : list TicketSlot) (date0 : pystr) :
  List.length (_collect_slots_from_json payload out date0)
  <= List.length out + count_mappings payload.
Proof.
  rewrite collect_app, length_app.
  pose proof (emitted_length payload date0). lia.
Qed.

(** X4: a payload in which every mapping, at any depth, lacks a time alias
    key or lacks a price alias key gives no slot: the scan returns [out]
    as it was. *)
Theorem X4_json_no_slot_without_both_keys (payload : json)
    (out : list TicketSlot) (date0 : pystr) :
  (forall entries,
      nested_in (JDict entries) payload ->
      (forall k, In k (dict_keys entries) -> ~ In (PyStr.lower k) TIME_ALIASES) \/
      (forall k, In k (dict_keys entries) -> ~ In (PyStr.lower k) PRICE_ALIASES)) ->
  _collect_slots_from_json payload out date0 = out.
Proof.
  intros Hkeys. rewrite collect_app.
  destruct (emitted payload date0) as [|s l] eqn:E; [apply app_nil_r|].
  exfalso.
  assert (Hs : In s (emitted payload date0)) by (rewrite E; now left).
  apply emitted_origin in Hs as (entries & Hn & Hs).
  apply slot_of_mapping_inv in Hs as (tk & pk & pre & m & minutes & Ht & Hp & _).
  destruct (Hkeys entries Hn) as [H|H];
    apply first_alias_no_match in H; congruence.
Qed.

Lemma X4_json_no_slot_without_both_keys_witness :
  let payload := JList [JDict [(u "time", JStr (u "10:30"))]; JDict [(u "label", JStr (u "x"))]] in
  (forall entries,
      nested_in (JDict entries) payload ->
      (forall k, In k (dict_keys entries) -> ~ In (PyStr.lower k) TIME_ALIASES) \/
      (forall k, In k (dict_keys entries) -> ~ In (PyStr.lower k) PRICE_ALIASES)) /\
  _collect_slots_from_json payload [] (u "d") = [].
Proof.
  intros payload.
  assert (H : forall entries,
      nested_in (JDict entries) payload ->
      (forall k, In k (dict_keys entries) -> ~ In (PyStr.lower k) TIME_ALIASES) \/
      (forall k, In k (dict_keys entries) -> ~ In (PyStr.lower k) PRICE_ALIASES)).
  { intros entries Hn. right.
    assert (Hcases : entries = [(u "time", JStr (u "10:30"))] \/
                     entries = [(u "label", JStr (u "x"))]).
    { inversion Hn as [|d c v Hd Hc]; subst.
      inversion Hc as [items c' Hin|]; subst.
      destruct Hin as [<-|[<-|[]]].
      - inversion Hd as [|d c v Hd' Hc']; subst; [now left|].
        inversion Hc' as [|es k c' Hin]; subst.
        destruct Hin as [[= <- <-]|[]]. inversion Hd' as [|? ? ? ? Hc'']; subst.
        inversion Hc''.
      - inversion Hd as [|d c v Hd' Hc']; subst; [now right|].
        inversion Hc' as [|es k c' Hin]; subst.
        destruct Hin as [[= <- <-]|[]]. inversion Hd' as [|? ? ? ? Hc'']; subst.
        inversion Hc''. }
    destruct Hcases as [-> | ->]; intros k [<-|[]]; vm_compute;
      intuition discriminate. }
  split; [exact H|].
  exact (X4_json_no_slot_without_both_keys payload [] (u "d") H).
Defined.

Lemma last_lowering_to_split (a k : pystr) (ks : list pystr) :
  last_lowering_to a ks None = Some k ->
  exists before after,
    ks = before ++ k :: after /\
    PyStr.lower k = a /\
    forall k', In k' after -> PyStr.lower k' <> a.
Proof.
  unfold last_lowering_to.
  induction ks as [|x ks IH] using rev_ind; [discriminate|].
  rewrite fold_left_app. cbn [fold_left].
  destruct (pystr_eqb_spec (PyStr.lower x) a) as [Hx|Hx].
  - intros [= ->]. exists ks, []. repeat split; auto.
  - intros H. destruct (IH H) as (before & after & -> & Hk & Hafter).
    exists before, (after ++ [x]). rewrite <- app_assoc. repeat split; auto.
    intros k' Hin. apply in_app_or in Hin as [Hin|[<-|[]]]; auto.
Qed.

(** X5: when several keys of a mapping lower-case to the alias that is used,
    the key taken is the last of them in the mapping's order. *)
Theorem X5_last_key_of_equal_case_wins (aliases : list pystr)
    (entries : list (pystr * json)) (k : pystr) :
  first_alias (lowered_keys entries) aliases = Some k ->
  exists before after,
    dict_keys entries = before ++ k :: after /\
    forall k', In k' after -> PyStr.lower k' <> PyStr.lower k.
Proof.
  intros H. apply first_alias_Some in H as (_ & a & _ & _ & Hget & _).
  rewrite lowered_keys_get in Hget.
  apply last_lowering_to_split in Hget as (before & after & Hks & Hk & Hafter).
  exists before, after. split; [exact Hks|]. now rewrite Hk.
Qed.

Lemma X5_last_key_of_equal_case_wins_witness :
  let entries := [(u "Time", JStr (u "10:07")); (u "price", JStr (u "$5")); (u "TIME", JStr (u "10:20"))] in
  first_alias (lowered_keys entries) TIME_ALIASES = Some (u "TIME") /\
  _collect_slots_from_json (JDict entries) [] (u "d")
  = [{| date := u "d"; time := u "10:20"; price := u "$5"; source := u "network-json" |}] /\
  exists before after,
    dict_keys entries = before ++ (u "TIME") :: after /\
    forall k', In k' after -> PyStr.lower k' <> PyStr.lower (u "TIME").
Proof.
  intros entries.
  assert (H : first_alias (lowered_keys entries) TIME_ALIASES = Some (u "TIME"))
    by reflexivity.
  split; [exact H|]. split; [reflexivity|].
  exact (X5_last_key_of_equal_case_wins TIME_ALIASES entries (u "TIME") H).
Defined.

(** ** Network interception *)

Lemma on_response_accepted (r : Response) (out : list TicketSlot) (date0 : pystr) :
  on_response r out date0
  = out ++ match accepted_payload r with
           | Some payload => _collect_slots_from_json payload [] date0
           | None => []
           end.
Proof.
  unfold on_response, accepted_payload.
  destruct (is_substring (u "json") _); cbn [negb andb]; [|now rewrite app_nil_r].
  destruct (existsb _ URL_KEYWORDS); cbn [negb]; [|now rewrite app_nil_r].
  destruct (json_body r) as [payload|e]; [apply collect_app|now rewrite app_nil_r].
Qed.

(** X6: the callback never loses what was gathered: it returns the list it
    was given followed by the slots of this response, and it returns the list
    unchanged when the content type does not contain [json], when the
    lower-cased URL contains none of the keywords, or when the body cannot be
    decoded (the exception is swallowed). *)
Theorem X6_on_response_appends_or_ignores (r : Response)
    (out : list TicketSlot) (date0 : pystr) :
  on_response r out date0 = out ++ on_response r [] date0 /\
  (is_substring (u "json")
     (dict_get_default PyStr.eqb (headers r) (u "content-type") []) = false ->
   on_response r out date0 = out) /\
  ((forall k, In k URL_KEYWORDS -> is_substring k (PyStr.lower (url r)) = false) ->
   on_response r out date0 = out) /\
  (forall e, json_body r = Raise e -> on_response r out date0 = out).
Proof.
  split; [|split; [|split]].
  - rewrite (on_response_accepted r out), (on_response_accepted r []). reflexivity.
  - intros H. unfold on_response. now rewrite H.
  - intros H. unfold on_response.
    destruct (is_substring (u "json") _); cbn [negb]; [|reflexivity].
    assert (Hex : existsb (fun k => is_substring k (PyStr.lower (url r))) URL_KEYWORDS
                  = false).
    { apply not_true_is_false. intros Hex. apply existsb_exists in Hex as (k & Hk & Hs).
      rewrite (H k Hk) in Hs. discriminate. }
    now rewrite Hex.
  - intros e He. unfold on_response. rewrite He.
    destruct (is_substring (u "json") _); cbn [negb]; [|reflexivity].
    now destruct (existsb _ URL_KEYWORDS).
Qed.

Lemma X6_on_response_appends_or_ignores_witness :
  let kept := {| date := u "d"; time := u "9:00"; price := u "$1"; source := u "network-json" |} in
  let body := Ok (JDict [(u "time", JStr (u "10:30")); (u "price", JStr (u "$42"))]) in
  let wrong_type := {| headers := [(u "content-type", (u "text/html"))];
                       url := u "https://shop.example/api/availability";
                       json_body := body |} in
  let wrong_url := {| headers := [(u "content-type", (u "application/json"))];
                      url := u "https://shop.example/api/prices";
                      json_body := body |} in
  let broken := {| headers := [(u "content-type", (u "application/json; charset=utf-8"))];
                   url := u "https://shop.example/api/Availability";
                   json_body := Raise ValueError |} in
  on_response wrong_type [kept] (u "d") = [kept] /\
  on_response wrong_url [kept] (u "d") = [kept] /\
  on_response broken [kept] (u "d") = [kept].
Proof.
  intros kept body wrong_type wrong_url broken.
  split; [|split].
  - apply (proj1 (proj2 (X6_on_response_appends_or_ignores wrong_type [kept] (u "d")))).
    reflexivity.
  - apply (proj1 (proj2 (proj2 (X6_on_response_appends_or_ignores wrong_url [kept] (u "d"))))).
    intros k Hk. unfold URL_KEYWORDS in Hk. simpl in Hk.
    repeat (destruct Hk as [<-|Hk]; [reflexivity|]). destruct Hk.
  - apply (proj2 (proj2 (proj2 (X6_on_response_appends_or_ignores broken [kept] (u "d"))))
             ValueError).
    reflexivity.
Defined.

Lemma lower_upper (s : pystr) : PyStr.lower (PyStr.upper s) = PyStr.lower s.
Proof.
  unfold PyStr.lower, PyStr.upper.
  induction s as [|c r IH]; cbn [map]; [reflexivity|].
  now rewrite lower_upper_char, IH.
Qed.

Lemma lower_lower (s : pystr) : PyStr.lower (PyStr.lower s) = PyStr.lower s.
Proof.
  unfold PyStr.lower.
  induction s as [|c r IH]; cbn [map]; [reflexivity|].
  now rewrite lower_lower_char, IH.
Qed.

(** X7: the URL test ignores letter case: a response whose URL (ASCII text,
    as the browser reports it) is written in upper case, or in lower case,
    is treated as the original one. *)
Theorem X7_on_response_url_case_insensitive (r : Response)
    (out : list TicketSlot) (date0 : pystr) :
  on_response (with_url r (PyStr.upper (url r))) out date0 = on_response r out date0 /\
  on_response (with_url r (PyStr.lower (url r))) out date0 = on_response r out date0.
Proof.
  unfold on_response, with_url. cbn [headers url json_body].
  now rewrite lower_upper, lower_lower.
Qed.

Lemma slots_after_responses_snoc (rs : list Response) (r : Response) (date0 : pystr) :
  slots_after_responses (rs ++ [r]) date0
  = slots_after_responses rs date0 ++ on_response r [] date0.
Proof.
  unfold slots_after_responses. rewrite fold_left_app. cbn [fold_left].
  rewrite on_response_accepted. f_equal.
  rewrite on_response_accepted. reflexivity.
Qed.

Lemma slots_after_responses_flat_map (rs : list Response) (date0 : pystr) :
  slots_after_responses rs date0
  = flat_map (fun r => on_response r [] date0) rs.
Proof.
  induction rs as [|r rs IH] using rev_ind; [reflexivity|].
  rewrite slots_after_responses_snoc, IH, flat_map_app. cbn [flat_map].
  now rewrite app_nil_r.
Qed.

Lemma fold_collect_flat_map (payloads : list json) (date0 : pystr) :
  fold_left (fun out p => _collect_slots_from_json p out date0) payloads []
  = flat_map (fun p => emitted p date0) payloads.
Proof.
  rewrite (fold_collect_app json (fun p => p) date0 payloads); [reflexivity|].
  apply Forall_forall. intros p _ out. apply collect_app.
Qed.

(** X8: the callbacks compose.  The slots gathered over a run of responses
    are those of its first part followed by those of its second part, and
    they are what the scanner gives on the decoded payloads of the accepted
    responses, in order of arrival. *)
Theorem X8_responses_accumulate_in_order (rs1 rs2 : list Response) (date0 : pystr) :
  slots_after_responses (rs1 ++ rs2) date0
  = slots_after_responses rs1 date0 ++ slots_after_responses rs2 date0 /\
  slots_after_responses rs1 date0
  = fold_left (fun out p => _collect_slots_from_json p out date0)
      (flat_map (fun r => match accepted_payload r with
                          | Some p => [p]
                          | None => []
                          end) rs1) [].
Proof.
  split.
  - rewrite !slots_after_responses_flat_map. apply flat_map_app.
  - rewrite slots_after_responses_flat_map, fold_collect_flat_map.
    induction rs1 as [|r rs IH]; [reflexivity|].
    cbn [flat_map]. rewrite flat_map_app, <- IH. f_equal.
    rewrite on_response_accepted. cbn [app].
    destruct (accepted_payload r); cbn [flat_map]; [|reflexivity].
    now rewrite app_nil_r.
Qed.

(** ** The rendered-text scanner *)


(** X9: only the first 4000 elements are looked at.  The result depends on
    the page through the elements visited alone; on a page that holds a list
    of elements the scanner gives what it gives on the first 4000 of them,
    so two pages that agree on them give the same result, whatever
    follows. *)
Theorem X9_dom_scan_stops_after_4000_elements (date0 : pystr) :
  (forall page page' n n',
      count page = Ok n -> count page' = Ok n' ->
      visited page n = visited page' n' ->
      _collect_slots_from_dom page date0 = _collect_slots_from_dom page' date0) /\
  (forall els,
      _collect_slots_from_dom (page_of els) date0
      = _collect_slots_from_dom (page_of (firstn 4000 els)) date0) /\
  (forall els els',
      firstn 4000 els = firstn 4000 els' ->
      _collect_slots_from_dom (page_of els) date0
      = _collect_slots_from_dom (page_of els') date0).
Proof.
  split; [|split].
  - intros page page' n n' Hn Hn' H.
    rewrite !collect_slots_from_dom_unfold, Hn, Hn'. cbn [bind].
    now rewrite H.
  - intros els.
    rewrite !collect_slots_from_dom_page_of, firstn_firstn, Nat.min_id.
    reflexivity.
  - intros els els' H. rewrite !collect_slots_from_dom_page_of, H. reflexivity.
Qed.

Lemma X9_dom_scan_stops_after_4000_elements_witness :
  let filler := text_element "Menu" "" in
  let slot_el := text_element "10:30 AM $42" "" in
  let stale := {| inner_text := Raise (PlaywrightError "detached");
                  parent_inner_text := Raise (PlaywrightError "detached") |} in
  let els := slot_el :: repeat filler 3999 ++ [stale; slot_el] in
  let els' := slot_el :: repeat filler 3999 in
  firstn 4000 els = firstn 4000 els' /\
  _collect_slots_from_dom (page_of els) (u "d")
  = _collect_slots_from_dom (page_of els') (u "d").
Proof.
  intros filler slot_el stale els els'.
  assert (H : firstn 4000 els = firstn 4000 els') by (vm_compute; reflexivity).
  split; [exact H|].
  exact (proj2 (proj2 (X9_dom_scan_stops_after_4000_elements (u "d"))) els els' H).
Defined.

(** X10: an element whose trimmed text is empty or longer than 200
    characters gives no slot, and the parent's text is read only when the
    element's own text holds a time and no price: with an empty or oversized
    text, a text without a time, or a text that holds a price, the outcome
    for the element does not depend on the parent at all, not even on
    whether reading it would fail. *)
Theorem X10_dom_parent_read_only_when_needed (el : Locator) (raw : pystr)
    (parent : result pystr) (date0 : pystr) :
  inner_text el = Ok raw ->
  (PyStr.strip raw = [] \/ 200 < List.length (PyStr.strip raw) ->
   scan_candidate el date0 = Ok None) /\
  (PyStr.strip raw = [] \/
   200 < List.length (PyStr.strip raw) \/
   Re.search_dom_time (PyStr.strip raw) = None \/
   _parse_currency (PyStr.strip raw) <> [] ->
   scan_candidate (with_parent el parent) date0 = scan_candidate el date0).
Proof.
  intros Hraw. split.
  - intros H. unfold scan_candidate. rewrite Hraw. cbn [bind].
    destruct H as [-> | H]; [reflexivity|].
    apply Nat.ltb_lt in H. rewrite H. now rewrite orb_true_r.
  - intros H. unfold scan_candidate, with_parent.
    cbn [inner_text parent_inner_text]. rewrite Hraw. cbn [bind].
    destruct H as [-> |[H|[H|H]]]; [reflexivity| | |].
    + apply Nat.ltb_lt in H. rewrite H. now rewrite orb_true_r.
    + rewrite H. reflexivity.
    + apply truthy_true in H. rewrite H. cbn [negb bind].
      reflexivity.
Qed.

Lemma X10_dom_parent_read_only_when_needed_witness :
  let el := {| inner_text := Ok (u " 10:30 AM  $42 ");
               parent_inner_text := Raise (PlaywrightError "detached") |} in
  inner_text el = Ok (u " 10:30 AM  $42 ") /\
  _parse_currency (PyStr.strip (u " 10:30 AM  $42 ")) <> [] /\
  scan_candidate (with_parent el (Ok (u "$99"))) (u "d") = scan_candidate el (u "d") /\
  scan_candidate el (u "d")
  = Ok (Some {| date := u "d"; time := u "10:30 AM"; price := u "$42"; source := u "dom" |}).
Proof.
  intros el.
  assert (H1 : inner_text el = Ok (u " 10:30 AM  $42 ")) by reflexivity.
  assert (H2 : _parse_currency (PyStr.strip (u " 10:30 AM  $42 ")) <> [])
    by (vm_compute; discriminate).
  split; [exact H1|]. split; [exact H2|]. split; [|reflexivity].
  apply (proj2 (X10_dom_parent_read_only_when_needed el _ (Ok (u "$99")) (u "d") H1)).
  right. right. right. exact H2.
Defined.

Lemma remove_spaces_no_space (s : pystr) :
  PyStr.contains_char 32%N (PyStr.remove_spaces s) = false.
Proof.
  induction s as [|c r IH]; [reflexivity|].
  cbn [PyStr.remove_spaces].
  destruct (N.eqb c 32%N) eqn:E; [exact IH|].
  cbn [PyStr.contains_char]. now rewrite (N.eqb_sym 32%N c), E, IH.
Qed.

Lemma parse_currency_shape (text : pystr) :
  _parse_currency text <> [] ->
  exists g,
    PyStr.substring_of g text /\ currency_shaped g /\
    _parse_currency text = PyStr.remove_spaces g.
Proof.
  intros Hne.
  destruct (parse_currency_spec text)
    as [(_ & H)|(pre & g & post & _ & Htext & Hshape & Hparse)]; [contradiction|].
  exists g. split; [now exists pre, post|]. auto.
Qed.

(** X11: every slot the rendered-text scanner returns carries the date it
    was called with and the tag dom; its time is an HH:MM token whose
    minutes are a multiple of 10, optionally followed by an upper-case
    meridiem; its price is a currency match with the spaces taken out, so it
    starts with a dollar sign and holds no space character. *)
Theorem X11_dom_slots_well_formed (page : Page) (date0 : pystr)
    (slots : list TicketSlot) (s : TicketSlot) :
  _collect_slots_from_dom page date0 = Ok slots ->
  In s slots ->
  date s = date0 /\
  source s = u "dom" /\
  (exists hh mm tail minutes,
      time s = hh ++ u ":" ++ mm ++ PyStr.upper tail /\
      hhmm_shaped hh mm /\ meridiem_shaped tail /\
      PyStr.int mm = Some minutes /\ (minutes mod 10 = 0)%Z) /\
  has_ten_minute_time (time s) /\
  (exists g, currency_shaped g /\ price s = PyStr.remove_spaces g) /\
  (exists rest, price s = 36%N :: rest) /\
  PyStr.contains_char 32%N (price s) = false.
Proof.
  intros Hscan Hs.
  destruct (collect_slots_from_dom_origin _ _ _ _ Hscan Hs)
    as (n & el & _ & _ & Hslot).
  apply scan_candidate_slot in Hslot
    as (raw & pre & tm & hh & mm & tail & minutes & _ & _ & _ & Hsearch & Htm
        & Hhm & Htail & Hint & Hmod & Hprice & Hsrc & Heq).
  assert (Htime : time s = hh ++ u ":" ++ mm ++ PyStr.upper tail).
  { rewrite Heq. cbn [time].
    rewrite collapse_upper_dom_time by (now exists hh, mm, tail).
    destruct Hhm as (Hh & _ & Hm & _).
    rewrite Htm, !upper_app, (upper_digits _ Hh), (upper_digits _ Hm).
    reflexivity. }
  assert (Hg : exists g, currency_shaped g /\ price s = PyStr.remove_spaces g).
  { destruct Hsrc as [H|(_ & parent & _ & H)]; rewrite H in Hprice;
      apply parse_currency_shape in Hprice as (g & _ & Hshape & Hparse);
      exists g; rewrite H; auto. }
  split; [rewrite Heq; reflexivity|]. split; [rewrite Heq; reflexivity|].
  split; [now exists hh, mm, tail, minutes|].
  split; [exists [], hh, mm, (PyStr.upper tail), minutes; auto|].
  split; [exact Hg|].
  destruct Hg as (g & (ws & ds & frac & -> & _) & Hp). rewrite Hp.
  split; [|apply remove_spaces_no_space].
  eexists. cbn [PyStr.remove_spaces]. reflexivity.
Qed.

Lemma X11_dom_slots_well_formed_witness :
  let page := page_of [text_element "Sunset  7:40 pm" "Sunset 7:40 pm from $ 61.50 each"] in
  let s := {| date := u "d"; time := u "7:40 PM"; price := u "$61.50"; source := u "dom" |} in
  _collect_slots_from_dom page (u "d") = Ok [s] /\
  date s = u "d" /\
  source s = u "dom" /\
  (exists hh mm tail minutes,
      time s = hh ++ u ":" ++ mm ++ PyStr.upper tail /\
      hhmm_shaped hh mm /\ meridiem_shaped tail /\
      PyStr.int mm = Some minutes /\ (minutes mod 10 = 0)%Z) /\
  has_ten_minute_time (time s) /\
  (exists g, currency_shaped g /\ price s = PyStr.remove_spaces g) /\
  (exists rest, price s = 36%N :: rest) /\
  PyStr.contains_char 32%N (price s) = false.
Proof.
  intros page s.
  assert (H : _collect_slots_from_dom page (u "d") = Ok [s]) by reflexivity.
  split; [exact H|].
  exact (X11_dom_slots_well_formed page (u "d") [s] s H (or_introl eq_refl)).
Defined.

Lemma scan_all_complete (date0 : pystr) (l : list Locator) :
  forall slots slots',
    scan_all l slots date0 = Ok slots' ->
    (forall s, In s slots -> In s slots') /\
    (forall el s, In el l -> scan_candidate el date0 = Ok (Some s) -> In s slots').
Proof.
  induction l as [|x l IH]; intros slots slots'; cbn [scan_all].
  - intros [= <-]. split; [auto|intros el s []].
  - destruct (scan_candidate x date0) as [found|e] eqn:Hx; cbn [bind];
      [|discriminate].
    intros H. destruct (IH _ _ H) as (Hkeep & Hnew). split.
    + intros s Hs. apply Hkeep. destruct found; [apply in_or_app; now left|exact Hs].
    + intros el s [<-|Hel] Hscan.
      * rewrite Hscan in Hx. injection Hx as <-.
        apply Hkeep, in_or_app. right. now left.
      * eapply Hnew; eauto.
Qed.

Lemma scan_candidate_slot_by_key (el el' : Locator) (date0 : pystr)
    (s s' : TicketSlot) :
  scan_candidate el date0 = Ok (Some s) ->
  scan_candidate el' date0 = Ok (Some s') ->
  slot_key s = slot_key s' -> s = s'.
Proof.
  intros H H' Hk.
  apply scan_candidate_slot in H
    as (? & ? & ? & ? & ? & ? & ? & _ & _ & _ & _ & _ & _ & _ & _ & _ & _ & _ & Hs).
  apply scan_candidate_slot in H'
    as (? & ? & ? & ? & ? & ? & ? & _ & _ & _ & _ & _ & _ & _ & _ & _ & _ & _ & Hs').
  rewrite Hs, Hs' in Hk. unfold slot_key in Hk. cbn [time price] in Hk.
  injection Hk as Ht Hp. rewrite Hs, Hs', Ht, Hp. reflexivity.
Qed.

(** X12: when the sweep completes, the scanner returns exactly the slots
    found for the elements it visited (the first 4000 of the page), each of
    them once: no two returned slots share a (time, price) key, and none is
    lost. *)
Theorem X12_dom_result_is_the_found_slots_once (page : Page)
    (date0 : pystr) (slots : list TicketSlot) :
  _collect_slots_from_dom page date0 = Ok slots ->
  NoDup (map slot_key slots) /\
  NoDup slots /\
  exists n,
    count page = Ok n /\
    forall s,
      In s slots <->
      exists el, In el (visited page n) /\ scan_candidate el date0 = Ok (Some s).
Proof.
  intros Hscan. pose proof Hscan as Hscan'.
  rewrite collect_slots_from_dom_unfold in Hscan'.
  destruct (count page) as [n|e0] eqn:Hcount; cbn [bind] in Hscan';
    [|discriminate].
  destruct (scan_all (visited page n) [] date0) as [all|e] eqn:E;
    cbn [bind] in Hscan'; [|discriminate].
  injection Hscan' as <-.
  assert (Hnd : NoDup (map slot_key (dict_values (dedup_dict all)))).
  { rewrite dedup_dict_values_keys. apply dedup_dict_keys_NoDup. }
  split; [exact Hnd|]. split; [eapply NoDup_map_inv; exact Hnd|].
  exists n. split; [reflexivity|].
  intros s. split.
  - intros Hs.
    destruct (collect_slots_from_dom_origin _ _ _ _ Hscan Hs)
      as (n' & el & Hn' & Hel & Hslot).
    rewrite Hcount in Hn'. injection Hn' as <-. now exists el.
  - intros (el & Hel & Hslot).
    destruct (scan_all_complete _ _ _ _ E) as (_ & Hnew).
    pose proof (Hnew el s Hel Hslot) as Hin.
    destruct (last_with_key_found all s None Hin) as (s' & Hlast & Hin' & Hk).
    destruct (scan_all_origin _ _ _ _ E s' Hin') as [[]|(el' & _ & Hslot')].
    assert (s' = s) by (eapply scan_candidate_slot_by_key; eauto). subst s'.
    now apply dedup_dict_values_In.
Qed.

Lemma X12_dom_result_is_the_found_slots_once_witness :
  let a := text_element "10:30 AM $42" "" in
  let b := text_element "Next: 10:40 AM" "Next: 10:40 AM ($ 45)" in
  let els := [a; b; text_element "Book now" ""; a; b] in
  let sa := {| date := u "d"; time := u "10:30 AM"; price := u "$42"; source := u "dom" |} in
  let sb := {| date := u "d"; time := u "10:40 AM"; price := u "$45"; source := u "dom" |} in
  _collect_slots_from_dom (page_of els) (u "d") = Ok [sa; sb] /\
  visited (page_of els) 5 = firstn 4000 els /\
  NoDup (map slot_key [sa; sb]) /\
  NoDup [sa; sb] /\
  exists n,
    count (page_of els) = Ok n /\
    forall s,
      In s [sa; sb] <->
      exists el,
        In el (visited (page_of els) n) /\ scan_candidate el (u "d") = Ok (Some s).
Proof.
  intros a b els sa sb.
  assert (H : _collect_slots_from_dom (page_of els) (u "d") = Ok [sa; sb])
    by reflexivity.
  split; [exact H|]. split; [reflexivity|].
  exact (X12_dom_result_is_the_found_slots_once (page_of els) (u "d") [sa; sb] H).
Defined.


(** ** The reconciliation *)

Lemma dict_set_length (d : list ((pystr * pystr) * TicketSlot))
    (k : pystr * pystr) (v : TicketSlot) :
  List.length (dict_set key_eqb d k v) <= S (List.length d).
Proof.
  induction d as [|[k0 v0] r IH]; cbn [dict_set List.length]; [lia|].
  destruct (key_eqb k0 k); cbn [List.length]; lia.
Qed.

Lemma dedup_dict_length (l : list TicketSlot) :
  List.length (dedup_dict l) <= List.length l.
Proof.
  induction l as [|x l IH] using rev_ind; [cbn; lia|].
  rewrite dedup_dict_snoc, length_app. cbn [List.length].
  pose proof (dict_set_length (dedup_dict l) (slot_key x) x). lia.
Qed.

(** X13: reconciliation invents nothing and drops no key: every returned
    slot is one of the candidates, every candidate's (time, price) key is
    held by a returned slot, and there are at most as many returned slots as
    candidates. *)
Theorem X13_reconcile_keeps_keys_invents_nothing (net dom : list TicketSlot) :
  (forall s, In s (reconcile net dom) -> In s (net ++ dom)) /\
  (forall x, In x (net ++ dom) ->
             exists s, In s (reconcile net dom) /\ slot_key s = slot_key x) /\
  List.length (reconcile net dom) <= List.length net + List.length dom.
Proof.
  split; [|split].
  - intros s Hs. apply reconcile_In in Hs.
    apply last_with_key_Some in Hs as [[Hin _]|]; [exact Hin|discriminate].
  - intros x Hx. destruct (reconcile_keeps_key net dom x Hx) as (s & Hs & Hk & _).
    now exists s.
  - unfold reconcile. rewrite (Permutation_length (sorted_perm _)).
    unfold dict_values. rewrite length_map, <- length_app.
    apply dedup_dict_length.
Qed.

Lemma X13_reconcile_keeps_keys_invents_nothing_witness :
  let a := {| date := u "d"; time := u "10:30"; price := u "$42"; source := u "network-json" |} in
  let b := {| date := u "d"; time := u "10:30"; price := u "$42"; source := u "dom" |} in
  let c := {| date := u "d"; time := u "9:10 AM"; price := u "$40"; source := u "dom" |} in
  reconcile [a] [c; b] = [b; c] /\
  In b ([a] ++ [c; b]) /\
  exists s, In s (reconcile [a] [c; b]) /\ slot_key s = slot_key a.
Proof.
  intros a b c.
  pose proof (X13_reconcile_keeps_keys_invents_nothing [a] [c; b])
    as (Hfrom & Hkeys & _).
  split; [reflexivity|]. split.
  - apply Hfrom. vm_compute. auto.
  - apply Hkeys. simpl. auto.
Defined.

Lemma dict_set_fresh (d : list ((pystr * pystr) * TicketSlot))
    (k : pystr * pystr) (v : TicketSlot) :
  ~ In k (dict_keys d) -> dict_set key_eqb d k v = d ++ [(k, v)].
Proof.
  induction d as [|[k0 v0] r IH]; cbn [dict_set dict_keys map fst app];
    [reflexivity|].
  intros Hnot. destruct (key_eqb_spec k0 k) as [->|Hk].
  - exfalso. apply Hnot. now left.
  - rewrite IH; [reflexivity|]. intros Hin. apply Hnot. now right.
Qed.

Lemma dedup_dict_NoDup_keys (l : list TicketSlot) :
  NoDup (map slot_key l) -> dict_values (dedup_dict l) = l.
Proof.
  induction l as [|x l IH] using rev_ind; [reflexivity|].
  rewrite map_app. cbn [map]. intros Hnd.
  apply NoDup_remove in Hnd as (Hnd & Hnot). rewrite app_nil_r in Hnd, Hnot.
  rewrite dedup_dict_snoc, dict_set_fresh.
  - unfold dict_values in *. rewrite map_app, IH by exact Hnd. reflexivity.
  - rewrite <- dedup_dict_values_keys, (IH Hnd). exact Hnot.
Qed.

Lemma sorted_fixed (l : list TicketSlot) :
  StronglySorted key_le l -> sorted l = l.
Proof.
  induction 1 as [|x l Hl IH Hx]; [reflexivity|].
  cbn [sorted fold_right]. fold (sorted l). rewrite IH.
  destruct l as [|y r]; [reflexivity|]. cbn [insert_slot].
  inversion Hx as [|? ? Hxy _]; subst. unfold key_le in Hxy. now rewrite Hxy.
Qed.

(** X14: reconciliation is idempotent: feeding its result back, as network
    candidates or as DOM candidates, returns that result unchanged. *)
Theorem X14_reconcile_idempotent (net dom : list TicketSlot) :
  reconcile (reconcile net dom) [] = reconcile net dom /\
  reconcile [] (reconcile net dom) = reconcile net dom.
Proof.
  assert (H : forall l, NoDup (map slot_key l) -> StronglySorted key_le l ->
                        sorted (dict_values (dedup_dict l)) = l).
  { intros l Hnd Hs. rewrite (dedup_dict_NoDup_keys l Hnd). now apply sorted_fixed. }
  split.
  - unfold reconcile at 1. cbv zeta. rewrite app_nil_r.
    apply H; [apply reconcile_keys_NoDup|apply sorted_sorted].
  - unfold reconcile at 1. cbv zeta. cbn [app].
    apply H; [apply reconcile_keys_NoDup|apply sorted_sorted].
Qed.

Lemma key_leb_antisym (a b : pystr * pystr) :
  key_leb a b = true -> key_leb b a = true -> a = b.
Proof.
  destruct a as [a1 a2], b as [b1 b2]. unfold key_leb. cbn [fst snd].
  rewrite (pystr_compare_antisym a1 b1).
  destruct (PyStr.compare b1 a1) eqn:E; cbn [CompOpp]; try discriminate.
  apply pystr_compare_eq_iff in E. subst.
  intros H1 H2. f_equal. now apply pystr_leb_antisym.
Qed.

Lemma sorted_keys (l : list TicketSlot) :
  StronglySorted key_le l ->
  StronglySorted (fun a b => key_leb a b = true) (map slot_key l).
Proof.
  induction 1 as [|x l Hl IH Hx]; cbn [map]; constructor; [exact IH|].
  apply Forall_map. exact Hx.
Qed.

(** Two duplicate-free sorted lists of keys with the same elements are the
    same list. *)
Lemma sorted_keys_unique (l1 : list (pystr * pystr)) :
  forall l2,
    StronglySorted (fun a b => key_leb a b = true) l1 ->
    StronglySorted (fun a b => key_leb a b = true) l2 ->
    NoDup l1 -> NoDup l2 ->
    (forall k, In k l1 <-> In k l2) ->
    l1 = l2.
Proof.
  induction l1 as [|a l1 IH]; intros l2 Hs1 Hs2 Hn1 Hn2 Hsame.
  - destruct l2 as [|b l2]; [reflexivity|].
    destruct (proj2 (Hsame b) (or_introl eq_refl)).
  - destruct l2 as [|b l2]; [destruct (proj1 (Hsame a) (or_introl eq_refl))|].
    inversion Hs1 as [|? ? Hs1' Ha]; subst.
    inversion Hs2 as [|? ? Hs2' Hb]; subst.
    inversion Hn1 as [|? ? Hna Hn1']; subst.
    inversion Hn2 as [|? ? Hnb Hn2']; subst.
    rewrite Forall_forall in Ha, Hb.
    assert (Hab : a = b).
    { destruct (proj1 (Hsame a) (or_introl eq_refl)) as [Heq|Hin]; [now symmetry|].
      destruct (proj2 (Hsame b) (or_introl eq_refl)) as [Heq|Hin']; [exact Heq|].
      apply key_leb_antisym; auto. }
    subst b. f_equal. apply IH; auto.
    intros k. split; intros Hk.
    + destruct (proj1 (Hsame k) (or_intror Hk)) as [<-|H]; [contradiction|exact H].
    + destruct (proj2 (Hsame k) (or_intror Hk)) as [<-|H]; [contradiction|exact H].
Qed.

Lemma reconcile_key_set (net dom : list TicketSlot) (k : pystr * pystr) :
  In k (map slot_key (reconcile net dom)) <-> In k (map slot_key (net ++ dom)).
Proof.
  rewrite !in_map_iff. split.
  - intros (s & <- & Hs). exists s. split; [reflexivity|].
    apply reconcile_In in Hs.
    apply last_with_key_Some in Hs as [[Hin _]|]; [exact Hin|discriminate].
  - intros (x & <- & Hx).
    destruct (reconcile_keeps_key net dom x Hx) as (s & Hs & Hk & _).
    now exists s.
Qed.

(** X15: which (time, price) keys come out, and in which order, depends
    only on the set of keys that go in.  In particular, merging the DOM
    candidates before the network candidates gives the same keys in the same
    order (only the surviving source tags can differ). *)
Theorem X15_reconcile_keys_depend_on_key_set (net dom net' dom' : list TicketSlot) :
  ((forall k, In k (map slot_key (net ++ dom)) <-> In k (map slot_key (net' ++ dom'))) ->
   map slot_key (reconcile net dom) = map slot_key (reconcile net' dom')) /\
  map slot_key (reconcile net dom) = map slot_key (reconcile dom net).
Proof.
  assert (H : forall n d n' d',
    (forall k, In k (map slot_key (n ++ d)) <-> In k (map slot_key (n' ++ d'))) ->
    map slot_key (reconcile n d) = map slot_key (reconcile n' d')).
  { intros n d n' d' Hsame. apply sorted_keys_unique.
    - apply sorted_keys, sorted_sorted.
    - apply sorted_keys, sorted_sorted.
    - apply reconcile_keys_NoDup.
    - apply reconcile_keys_NoDup.
    - intros k. rewrite !reconcile_key_set. apply Hsame. }
  split; [apply H|].
  apply H. intros k. rewrite !map_app, !in_app_iff. tauto.
Qed.

Lemma X15_reconcile_keys_depend_on_key_set_witness :
  let a := {| date := u "d"; time := u "10:30"; price := u "$42"; source := u "network-json" |} in
  let b := {| date := u "d"; time := u "10:30"; price := u "$42"; source := u "dom" |} in
  let c := {| date := u "d"; time := u "9:10 AM"; price := u "$40"; source := u "dom" |} in
  (forall k, In k (map slot_key ([a] ++ [c; b])) <-> In k (map slot_key ([c; a; a] ++ []))) /\
  map slot_key (reconcile [a] [c; b]) = map slot_key (reconcile [c; a; a] []).
Proof.
  intros a b c.
  assert (H : forall k, In k (map slot_key ([a] ++ [c; b]))
                        <-> In k (map slot_key ([c; a; a] ++ []))).
  { intros k. cbn. tauto. }
  split; [exact H|].
  exact (proj1 (X15_reconcile_keys_depend_on_key_set [a] [c; b] [c; a; a] []) H).
Defined.


(** ** The currency parser *)

Lemma search_none (M : Type) (at_ : option N -> pystr -> option M) :
  forall s prev,
    (forall p t, at_ p t = None) -> Re.search at_ prev s = None.
Proof.
  induction s as [|c r IH]; intros prev H; cbn [Re.search]; rewrite H;
    [reflexivity|].
  now rewrite IH.
Qed.

Lemma search_currency_no_dollar (s : pystr) :
  forall prev,
    PyStr.contains_char 36%N s = false ->
    Re.search Re.currency_at prev s = None.
Proof.
  induction s as [|c r IH]; intros prev; [reflexivity|].
  cbn [PyStr.contains_char Re.search]. rewrite (N.eqb_sym 36%N c).
  unfold Re.currency_at at 1.
  destruct (N.eqb c 36%N); cbn [orb]; [discriminate|].
  intros H. now rewrite (IH _ H).
Qed.

Lemma remove_spaces_app (a b : pystr) :
  PyStr.remove_spaces (a ++ b)
  = PyStr.remove_spaces a ++ PyStr.remove_spaces b.
Proof.
  induction a as [|c a IH]; cbn [app PyStr.remove_spaces]; [reflexivity|].
  destruct (N.eqb c 32%N); [exact IH|]. cbn [app]. now rewrite IH.
Qed.

Lemma remove_spaces_keeps_class (p : N -> bool) (s : pystr) :
  all_chars p s = true -> all_chars p (PyStr.remove_spaces s) = true.
Proof.
  unfold all_chars.
  induction s as [|c r IH]; cbn [forallb PyStr.remove_spaces]; [reflexivity|].
  intros H. apply andb_true_iff in H as [Hc Hr].
  destruct (N.eqb c 32%N); [now apply IH|].
  cbn [forallb]. now rewrite Hc, IH.
Qed.

Lemma remove_spaces_digits (s : pystr) :
  all_chars PyStr.is_digit s = true -> PyStr.remove_spaces s = s.
Proof.
  intros H. apply remove_spaces_fixed.
  apply (all_chars_exclude PyStr.is_digit); [|exact H].
  intros x Hx. rewrite N.eqb_sym. now apply digit_not_space.
Qed.

(** A currency match without spaces is matched again, whole, at its start. *)
Lemma currency_at_again (ws ds frac : pystr) (prev : option N) :
  all_chars PyStr.is_space ws = true ->
  all_chars PyStr.is_digit ds = true ->
  ds <> [] ->
  (frac = [] \/
   exists d1 d2,
     frac = (46%N :: d1 :: [d2]) /\
     PyStr.is_digit d1 = true /\ PyStr.is_digit d2 = true) ->
  Re.currency_at prev (36%N :: ws ++ ds ++ frac)
  = Some ((36%N :: ws ++ ds ++ frac)).
Proof.
  intros Hws Hds Hne Hfrac. unfold Re.currency_at.
  rewrite N.eqb_refl.
  destruct ds as [|d ds]; [now elim Hne|].
  pose proof Hds as Hds'. cbn [all_chars forallb] in Hds'.
  apply andb_true_iff in Hds' as [Hd _].
  rewrite (span_app PyStr.is_space ws ((d :: ds) ++ frac) Hws)
    by (cbn [app]; now apply digit_not_space_char).
  assert (Hfrac' : match frac with
                   | [] => True
                   | (c :: _) => PyStr.is_digit c = false
                   end /\ Re.fraction frac = frac).
  { destruct Hfrac as [->|(d1 & d2 & -> & H1 & H2)]; [now split|].
    split; [reflexivity|]. unfold Re.fraction.
    rewrite N.eqb_refl, H1, H2. reflexivity. }
  destruct Hfrac' as (Hhead & Hfix).
  rewrite (span_app PyStr.is_digit (d :: ds) frac Hds Hhead).
  now rewrite Hfix.
Qed.

(** X17: a text without a dollar sign has no price, and parsing is
    idempotent: a parsed price parses to itself. *)
Theorem X17_parse_currency_idempotent (text : pystr) :
  (PyStr.contains_char 36%N text = false -> _parse_currency text = []) /\
  _parse_currency (_parse_currency text) = _parse_currency text.
Proof.
  split.
  - intros H. unfold _parse_currency, Re.search_currency.
    now rewrite search_currency_no_dollar.
  - destruct (parse_currency_spec text)
      as [(_ & ->)|(pre & g & post & _ & _ & Hshape & ->)]; [reflexivity|].
    destruct Hshape as (ws & ds & frac & -> & Hws & Hds & Hne & Hfrac).
    assert (Hrs : PyStr.remove_spaces (36%N :: ws ++ ds ++ frac)
                  = (36%N :: PyStr.remove_spaces ws ++ ds ++ frac)).
    { cbn [PyStr.remove_spaces].
      change (N.eqb 36%N 32%N) with false. cbv iota.
      rewrite !remove_spaces_app, (remove_spaces_digits _ Hds). do 3 f_equal.
      destruct Hfrac as [->|(d1 & d2 & -> & H1 & H2)]; [reflexivity|].
      cbn [PyStr.remove_spaces]. change (N.eqb 46%N 32%N) with false. cbv iota.
      rewrite (digit_not_space _ H1), (digit_not_space _ H2). reflexivity. }
    rewrite Hrs. unfold _parse_currency at 1, Re.search_currency.
    cbn [Re.search].
    rewrite (currency_at_again (PyStr.remove_spaces ws) ds frac None
               (remove_spaces_keeps_class _ _ Hws) Hds Hne Hfrac).
    rewrite <- Hrs. apply remove_spaces_fixed, remove_spaces_no_space.
Qed.

Lemma X17_parse_currency_idempotent_witness :
  PyStr.contains_char 36%N (u "Adult 42.00 USD") = false /\
  _parse_currency (u "Adult 42.00 USD") = [].
Proof.
  assert (H : PyStr.contains_char 36%N (u "Adult 42.00 USD") = false) by reflexivity.
  split; [exact H|].
  exact (proj1 (X17_parse_currency_idempotent (u "Adult 42.00 USD")) H).
Defined.


(** ** Writing the results: files *)

Lemma write_all_encodable (texts : list pystr) :
  forallb encodable texts = true ->
  forall written, write_all texts written = (written ++ concat texts, Ok tt).
Proof.
  induction texts as [|text rest IH]; intros H written; cbn [write_all concat].
  - now rewrite app_nil_r.
  - cbn [forallb] in H. apply andb_true_iff in H as [Ht Hr].
    unfold write. rewrite Ht, (IH Hr). now rewrite app_assoc.
Qed.

Lemma write_all_ok (texts : list pystr) :
  forall written written',
    write_all texts written = (written', Ok tt) ->
    forallb encodable texts = true.
Proof.
  induction texts as [|text rest IH]; intros written written';
    cbn [write_all forallb]; [reflexivity|].
  unfold write. destruct (encodable text); [|discriminate].
  intros H. now rewrite (IH _ _ H).
Qed.

(** A successful block leaves the texts, one after the other, under the
    path, and the other files as they were. *)
Lemma with_open_ok (open_ : pystr -> result unit) (path : pystr)
    (texts : list pystr) (fs fs' : files) :
  with_open open_ path texts fs = (fs', Ok tt) ->
  fs' = dict_set PyStr.eqb fs path (concat texts) /\
  forallb encodable texts = true.
Proof.
  unfold with_open. destruct (open_ path) as [[]|e]; [|discriminate].
  destruct (write_all texts []) as [text r] eqn:E.
  intros [= <- ->].
  pose proof (write_all_ok _ _ _ E) as Henc.
  rewrite (write_all_encodable _ Henc) in E. injection E as <-.
  split; [reflexivity|exact Henc].
Qed.

Lemma with_open_encodable (open_ : pystr -> result unit) (path : pystr)
    (texts : list pystr) (fs : files) :
  forallb encodable texts = true ->
  with_open open_ path texts fs
  = match open_ path with
    | Ok _ => (dict_set PyStr.eqb fs path (concat texts), Ok tt)
    | Raise e => (fs, Raise e)
    end.
Proof.
  intros H. unfold with_open. destruct (open_ path) as [[]|e]; [|reflexivity].
  now rewrite (write_all_encodable _ H).
Qed.

(** ** Writing the results: JSON *)

Lemma append_inv_head (a x y : pystr) : a ++ x = a ++ y -> x = y.
Proof. apply app_inv_head. Qed.

Lemma all_chars_app (p : N -> bool) (a b : pystr) :
  all_chars p (a ++ b) = all_chars p a && all_chars p b.
Proof. apply forallb_app. Qed.

Lemma hex_digit_cases (d : N) :
  (d < 16)%N ->
  Json.unhex (PyRepr.hex_digit d) = Some d /\
  is_printable_or_newline (PyRepr.hex_digit d) = true.
Proof.
  intros H.
  assert (Hd : (d = 0 \/ d = 1 \/ d = 2 \/ d = 3 \/ d = 4 \/ d = 5 \/ d = 6
                \/ d = 7 \/ d = 8 \/ d = 9 \/ d = 10 \/ d = 11 \/ d = 12
                \/ d = 13 \/ d = 14 \/ d = 15)%N) by lia.
  repeat (destruct Hd as [->|Hd]; [split; reflexivity|]).
  subst d. split; reflexivity.
Qed.

Lemma hex_4 (v : N) :
  PyRepr.hex 4 v
  = [PyRepr.hex_digit (v / 16 / 16 / 16 mod 16);
     PyRepr.hex_digit (v / 16 / 16 mod 16);
     PyRepr.hex_digit (v / 16 mod 16);
     PyRepr.hex_digit (v mod 16)]%N.
Proof. reflexivity. Qed.

Lemma mod_16_lt (x : N) : (x mod 16 < 16)%N.
Proof. apply N.mod_lt. discriminate. Qed.

(** Four hexadecimal digits are read back as the number they were written
    from. *)
Lemma unhex4_hex (v : N) :
  (v < 65536)%N ->
  Json.unhex4 (PyRepr.hex_digit (v / 16 / 16 / 16 mod 16))
              (PyRepr.hex_digit (v / 16 / 16 mod 16))
              (PyRepr.hex_digit (v / 16 mod 16))
              (PyRepr.hex_digit (v mod 16))
  = Some v.
Proof.
  intros Hv. unfold Json.unhex4.
  rewrite !(proj1 (hex_digit_cases _ (mod_16_lt _))). f_equal.
  pose proof (N.div_mod' v 16). pose proof (mod_16_lt v).
  pose proof (N.div_mod' (v / 16) 16). pose proof (mod_16_lt (v / 16)).
  pose proof (N.div_mod' (v / 16 / 16) 16). pose proof (mod_16_lt (v / 16 / 16)).
  pose proof (N.div_mod' (v / 16 / 16 / 16) 16).
  pose proof (mod_16_lt (v / 16 / 16 / 16)).
  set (q1 := (v / 16)%N) in *. set (r1 := (v mod 16)%N) in *.
  set (q2 := (q1 / 16)%N) in *. set (r2 := (q1 mod 16)%N) in *.
  set (q3 := (q2 / 16)%N) in *. set (r3 := (q2 mod 16)%N) in *.
  set (q4 := (q3 / 16)%N) in *. set (r4 := (q3 mod 16)%N) in *.
  clearbody q1 r1 q2 r2 q3 r3 q4 r4. lia.
Qed.

Lemma u_escape_printable (v : N) :
  all_chars is_printable_or_newline (Json.u_escape v) = true.
Proof.
  unfold Json.u_escape. rewrite hex_4. unfold all_chars. cbn [forallb].
  rewrite !(proj2 (hex_digit_cases _ (mod_16_lt _))). reflexivity.
Qed.

Lemma escape_char_printable (c : N) :
  all_chars is_printable_or_newline (Json.escape_char c) = true.
Proof.
  unfold Json.escape_char.
  destruct (c =? Json.dquote)%N; [reflexivity|].
  destruct (c =? Json.backslash)%N; [reflexivity|].
  destruct (c =? 8)%N; [reflexivity|].
  destruct (c =? 12)%N; [reflexivity|].
  destruct (c =? 10)%N; [reflexivity|].
  destruct (c =? 13)%N; [reflexivity|].
  destruct (c =? 9)%N; [reflexivity|].
  destruct ((c <? 32) || (126 <? c))%N eqn:E.
  - destruct (c <? 65536)%N; rewrite ?all_chars_app, !u_escape_printable;
      reflexivity.
  - apply orb_false_iff in E as [E1 E2].
    apply N.ltb_ge in E1, E2.
    unfold all_chars. cbn [forallb]. unfold is_printable_or_newline.
    assert (Hr : PyStr.in_range 32 126 c = true) by (apply in_range_iff; lia).
    now rewrite Hr.
Qed.

Lemma escape_printable (s : pystr) :
  all_chars is_printable_or_newline (Json.escape s) = true.
Proof.
  induction s as [|c r IH]; [reflexivity|].
  unfold Json.escape in *. cbn [flat_map].
  now rewrite all_chars_app, escape_char_printable, IH.
Qed.

Lemma encode_string_printable (s : pystr) :
  all_chars is_printable_or_newline (Json.encode_string s) = true.
Proof.
  unfold Json.encode_string.
  change (Json.dquote :: Json.escape s ++ [Json.dquote])
    with ([Json.dquote] ++ Json.escape s ++ [Json.dquote]).
  now rewrite !all_chars_app, escape_printable.
Qed.

Lemma dump_slot_printable (s : TicketSlot) :
  all_chars is_printable_or_newline (Json.dump_slot s) = true.
Proof.
  unfold Json.dump_slot, Json.member.
  rewrite !all_chars_app, !encode_string_printable. reflexivity.
Qed.

Lemma concat_cons2 (sep x y : pystr) (l : list pystr) :
  PyStr.join sep (x :: y :: l) = x ++ sep ++ PyStr.join sep (y :: l).
Proof. reflexivity. Qed.

Lemma concat_single (sep x : pystr) : PyStr.join sep [x] = x.
Proof. reflexivity. Qed.

Lemma concat_printable (sep : pystr) (l : list pystr) :
  all_chars is_printable_or_newline sep = true ->
  Forall (fun x => all_chars is_printable_or_newline x = true) l ->
  all_chars is_printable_or_newline (PyStr.join sep l) = true.
Proof.
  intros Hsep. induction 1 as [|x l Hx Hl IH]; [reflexivity|].
  destruct l as [|y l]; [exact Hx|].
  rewrite concat_cons2, !all_chars_app, Hx, Hsep, IH. reflexivity.
Qed.

Lemma dumps_printable (slots : list TicketSlot) :
  all_chars is_printable_or_newline (Json.dumps slots) = true.
Proof.
  unfold Json.dumps. destruct slots as [|x l]; [reflexivity|].
  rewrite !all_chars_app, concat_printable; [reflexivity|reflexivity|].
  apply Forall_forall. intros t Ht. apply in_map_iff in Ht as (s & <- & _).
  apply dump_slot_printable.
Qed.

Lemma printable_encodable (text : pystr) :
  all_chars is_printable_or_newline text = true -> encodable text = true.
Proof.
  unfold all_chars, encodable. intros H. apply forallb_forall.
  intros c Hc. rewrite forallb_forall in H. specialize (H c Hc).
  unfold is_printable_or_newline, newline in H. unfold is_surrogate.
  apply negb_true_iff, not_true_is_false. intros Hs.
  apply in_range_iff in Hs. apply orb_true_iff in H as [H|H].
  - apply in_range_iff in H. lia.
  - apply N.eqb_eq in H. lia.
Qed.

(** Saving as JSON fails only when the path cannot be opened. *)
Lemma save_json_unfold (slots : list TicketSlot) (path : pystr)
    (open_ : pystr -> result unit) (fs : files) :
  _save_json slots path open_ fs
  = match open_ path with
    | Ok _ => (dict_set PyStr.eqb fs path (Json.dumps slots), Ok tt)
    | Raise e => (fs, Raise e)
    end.
Proof.
  unfold _save_json. rewrite with_open_encodable.
  - cbn [concat]. now rewrite app_nil_r.
  - cbn [forallb]. now rewrite (printable_encodable _ (dumps_printable slots)).
Qed.

(** *** Reading a literal back *)

Lemma read_literal_plain (c : N) (tail : pystr) :
  (c =? Json.dquote)%N = false -> (c =? Json.backslash)%N = false ->
  Json.read_literal (c :: tail) = Json.prepend c (Json.read_literal tail).
Proof. intros H1 H2. cbn [Json.read_literal]. now rewrite H1, H2. Qed.

Lemma read_literal_u_unfold (h1 h2 h3 h4 : N) (r2 : pystr) :
  Json.read_literal (Json.backslash :: 117%N :: h1 :: h2 :: h3 :: h4 :: r2)
  = match Json.unhex4 h1 h2 h3 h4 with
    | Some v =>
        if PyStr.in_range 55296 56319 v then
          match r2 with
          | b :: e2 :: l1 :: l2 :: l3 :: l4 :: r3 =>
              if (b =? Json.backslash)%N && (e2 =? 117)%N then
                match Json.unhex4 l1 l2 l3 l4 with
                | Some w =>
                    if PyStr.in_range 56320 57343 w then
                      Json.prepend (65536 + (v - 55296) * 1024 + (w - 56320))%N
                                   (Json.read_literal r3)
                    else Json.prepend v (Json.read_literal r2)
                | None => None
                end
              else Json.prepend v (Json.read_literal r2)
          | _ => Json.prepend v (Json.read_literal r2)
          end
        else Json.prepend v (Json.read_literal r2)
    | None => None
    end.
Proof. reflexivity. Qed.

Lemma read_literal_u_single (v : N) (tail : pystr) :
  (v < 65536)%N -> PyStr.in_range 55296 56319 v = false ->
  Json.read_literal (Json.u_escape v ++ tail)
  = Json.prepend v (Json.read_literal tail).
Proof.
  intros Hv Hr. unfold Json.u_escape. rewrite hex_4. cbn [app].
  rewrite read_literal_u_unfold, (unhex4_hex v Hv), Hr. reflexivity.
Qed.

Lemma read_literal_u_pair (v w : N) (tail : pystr) :
  (v < 65536)%N -> (w < 65536)%N ->
  PyStr.in_range 55296 56319 v = true ->
  PyStr.in_range 56320 57343 w = true ->
  Json.read_literal (Json.u_escape v ++ Json.u_escape w ++ tail)
  = Json.prepend (65536 + (v - 55296) * 1024 + (w - 56320))%N
                 (Json.read_literal tail).
Proof.
  intros Hv Hw Hrv Hrw. unfold Json.u_escape. rewrite !hex_4. cbn [app].
  rewrite read_literal_u_unfold, (unhex4_hex v Hv), Hrv.
  rewrite !N.eqb_refl. cbn [andb].
  now rewrite (unhex4_hex w Hw), Hrw.
Qed.

(** The escape of a character that is no surrogate is read back as that
    character. *)
Lemma read_literal_char (c : N) (tail : pystr) :
  is_scalar c = true ->
  Json.read_literal (Json.escape_char c ++ tail)
  = Json.prepend c (Json.read_literal tail).
Proof.
  intros Hc. unfold is_scalar, is_surrogate in Hc.
  apply andb_true_iff in Hc as [Hmax Hsur].
  apply N.ltb_lt in Hmax. apply negb_true_iff in Hsur.
  unfold Json.escape_char.
  destruct (N.eqb_spec c Json.dquote) as [->|H34]; [reflexivity|].
  destruct (N.eqb_spec c Json.backslash) as [->|H92]; [reflexivity|].
  destruct (N.eqb_spec c 8) as [->|H8]; [reflexivity|].
  destruct (N.eqb_spec c 12) as [->|H12]; [reflexivity|].
  destruct (N.eqb_spec c 10) as [->|H10]; [reflexivity|].
  destruct (N.eqb_spec c 13) as [->|H13]; [reflexivity|].
  destruct (N.eqb_spec c 9) as [->|H9]; [reflexivity|].
  destruct ((c <? 32) || (126 <? c))%N eqn:E.
  - destruct (c <? 65536)%N eqn:E2.
    + apply N.ltb_lt in E2. apply read_literal_u_single; [exact E2|].
      apply not_true_is_false. intros H. apply in_range_iff in H.
      assert (Hs : PyStr.in_range 55296 57343 c = true)
        by (apply in_range_iff; lia).
      congruence.
    + apply N.ltb_ge in E2. rewrite <- app_assoc.
      pose proof (N.div_mod' c 1024) as Hdm.
      assert (Hm : (c mod 1024 < 1024)%N) by (apply N.mod_lt; discriminate).
      set (q := (c / 1024)%N) in *. set (r := (c mod 1024)%N) in *.
      clearbody q r.
      assert (Hq : (64 <= q < 1088)%N) by lia.
      rewrite read_literal_u_pair.
      * f_equal. lia.
      * lia.
      * lia.
      * apply in_range_iff. lia.
      * apply in_range_iff. lia.
  - cbn [app]. apply read_literal_plain; now apply N.eqb_neq.
Qed.

(** A written string literal is read back as the string it was written
    from, up to its closing quote. *)
Lemma read_literal_escape (s rest : pystr) :
  all_chars is_scalar s = true ->
  Json.read_literal (Json.escape s ++ Json.dquote :: rest) = Some (s, rest).
Proof.
  unfold Json.escape, all_chars.
  induction s as [|c r IH]; cbn [flat_map forallb app]; [reflexivity|].
  intros H. apply andb_true_iff in H as [Hc Hr].
  rewrite <- app_assoc, (read_literal_char _ _ Hc), (IH Hr). reflexivity.
Qed.

Lemma encode_string_inj (a b r1 r2 : pystr) :
  all_chars is_scalar a = true -> all_chars is_scalar b = true ->
  Json.encode_string a ++ r1 = Json.encode_string b ++ r2 ->
  a = b /\ r1 = r2.
Proof.
  intros Ha Hb. unfold Json.encode_string. cbn [app]. intros [= H].
  rewrite <- !app_assoc in H. cbn [app] in H.
  apply (f_equal Json.read_literal) in H.
  rewrite !read_literal_escape in H by assumption. now injection H.
Qed.

Lemma member_inj (key : string) (a b r1 r2 : pystr) :
  all_chars is_scalar a = true -> all_chars is_scalar b = true ->
  Json.member key a ++ r1 = Json.member key b ++ r2 ->
  a = b /\ r1 = r2.
Proof.
  intros Ha Hb. unfold Json.member. intros H. rewrite <- !app_assoc in H.
  apply append_inv_head in H. apply append_inv_head in H.
  apply append_inv_head in H. now apply encode_string_inj.
Qed.

Lemma scalar_slot_fields (s : TicketSlot) :
  scalar_slot s = true ->
  all_chars is_scalar (date s) = true /\ all_chars is_scalar (time s) = true /\
  all_chars is_scalar (price s) = true /\ all_chars is_scalar (source s) = true.
Proof.
  unfold scalar_slot. rewrite !andb_true_iff. tauto.
Qed.

Lemma dump_slot_inj (s s' : TicketSlot) (r1 r2 : pystr) :
  scalar_slot s = true -> scalar_slot s' = true ->
  Json.dump_slot s ++ r1 = Json.dump_slot s' ++ r2 ->
  s = s' /\ r1 = r2.
Proof.
  intros Hs Hs'.
  apply scalar_slot_fields in Hs as (Hd1 & Ht1 & Hp1 & Hs1).
  apply scalar_slot_fields in Hs' as (Hd2 & Ht2 & Hp2 & Hs2).
  unfold Json.dump_slot. intros H. rewrite <- !app_assoc in H.
  apply append_inv_head in H. apply append_inv_head in H.
  apply member_inj in H as (Hd & H); [|assumption|assumption].
  apply append_inv_head in H. apply append_inv_head in H.
  apply member_inj in H as (Ht & H); [|assumption|assumption].
  apply append_inv_head in H. apply append_inv_head in H.
  apply member_inj in H as (Hp & H); [|assumption|assumption].
  apply append_inv_head in H. apply append_inv_head in H.
  apply member_inj in H as (Hsrc & H); [|assumption|assumption].
  apply append_inv_head in H. apply append_inv_head in H.
  split; [|exact H].
  destruct s, s'. cbn in *. congruence.
Qed.

Lemma concat_map_inj (f : TicketSlot -> pystr) (ok : TicketSlot -> bool)
    (l1 : list TicketSlot) :
  (forall s s' r1 r2,
      ok s = true -> ok s' = true ->
      f s ++ r1 = f s' ++ r2 -> s = s' /\ r1 = r2) ->
  forall l2 r1 r2,
    forallb ok l1 = true -> forallb ok l2 = true ->
    l1 <> [] -> l2 <> [] ->
    PyStr.join (u "," ++ Json.nl) (map f l1) ++ Json.nl ++ r1
    = PyStr.join (u "," ++ Json.nl) (map f l2) ++ Json.nl ++ r2 ->
    l1 = l2.
Proof.
  intros Hf.
  induction l1 as [|x l1 IH]; intros l2 r1 r2 Hok1 Hok2 H1 H2; [now elim H1|].
  destruct l2 as [|y l2]; [now elim H2|]. clear H1 H2.
  cbn [forallb] in Hok1, Hok2.
  apply andb_true_iff in Hok1 as [Hx Hok1], Hok2 as [Hy Hok2].
  destruct l1 as [|x' l1], l2 as [|y' l2]; cbn [map];
    rewrite ?concat_single, ?concat_cons2, <- ?app_assoc; intros H;
    apply Hf in H as (-> & H); try assumption.
  - reflexivity.
  - discriminate.
  - discriminate.
  - f_equal. apply (append_inv_head (u ",")) in H.
    apply (append_inv_head Json.nl) in H.
    apply (IH (y' :: l2) r1 r2); [assumption|assumption|discriminate|discriminate|exact H].
Qed.

Lemma dumps_inj (l1 l2 : list TicketSlot) :
  forallb scalar_slot l1 = true -> forallb scalar_slot l2 = true ->
  Json.dumps l1 = Json.dumps l2 -> l1 = l2.
Proof.
  intros H1 H2. unfold Json.dumps.
  destruct l1 as [|x l1], l2 as [|y l2]; [reflexivity|discriminate|discriminate|].
  intros H. apply (append_inv_head (u "[")) in H.
  apply (append_inv_head Json.nl) in H.
  apply (concat_map_inj Json.dump_slot scalar_slot (x :: l1) dump_slot_inj
           (y :: l2) (u "]") (u "]"));
    [assumption|assumption|discriminate|discriminate|exact H].
Qed.

(** X18: the JSON file determines the slots.  Two lists of slots whose
    fields are well-formed texts (code points, none of them a surrogate) and
    that are written as the same text are the same list, whatever characters
    their fields hold: so are two lists saved under one path with the same
    file as result.  Without the condition the text does not tell a pair of
    surrogates from the character the pair encodes. *)
Theorem X18_save_json_injective (l1 l2 : list TicketSlot) :
  forallb scalar_slot l1 = true -> forallb scalar_slot l2 = true ->
  (Json.dumps l1 = Json.dumps l2 -> l1 = l2) /\
  (forall path open_ fs fs1 fs2,
      _save_json l1 path open_ fs = (fs1, Ok tt) ->
      _save_json l2 path open_ fs = (fs2, Ok tt) ->
      dict_get PyStr.eqb fs1 path = dict_get PyStr.eqb fs2 path ->
      l1 = l2) /\
  Json.dumps [{| date := [55357%N; 56832%N]; time := []; price := []; source := [] |}]
  = Json.dumps [{| date := [128512%N]; time := []; price := []; source := [] |}].
Proof.
  intros H1 H2. split; [now apply dumps_inj|]. split; [|reflexivity].
  intros path open_ fs fs1 fs2. rewrite !save_json_unfold.
  destruct (open_ path) as [[]|e]; [|discriminate].
  intros [= <-] [= <-].
  rewrite !(dict_get_set PyStr.eqb pystr_eqb_spec), pystr_eqb_refl.
  intros [= H]. now apply dumps_inj.
Qed.

Lemma X18_save_json_injective_witness :
  let a := {| date := u "d"; time := u "10:30" ++ [34%N; 233%N; 128512%N];
              price := u "$42"; source := u "dom" |} in
  forallb scalar_slot [a; a] = true /\
  Json.dumps [a; a] = Json.dumps [a; a] /\ [a; a] = [a; a].
Proof.
  intros a.
  assert (Hs : forallb scalar_slot [a; a] = true) by (vm_compute; reflexivity).
  assert (H : Json.dumps [a; a] = Json.dumps [a; a]) by reflexivity.
  split; [exact Hs|]. split; [exact H|].
  exact (proj1 (X18_save_json_injective [a; a] [a; a] Hs Hs) H).
Defined.


(** ** Writing the results: CSV *)

Lemma read_quoted_written (f rest : pystr) :
  match rest with
  | [] => True
  | (c :: _) => N.eqb c Csv.dquote = false
  end ->
  Csv.read_quoted (Csv.double_quotes f ++ (Csv.dquote :: rest)) = Some (f, rest).
Proof.
  intros Hrest. induction f as [|c f IH].
  - cbn [Csv.double_quotes app Csv.read_quoted].
    rewrite N.eqb_refl. destruct rest as [|c2 r2]; [reflexivity|].
    now rewrite Hrest.
  - cbn [Csv.double_quotes].
    destruct (N.eqb_spec c Csv.dquote) as [->|Hc].
    + cbn [app Csv.read_quoted]. rewrite !N.eqb_refl.
      now rewrite IH.
    + cbn [app Csv.read_quoted].
      apply N.eqb_neq in Hc. now rewrite Hc, IH.
Qed.

Lemma read_plain_written (f rest : pystr) :
  Csv.has_special f = false ->
  match rest with
  | [] => True
  | (c :: _) => Csv.is_special c = true
  end ->
  Csv.read_plain (f ++ rest) = (f, rest).
Proof.
  intros Hf Hrest. induction f as [|c f IH].
  - cbn [app]. destruct rest as [|c r]; [reflexivity|].
    cbn [Csv.read_plain]. now rewrite Hrest.
  - cbn [Csv.has_special existsb] in Hf. apply orb_false_iff in Hf as [Hc Hf].
    cbn [app Csv.read_plain]. now rewrite Hc, (IH Hf).
Qed.

Lemma special_not_quote_cases (c : N) :
  Csv.is_special c = false -> N.eqb c Csv.dquote = false.
Proof.
  unfold Csv.is_special. intros H.
  apply orb_false_iff in H as [H _]. apply orb_false_iff in H as [H _].
  now apply orb_false_iff in H as [_ H].
Qed.

(** A written field is read back as the field, up to the separator or the
    line end that follows it. *)
Lemma read_field_written (f : pystr) (c : N) (rest : pystr) :
  Csv.is_special c = true -> N.eqb c Csv.dquote = false ->
  Csv.read_field (Csv.write_field f ++ (c :: rest)) = Some (f, (c :: rest)).
Proof.
  intros Hc Hq. unfold Csv.write_field.
  destruct (Csv.has_special f) eqn:Hf.
  - cbn [app Csv.read_field]. rewrite N.eqb_refl.
    rewrite append_assoc. cbn [app].
    now apply read_quoted_written.
  - destruct f as [|c0 f].
    + cbn [app Csv.read_field]. rewrite Hq.
      cbn [Csv.read_plain]. now rewrite Hc.
    + cbn [app Csv.read_field].
      pose proof Hf as Hf'. cbn [Csv.has_special existsb] in Hf'.
      apply orb_false_iff in Hf' as [Hc0 _].
      rewrite (special_not_quote_cases _ Hc0).
      change (c0 :: f ++ (c :: rest))
        with ((c0 :: f) ++ (c :: rest)).
      now rewrite (read_plain_written (c0 :: f) (c :: rest) Hf Hc).
Qed.

Lemma write_field_inj (a b : pystr) (c : N) (r1 r2 : pystr) :
  Csv.is_special c = true -> N.eqb c Csv.dquote = false ->
  (Csv.write_field a ++ (c :: r1))
  = (Csv.write_field b ++ (c :: r2)) ->
  a = b /\ r1 = r2.
Proof.
  intros Hc Hq H. apply (f_equal Csv.read_field) in H.
  rewrite !read_field_written in H by assumption.
  injection H as -> ->. auto.
Qed.

Lemma slot_row_unfold (s : TicketSlot) :
  Csv.slot_row s
  = Csv.write_field (date s) ++ 44%N ::
    Csv.write_field (time s) ++ 44%N ::
    Csv.write_field (price s) ++ 44%N ::
    Csv.write_field (source s) ++ Csv.crlf.
Proof.
  unfold Csv.slot_row, Csv.writerow. cbn [map PyStr.join].
  destruct (Csv.write_field (date s)) as [|c r]; cbn [app];
    repeat (progress (rewrite ?append_assoc; cbn [app]));
    reflexivity.
Qed.

Lemma slot_row_inj (s s' : TicketSlot) (r1 r2 : pystr) :
  (Csv.slot_row s ++ r1) = (Csv.slot_row s' ++ r2) ->
  s = s' /\ r1 = r2.
Proof.
  rewrite !slot_row_unfold. intros H.
  rewrite !append_assoc in H. cbn [app] in H.
  apply write_field_inj in H as (Hd & H); [|reflexivity|reflexivity].
  rewrite !append_assoc in H. cbn [app] in H.
  apply write_field_inj in H as (Ht & H); [|reflexivity|reflexivity].
  rewrite !append_assoc in H. cbn [app] in H.
  apply write_field_inj in H as (Hp & H); [|reflexivity|reflexivity].
  rewrite !append_assoc in H. unfold Csv.crlf in H. cbn [app] in H.
  apply write_field_inj in H as (Hs & H); [|reflexivity|reflexivity].
  injection H as H. split; [|exact H].
  destruct s, s'. cbn in *. congruence.
Qed.

Lemma slot_row_nonempty (s : TicketSlot) (r : pystr) :
  Csv.slot_row s ++ r <> [].
Proof.
  rewrite slot_row_unfold.
  destruct (Csv.write_field (date s)); cbn [app]; discriminate.
Qed.

Lemma concat_rows_inj (l1 : list TicketSlot) :
  forall l2,
    concat (map Csv.slot_row l1) = concat (map Csv.slot_row l2) -> l1 = l2.
Proof.
  induction l1 as [|x l1 IH]; intros [|y l2]; cbn [map concat]; intros H.
  - reflexivity.
  - symmetry in H. now apply slot_row_nonempty in H.
  - now apply slot_row_nonempty in H.
  - apply slot_row_inj in H as (-> & H). f_equal. now apply IH.
Qed.

Lemma table_inj (l1 l2 : list TicketSlot) :
  Csv.table l1 = Csv.table l2 -> l1 = l2.
Proof.
  unfold Csv.table. intros H. apply append_inv_head in H.
  now apply concat_rows_inj.
Qed.

(** A successful save leaves the table under the path. *)
Lemma save_csv_ok (slots : list TicketSlot) (path : pystr)
    (open_ : pystr -> result unit) (fs fs' : files) :
  _save_csv slots path open_ fs = (fs', Ok tt) ->
  fs' = dict_set PyStr.eqb fs path (Csv.table slots).
Proof.
  unfold _save_csv. intros H. apply with_open_ok in H as (-> & _).
  reflexivity.
Qed.

(** X20: the CSV file determines the slots: two lists of slots that are
    written as the same text are the same list, also when fields hold
    commas, quotes or line breaks; so are two lists saved under one path
    with the same file as result. *)
Theorem X20_save_csv_injective (l1 l2 : list TicketSlot) :
  (Csv.table l1 = Csv.table l2 -> l1 = l2) /\
  (forall path open_ fs fs1 fs2,
      _save_csv l1 path open_ fs = (fs1, Ok tt) ->
      _save_csv l2 path open_ fs = (fs2, Ok tt) ->
      dict_get PyStr.eqb fs1 path = dict_get PyStr.eqb fs2 path ->
      l1 = l2).
Proof.
  split; [apply table_inj|].
  intros path open_ fs fs1 fs2 H1 H2.
  apply save_csv_ok in H1, H2. subst fs1 fs2.
  rewrite !(dict_get_set PyStr.eqb pystr_eqb_spec), pystr_eqb_refl.
  intros H. apply table_inj. congruence.
Qed.

Lemma X20_save_csv_injective_witness :
  let a := {| date := u "d"; time := u "10:30, " ++ [34%N] ++ u "AM" ++ [34%N; 10%N];
              price := u "$42"; source := u "dom" |} in
  let b := {| date := u "d"; time := u "10:40"; price := []; source := u "dom" |} in
  Csv.table [a; b] = Csv.table [a; b] /\
  _save_csv [a; b] (u "out.csv") (fun _ => Ok tt) []
  = ([(u "out.csv", Csv.table [a; b])], Ok tt) /\
  [a; b] = [a; b].
Proof.
  intros a b.
  assert (H : Csv.table [a; b] = Csv.table [a; b]) by reflexivity.
  split; [exact H|]. split; [reflexivity|].
  exact (proj1 (X20_save_csv_injective [a; b] [a; b]) H).
Defined.

(** ** Trimmed texts of the JSON scanner *)

(** X21: the time and the price of every slot the JSON scanner appends are
    trimmed and not empty: neither starts or ends with a white-space
    character, so stripping them again changes nothing. *)
Theorem X21_json_slot_texts_are_trimmed (payload : json) (out : list TicketSlot)
    (date0 : pystr) (s : TicketSlot) :
  In s (_collect_slots_from_json payload out date0) ->
  In s out \/
  (PyStr.strip (time s) = time s /\ PyStr.strip (price s) = price s /\
   no_leading_space (time s) = true /\ no_leading_space (price s) = true /\
   no_trailing_space (time s) = true /\ no_trailing_space (price s) = true /\
   time s <> [] /\ price s <> []).
Proof.
  rewrite collect_app. intros H. apply in_app_or in H as [H|H]; [now left|right].
  apply emitted_origin in H as (entries & _ & H).
  apply slot_of_mapping_inv in H
    as (tk & pk & pre & m & minutes & _ & _ & Hs & Hsearch & _ & _ & Hprice).
  assert (Htime : time s <> []).
  { apply search_minute_sound in Hsearch as (post & Ht & (_ & Hlen & _)).
    rewrite Ht. intros Hnil. apply (f_equal (@List.length N)) in Hnil.
    rewrite !length_app in Hnil. cbn [List.length] in Hnil.
    destruct Hlen as [Hlen|Hlen]; rewrite Hlen in Hnil; lia. }
  rewrite Hs in *. cbn [time price] in *. rewrite !strip_idempotent.
  repeat (split; [solve [auto using strip_no_leading_space,
                                    strip_no_trailing_space]|]).
  exact Hprice.
Qed.

Lemma X21_json_slot_texts_are_trimmed_witness :
  let s := {| date := u "d"; time := u "10:30 AM"; price := u "$ 42";
              source := u "network-json" |} in
  let payload :=
    JDict [(u "time", JStr ([160%N] ++ u "  10:30 AM  "));
           (u "price", JStr (u "  $ 42 " ++ [8195%N]))] in
  In s (_collect_slots_from_json payload [] (u "d")) /\
  (In s [] \/
   (PyStr.strip (time s) = time s /\ PyStr.strip (price s) = price s /\
    no_leading_space (time s) = true /\ no_leading_space (price s) = true /\
    no_trailing_space (time s) = true /\ no_trailing_space (price s) = true /\
    time s <> [] /\ price s <> [])).
Proof.
  intros s payload.
  assert (H : In s (_collect_slots_from_json payload [] (u "d"))) by (vm_compute; auto).
  split; [exact H|].
  exact (X21_json_slot_texts_are_trimmed payload [] (u "d") s H).
Defined.

(** ** The whole scrape *)

Lemma network_slot_origin (rs : list Response) (date0 : pystr) (s : TicketSlot) :
  In s (slots_after_responses rs date0) ->
  date s = date0 /\ source s = u "network-json".
Proof.
  rewrite slots_after_responses_flat_map. intros H.
  apply in_flat_map in H as (r & _ & H).
  rewrite on_response_accepted in H. cbn [app] in H.
  destruct (accepted_payload r) as [payload|]; [|destruct H].
  apply emitted_origin in H as (entries & _ & H).
  apply slot_of_mapping_inv in H as (tk & pk & pre & m & minutes & _ & _ & -> & _).
  now split.
Qed.

Lemma out_paths_differ (prefix : pystr) :
  PyStr.eqb (prefix ++ u ".json") (prefix ++ u ".csv") = false.
Proof.
  apply pystr_eqb_neq. intros H. apply app_inv_head in H.
  vm_compute in H. discriminate.
Qed.

(** What a scrape that returns has done. *)
Lemma scrape_returns (date0 prefix : pystr) (run : Run) (fs fs' : files)
    (slots : list TicketSlot) :
  scrape_top_of_rock date0 prefix run fs = (fs', Ok slots) ->
  exists dom_slots,
    _collect_slots_from_dom (page run) date0 = Ok dom_slots /\
    slots = reconcile (slots_after_responses (responses run) date0) dom_slots /\
    fs' = dict_set PyStr.eqb
            (dict_set PyStr.eqb fs (prefix ++ u ".json") (Json.dumps slots))
            (prefix ++ u ".csv") (Csv.table slots).
Proof.
  unfold scrape_top_of_rock. cbv zeta.
  destruct (start run) as [[]|e]; cbn [bind]; [|discriminate].
  destruct (goto run) as [[]|e]; cbn [bind]; [|discriminate].
  destruct (settle run) as [[]|e]; cbn [bind]; [|discriminate].
  destruct (open_widget (ctas run)) as [[]|e]; cbn [bind]; [|discriminate].
  destruct (_collect_slots_from_dom (page run) date0) as [dom_slots|e];
    cbn [bind]; [|discriminate].
  destruct (close run) as [[]|e]; cbn [bind]; [|discriminate].
  fold (reconcile (slots_after_responses (responses run) date0) dom_slots).
  set (result := reconcile _ dom_slots).
  rewrite save_json_unfold.
  destruct (open_ run (prefix ++ u ".json")) as [[]|e]; [|discriminate].
  destruct (_save_csv result (prefix ++ u ".csv") (open_ run) _)
    as [fs2 [[]|e]] eqn:Ecsv; [|discriminate].
  apply save_csv_ok in Ecsv.
  destruct (report run) as [[]|e]; [|discriminate].
  intros [= <- <-]. exists dom_slots. auto.
Qed.

(** X16: when the scrape returns, the list returned is the reconciliation
    of the slots gathered from the responses and of the rendered-text
    scanner's slots: it is sorted by (time, price), no key occurs twice, and
    every slot carries the date of the run and one of the two source tags.
    The same list has been written to the two files named after the prefix,
    and no other file has changed. *)
Theorem X16_scrape_result_invariants (date0 prefix : pystr) (run : Run)
    (fs fs' : files) (slots : list TicketSlot) :
  scrape_top_of_rock date0 prefix run fs = (fs', Ok slots) ->
  (exists dom_slots,
      _collect_slots_from_dom (page run) date0 = Ok dom_slots /\
      slots = reconcile (slots_after_responses (responses run) date0) dom_slots) /\
  StronglySorted key_le slots /\
  NoDup (map slot_key slots) /\
  (forall s, In s slots ->
             date s = date0 /\ (source s = u "network-json" \/ source s = u "dom")) /\
  dict_get PyStr.eqb fs' (prefix ++ u ".json") = Some (Json.dumps slots) /\
  dict_get PyStr.eqb fs' (prefix ++ u ".csv") = Some (Csv.table slots) /\
  (forall path,
      path <> prefix ++ u ".json" -> path <> prefix ++ u ".csv" ->
      dict_get PyStr.eqb fs' path = dict_get PyStr.eqb fs path).
Proof.
  intros H. apply scrape_returns in H as (dom_slots & Hdom & -> & ->).
  split; [now exists dom_slots|].
  split; [apply sorted_sorted|]. split; [apply reconcile_keys_NoDup|].
  split; [|split; [|split]].
  - intros s Hs. apply reconcile_In in Hs.
    apply last_with_key_Some in Hs as [[Hin _]|]; [|discriminate].
    apply in_app_or in Hin as [Hin|Hin].
    + apply network_slot_origin in Hin as (Hd & Hsrc). auto.
    + destruct (collect_slots_from_dom_origin _ _ _ _ Hdom Hin)
        as (n & el & _ & _ & Hslot).
      apply scan_candidate_slot in Hslot
        as (? & ? & ? & ? & ? & ? & ? & _ & _ & _ & _ & _ & _ & _ & _ & _ & _ & _ & ->).
      cbn [date source]. auto.
  - rewrite !(dict_get_set PyStr.eqb pystr_eqb_spec).
    rewrite pystr_eqb_sym, out_paths_differ. now rewrite pystr_eqb_refl.
  - rewrite (dict_get_set PyStr.eqb pystr_eqb_spec). now rewrite pystr_eqb_refl.
  - intros path Hj Hc. rewrite !(dict_get_set PyStr.eqb pystr_eqb_spec).
    apply not_eq_sym in Hj, Hc.
    apply pystr_eqb_neq in Hj, Hc. now rewrite Hj, Hc.
Qed.

Lemma X16_scrape_result_invariants_witness :
  let run :=
    quiet_run
      [json_response
         (JList [JDict [(u "time", JStr (u "9:50")); (u "price", JStr (u "$40"))]])]
      (page_of [text_element "10:30 AM $42" ""; text_element "9:50 $40" ""]) in
  let slots :=
    [{| date := u "d"; time := u "10:30 AM"; price := u "$42"; source := u "dom" |};
     {| date := u "d"; time := u "9:50"; price := u "$40"; source := u "dom" |}] in
  let fs' := [(u "out.json", Json.dumps slots); (u "out.csv", Csv.table slots)] in
  scrape_top_of_rock (u "d") (u "out") run [] = (fs', Ok slots) /\
  StronglySorted key_le slots /\
  NoDup (map slot_key slots) /\
  dict_get PyStr.eqb fs' (u "out" ++ u ".csv") = Some (Csv.table slots).
Proof.
  intros run slots fs'.
  assert (H : scrape_top_of_rock (u "d") (u "out") run [] = (fs', Ok slots))
    by (vm_compute; reflexivity).
  split; [exact H|].
  pose proof (X16_scrape_result_invariants (u "d") (u "out") run [] fs' slots H)
    as (_ & Hsorted & Hnodup & _ & _ & Hcsv & _).
  auto.
Defined.


